(** * A typed object mapper over a revision-tagged document store

    Shallow embedding of [orm.py] (the type-directed marshaller and the
    [Orm] facade) and of [db.py] (the document-store client), followed by
    the properties of the specification that they satisfy or break.

    Modelling choices, all taken from the Python sources:

    - a Python [dict] is an association list in insertion order with
      pairwise distinct keys ([dict_set] overwrites in place and appends new
      keys, as CPython does).  Order matters here: a dict comprehension
      whose converted keys collide keeps the last value, and the first
      failing field decides which exception [deserialize] raises;
    - the [requests] session and the store behind it are a parameter: a
      state machine answering each request with a response or an exception;
    - [float], [Decimal] and [datetime] are carried abstractly (class
      [Carriers]) and the conversions of the Python library that compute
      with them are the operations of class [Builtins]; an object of any
      other type (a tuple, a set, an instance of a class that is no
      dataclass) is an opaque [other], with its own subscript, length,
      iteration and truth value;
    - a default factory is a call with effects ([uuid4] draws from the
      operating system): what it returns, or raises, is a function of the
      [place] of the call in the run, so that two calls are independent;
    - the call [model_class(...)] at the end of [deserialize] is the
      generated [__init__], which rejects a keyword that is no parameter
      (a [field(init=False)]), followed by the class's [__post_init__],
      which may raise;
    - an exception is a value of type [exn]; code that can raise returns a
      [result]. *)

From Stdlib Require Import ZArith String List Bool Lia.
From stdpp Require Import base decidable option list strings pretty.

Set Warnings "-register-all".

Local Open Scope Z_scope.
Local Open Scope string_scope.
Local Open Scope list_scope.

(** ** Exceptions and results *)

Inductive exn_kind :=
  | TypeError | ValueError | KeyError | IndexError | AttributeError
  | InvalidOperation | OverflowError | JSONDecodeError | ConnectionError.

(** [cause] is [__cause__], set by [raise ... from e]. *)
Inductive exn := Exn (kind : exn_kind) (msg : string) (cause : option exn).

Definition exn_msg (e : exn) : string := let 'Exn _ m _ := e in m.
Definition exn_cause (e : exn) : option exn := let 'Exn _ _ c := e in c.
Definition exn_kind_of (e : exn) : exn_kind := let 'Exn k _ _ := e in k.

(** The last link of the [__cause__] chain. *)
Fixpoint root_cause (e : exn) : exn :=
  match e with
  | Exn _ _ (Some c) => root_cause c
  | Exn _ _ None => e
  end.

Inductive result (A : Type) :=
  | Ok (a : A)
  | Raise (e : exn).
Arguments Ok {A} a.
Arguments Raise {A} e.

Definition is_ok {A} (r : result A) : bool :=
  match r with Ok _ => true | Raise _ => false end.

Global Instance result_ret : MRet result := λ A a, Ok a.
Global Instance result_bind : MBind result := λ A B f r,
  match r with Ok a => f a | Raise e => Raise e end.
Global Instance result_fmap : FMap result := λ A B f r,
  match r with Ok a => Ok (f a) | Raise e => Raise e end.

(** [[f(x) for x in l]] where [f] can raise: the first exception wins. *)
Fixpoint mapR {A B} (f : A → result B) (l : list A) : result (list B) :=
  match l with
  | [] => Ok []
  | x :: l' => y ← f x; ys ← mapR f l'; Ok (y :: ys)
  end.

(** [enumerate(l)] from [i] on *)
Fixpoint enumerate_from {A} (i : nat) (l : list A) : list (nat * A) :=
  match l with
  | [] => []
  | x :: l' => (i, x) :: enumerate_from (S i) l'
  end.

Definition enumerate {A} (l : list A) : list (nat * A) := enumerate_from 0 l.

(** ** Python dictionaries *)

Section dict.
Context {K V : Type} `{EqDecision K}.

(** [d.get(k)] *)
Fixpoint dict_get (d : list (K * V)) (k : K) : option V :=
  match d with
  | [] => None
  | (k', v) :: d' => if decide (k' = k) then Some v else dict_get d' k
  end.

(** [k in d] *)
Definition dict_mem (d : list (K * V)) (k : K) : bool :=
  bool_decide (is_Some (dict_get d k)).

(** [d[k] = v] *)
Fixpoint dict_set (d : list (K * V)) (k : K) (v : V) : list (K * V) :=
  match d with
  | [] => [(k, v)]
  | (k', v') :: d' =>
      if decide (k' = k) then (k', v) :: d' else (k', v') :: dict_set d' k v
  end.

(** [d.pop(k, None)], the returned value dropped *)
Fixpoint dict_pop (d : list (K * V)) (k : K) : list (K * V) :=
  match d with
  | [] => []
  | (k', v') :: d' =>
      if decide (k' = k) then dict_pop d' k else (k', v') :: dict_pop d' k
  end.

(** [d.update(e)] *)
Definition dict_update (d e : list (K * V)) : list (K * V) :=
  fold_left (λ acc kv, dict_set acc kv.1 kv.2) e d.

(** [{k: v for k, v in items}] *)
Definition dict_of_items (items : list (K * V)) : list (K * V) :=
  dict_update [] items.

Definition keys (d : list (K * V)) : list K := d.*1.

Lemma dict_get_set_eq d k v : dict_get (dict_set d k v) k = Some v.
Proof.
  induction d as [|[k' v'] d IH]; simpl.
  - by rewrite decide_True.
  - destruct (decide (k' = k)) as [->|Hne]; simpl.
    + by rewrite decide_True.
    + by rewrite decide_False.
Qed.

Lemma dict_get_set_ne d k k' v :
  k ≠ k' → dict_get (dict_set d k v) k' = dict_get d k'.
Proof.
  intros Hne. induction d as [|[k0 v0] d IH]; simpl.
  - by rewrite decide_False.
  - destruct (decide (k0 = k)) as [->|Hk]; simpl.
    + by rewrite !decide_False.
    + destruct (decide (k0 = k')); auto.
Qed.

Lemma dict_get_pop_eq d k : dict_get (dict_pop d k) k = None.
Proof.
  induction d as [|[k' v'] d IH]; simpl; auto.
  destruct (decide (k' = k)); simpl; auto. by rewrite decide_False.
Qed.

Lemma dict_get_pop_ne d k k' :
  k ≠ k' → dict_get (dict_pop d k) k' = dict_get d k'.
Proof.
  intros Hne. induction d as [|[k0 v0] d IH]; simpl; auto.
  destruct (decide (k0 = k)) as [->|Hk]; simpl.
  - by rewrite decide_False.
  - destruct (decide (k0 = k')); auto.
Qed.

Lemma dict_pop_absent d k : dict_get d k = None → dict_pop d k = d.
Proof.
  induction d as [|[k' v'] d IH]; simpl; auto.
  destruct (decide (k' = k)); [done|]. intros H. by rewrite IH.
Qed.

Lemma dict_get_None d k : dict_get d k = None ↔ k ∉ keys d.
Proof.
  unfold keys. induction d as [|[k' v'] d IH]; simpl.
  - split; [intros _; apply not_elem_of_nil | done].
  - rewrite not_elem_of_cons. destruct (decide (k' = k)) as [->|Hne].
    + split; [done | intros [? _]; done].
    + rewrite IH. split; [intros ?; split; auto | intros [_ ?]; done].
Qed.

Lemma dict_get_Some_elem d k v : dict_get d k = Some v → (k, v) ∈ d.
Proof.
  induction d as [|[k' v'] d IH]; simpl; [done|].
  destruct (decide (k' = k)) as [->|Hne].
  - intros [= ->]. apply list_elem_of_here.
  - intros H. apply list_elem_of_further. auto.
Qed.

Lemma keys_dict_set_present d k v :
  is_Some (dict_get d k) → keys (dict_set d k v) = keys d.
Proof.
  unfold keys. induction d as [|[k' v'] d IH]; simpl.
  - intros [? ?]; done.
  - destruct (decide (k' = k)); [done|].
    intros H. rewrite !fmap_cons. f_equal. by apply IH.
Qed.

Lemma dict_set_absent d k v :
  dict_get d k = None → dict_set d k v = d ++ [(k, v)].
Proof.
  induction d as [|[k' v'] d IH]; simpl; [done|].
  destruct (decide (k' = k)); [done|]. intros H. by rewrite IH.
Qed.

(** A dict comprehension over items with distinct keys keeps them all,
    in order. *)
Lemma dict_of_items_NoDup items :
  NoDup (keys items) → dict_of_items items = items.
Proof.
  unfold dict_of_items, dict_update.
  enough (∀ acc, NoDup (keys (acc ++ items)) →
    fold_left (λ acc kv, dict_set acc kv.1 kv.2) items acc = acc ++ items)
    as H by (intros; by apply (H [])).
  induction items as [|[k v] items IH]; intros acc Hnd; simpl.
  - by rewrite app_nil_r.
  - rewrite dict_set_absent.
    + rewrite IH; rewrite <- app_assoc; done.
    + apply dict_get_None. unfold keys in *.
      rewrite fmap_app in Hnd. simpl in Hnd.
      apply NoDup_app in Hnd as (_ & Hd & _).
      intros Hin. apply (Hd k Hin). apply list_elem_of_here.
Qed.

Lemma dict_get_update d e k :
  NoDup (keys e) →
  dict_get (dict_update d e) k =
    match dict_get e k with Some v => Some v | None => dict_get d k end.
Proof.
  unfold dict_update. revert d.
  induction e as [|[k' v'] e IH]; intros d Hnd; simpl; [done|].
  unfold keys in Hnd. simpl in Hnd. apply NoDup_cons in Hnd as [Hk Hnd].
  rewrite IH by done.
  destruct (decide (k' = k)) as [->|Hne].
  - apply dict_get_None in Hk. rewrite Hk. apply dict_get_set_eq.
  - destruct (dict_get e k); [done|]. by apply dict_get_set_ne.
Qed.
End dict.

(** ** Python values *)

(** The value types of the Python library that the code moves around
    without computing on them itself.  [other] stands for the objects of
    every type for which the code has no branch: a tuple, a set, an
    instance of a class that is no dataclass. *)
Class Carriers := {
  pyfloat : Type;
  decimal : Type;
  datetime : Type;
  other : Type;
  pyfloat_eq_dec :: EqDecision pyfloat;
  decimal_eq_dec :: EqDecision decimal;
  datetime_eq_dec :: EqDecision datetime;
  other_eq_dec :: EqDecision other;
  (** [type(o).__name__] *)
  other_type_name : other → string;
}.

Section values.
Context {C : Carriers}.

(** Scalars and opaque objects: what can be a dictionary key.  Keys are
    compared structurally; Python also identifies numerically equal keys of
    different types ([1], [1.0], [True]), which no function below relies
    on.  An opaque object that sits in key position is a hashable one (a
    tuple, not a set): Python has no dict with another key. *)
Inductive atom :=
  | ANone
  | ABool (b : bool)
  | AInt (z : Z)
  | AFloat (f : pyfloat)
  | AStr (s : string)
  | ADecimal (d : decimal)
  | ADatetime (t : datetime)
  | AOther (o : other).

#[global] Instance atom_eq_dec : EqDecision atom.
Proof. solve_decision. Defined.

(** A dataclass instance is its class name and its attributes in field
    order ([dataclasses.fields] enumerates exactly these). *)
Inductive value :=
  | VAtom (a : atom)
  | VList (l : list value)
  | VDict (d : list (atom * value))
  | VInst (cls : string) (attrs : list (string * value)).

(** [type(v).__name__] *)
Definition type_name (v : value) : string :=
  match v with
  | VAtom ANone => "NoneType"
  | VAtom (ABool _) => "bool"
  | VAtom (AInt _) => "int"
  | VAtom (AFloat _) => "float"
  | VAtom (AStr _) => "str"
  | VAtom (ADecimal _) => "Decimal"
  | VAtom (ADatetime _) => "datetime"
  | VAtom (AOther o) => other_type_name o
  | VList _ => "list"
  | VDict _ => "dict"
  | VInst cls _ => cls
  end.

(** The key under which a value is stored in a dict; containers and
    (non-frozen) dataclass instances are unhashable. *)
Definition as_key (v : value) : result atom :=
  match v with
  | VAtom a => Ok a
  | _ => Raise (Exn TypeError ("unhashable type: '" +:+ type_name v +:+ "'") None)
  end.

(** [setattr(self, name, x)] on a dataclass instance *)
Definition set_attr (self : value) (name : string) (x : value) : value :=
  match self with
  | VInst cls attrs => VInst cls (dict_set attrs name x)
  | _ => self
  end.

(** [getattr(self, name)], [None] when there is no such attribute *)
Definition get_attr (self : value) (name : string) : option value :=
  match self with
  | VInst _ attrs => dict_get attrs name
  | _ => None
  end.

End values.

Abbreviation VNone := (VAtom ANone).
Abbreviation VBool b := (VAtom (ABool b)).
Abbreviation VInt z := (VAtom (AInt z)).
Abbreviation VFloat f := (VAtom (AFloat f)).
Abbreviation VStr s := (VAtom (AStr s)).
Abbreviation VDecimal d := (VAtom (ADecimal d)).
Abbreviation VDatetime t := (VAtom (ADatetime t)).
Abbreviation VOther o := (VAtom (AOther o)).

(** The part of the Python library the marshaller calls.  The conversions
    of a value that already has the target type, and the type errors of
    [fromisoformat], are written out in [py_int] ... [py_fromisoformat]
    below; everything that needs arithmetic or parsing is an operation
    here. *)
Class Builtins `{C : Carriers} := {
  (** [str(d)] for a [Decimal] *)
  decimal_str : decimal → string;
  (** [Decimal(s)] for a [str] *)
  decimal_of_str : string → result decimal;
  (** [t.isoformat()] *)
  isoformat : datetime → string;
  (** [datetime.fromisoformat(s)] for a [str] *)
  fromisoformat_str : string → result datetime;
  (** [f != 0.0] and [d != 0], the truth values of numbers *)
  float_nonzero : pyfloat → bool;
  decimal_nonzero : decimal → bool;
  (** [int(v)] for [v] not an [int] *)
  int_conv : value → result Z;
  (** [float(v)] for [v] not a [float] *)
  float_conv : value → result pyfloat;
  (** [str(v)] for [v] not a [str]; never raises on these types *)
  str_conv : value → string;
  (** [Decimal(v)] for [v] neither a [str] nor a [Decimal] *)
  decimal_conv : value → result decimal;
  (** [bool(o)], [o[key]], [len(o)], the items of [for x in o],
      [o.get(k, dflt)] and [name in o] for an opaque object *)
  other_nonzero : other → bool;
  other_getitem : other → value → result value;
  other_len : other → result nat;
  other_iter : other → result (list value);
  other_get : other → atom → value → result value;
  other_contains : other → string → result bool;
  (** What the generated [__init__] of the dataclass named [cls] does
      once every keyword is accepted: it binds its other parameters (a
      required [InitVar] that no keyword gives is a [TypeError]), assigns
      the attributes and runs [__post_init__], which returns or raises.
      A class without such parameters and hook returns.  (A hook that
      reassigns attributes is not covered.) *)
  post_init : string → list (string * value) → result unit;
}.

Section builtins.
Context `{B : Builtins}.

(** [bool(v)], also the test of [if v:] and [not v] *)
Definition truthy (v : value) : bool :=
  match v with
  | VNone => false
  | VBool b => b
  | VInt z => negb (Z.eqb z 0)
  | VFloat f => float_nonzero f
  | VStr s => negb (String.eqb s "")
  | VDecimal d => decimal_nonzero d
  | VDatetime _ => true
  | VOther o => other_nonzero o
  | VList l => negb (bool_decide (l = []))
  | VDict d => negb (bool_decide (d = []))
  | VInst _ _ => true
  end.

Definition py_int (v : value) : result value :=
  match v with
  | VInt _ => Ok v
  | _ => z ← int_conv v; Ok (VInt z)
  end.

Definition py_float (v : value) : result value :=
  match v with
  | VFloat _ => Ok v
  | _ => f ← float_conv v; Ok (VFloat f)
  end.

Definition py_str (v : value) : string :=
  match v with
  | VStr s => s
  | _ => str_conv v
  end.

Definition py_bool (v : value) : value := VBool (truthy v).

Definition py_Decimal (v : value) : result value :=
  match v with
  | VDecimal _ => Ok v
  | VStr s => d ← decimal_of_str s; Ok (VDecimal d)
  | _ => d ← decimal_conv v; Ok (VDecimal d)
  end.

Definition py_fromisoformat (v : value) : result value :=
  match v with
  | VStr s => t ← fromisoformat_str s; Ok (VDatetime t)
  | _ => Raise (Exn TypeError "fromisoformat: argument must be str" None)
  end.

End builtins.

(** ** Model schemas *)

Section schema.
Context {C : Carriers}.

(** Where in a run a value is converted or a default factory is called:
    the steps from there up to the call of [deserialize], innermost first.
    No two calls of a factory in one run share a place, and two calls of
    [deserialize] are told apart by their last step. *)
Inductive step :=
  | InField (name : string)
  | InItem (i : nat)
  | InKey (i : nat)
  | InValue (i : nat)
  | InCall (n : nat).

Definition place : Type := list step.

(** A field annotation as [deserialize_value] reads it through
    [get_origin], [get_args] and [is_dataclass].  [TList]/[TDict] carry the
    arguments after the source's [args[0] if args else Any]; [TOther] is
    [Any] and every annotation no branch recognises (a bare class, a union
    of several types, a forward reference), which reaches the fallback.
    A field is what [dataclasses.fields] tells of it; its default factory
    is given by what a call of it at a [place] returns or raises. *)
Inductive ftype :=
  | TInt | TFloat | TStr | TBool
  | TDecimal
  | TDatetime
  | TOptional (t : ftype)
  | TList (item : ftype)
  | TDict (key val : ftype)
  | TData (cls : string) (flds : list field)
  | TOther
with field :=
  | Field (name : string) (type : ftype)
          (default : option value)
          (default_factory : option (place → result value))
          (init : bool).

Definition field_name (f : field) : string := let 'Field n _ _ _ _ := f in n.
Definition field_type (f : field) : ftype := let 'Field _ t _ _ _ := f in t.
Definition field_default (f : field) : option value :=
  let 'Field _ _ d _ _ := f in d.
Definition field_default_factory (f : field) : option (place → result value) :=
  let 'Field _ _ _ g _ := f in g.
(** [field.init]: whether the generated [__init__] takes the field as a
    parameter; [fields()] lists the field either way. *)
Definition field_init (f : field) : bool := let 'Field _ _ _ _ i := f in i.

End schema.

(** ** The marshaller ([orm.py]) *)

Section marshaller.
Context `{B : Builtins}.

(** The loop of [serialize] over [fields(model_instance)], with the inner
    [serialize_value] as parameter. *)
Definition serialize_fields (sv : value → value)
    (attrs : list (string * value)) : list (atom * value) :=
  fold_left (λ serialized_data fv, dict_set serialized_data (AStr fv.1) (sv fv.2))
            attrs [].

Fixpoint serialize_value (v : value) : value :=
  match v with
  | VDecimal d => VStr (decimal_str d)
  | VDatetime t => VStr (isoformat t)
  | VInst _ attrs => VDict (serialize_fields serialize_value attrs)
  | VList l => VList (map serialize_value l)
  | VDict d => VDict (dict_of_items (map (λ kv, (kv.1, serialize_value kv.2)) d))
  | VAtom _ => v
  end.

Definition serialize (model_instance : value) : result (list (atom * value)) :=
  match model_instance with
  | VInst _ attrs => Ok (serialize_fields serialize_value attrs)
  | _ => Raise (Exn ValueError "serialize function expects a dataclass instance" None)
  end.

(** [raise ValueError(f"Error deserializing field '{field_name}': {e}") from e] *)
Definition field_error (name : string) (e : exn) : exn :=
  Exn ValueError
      ("Error deserializing field '" +:+ name +:+ "': " +:+ exn_msg e)
      (Some e).

Definition wrap_field {A} (name : string) (r : result A) : result A :=
  match r with
  | Ok a => Ok a
  | Raise e => Raise (field_error name e)
  end.

(** The value given to a field that the document lacks; [here] is the
    place of the field.  The call of the factory stands outside the [try]
    block, so what it raises is not wrapped. *)
Definition missing_field (here : place) (f : field) : result value :=
  match field_default f with
  | Some d => Ok d
  | None =>
      match field_default_factory f with
      | Some g => g here
      | None => Ok VNone
      end
  end.

(** The call of [model_class] with one keyword per field: the
    generated [__init__] raises a [TypeError] for the first keyword that is
    no parameter; otherwise it assigns the attributes and goes on as
    [post_init] tells. *)
Definition construct (cls : string) (flds : list field)
    (deserialized_data : list (string * value)) : result value :=
  match List.find (λ f, negb (field_init f)) flds with
  | Some f =>
      Raise (Exn TypeError
               (cls +:+ ".__init__() got an unexpected keyword argument '"
                +:+ field_name f +:+ "'") None)
  | None =>
      _ ← post_init cls deserialized_data;
      Ok (VInst cls deserialized_data)
  end.

Section fields_loop.
(** The inner [deserialize_value], the place of the document and the
    document are fixed during the loop of [deserialize] over
    [fields(model_class)]. *)
Variable dv : place → ftype → value → result value.
Variable here : place.
Variable data : list (atom * value).

(** One turn of the loop: the value stored under the field's name. *)
Definition field_value (f : field) : result value :=
  match dict_get data (AStr (field_name f)) with
  | Some raw_value =>
      wrap_field (field_name f)
        (dv (InField (field_name f) :: here) (field_type f) raw_value)
  | None => missing_field (InField (field_name f) :: here) f
  end.

Fixpoint fill_fields (fs : list field) (deserialized_data : list (string * value))
    : result (list (string * value)) :=
  match fs with
  | [] => Ok deserialized_data
  | f :: fs' =>
      x ← field_value f;
      fill_fields fs' (dict_set deserialized_data (field_name f) x)
  end.

End fields_loop.

(** The body of [deserialize] for a dataclass [cls] with fields [flds]: the
    loop filling [deserialized_data], then the call of [model_class] on it
    as keyword arguments. *)
Definition deserialize_fields (dv : place → ftype → value → result value)
    (here : place) (cls : string) (flds : list field)
    (data : list (atom * value)) : result value :=
  deserialized_data ← fill_fields dv here data flds [];
  construct cls flds deserialized_data.

Definition expected (what : string) (v : value) : exn :=
  Exn TypeError ("Expected " +:+ what +:+ ", got " +:+ type_name v) None.

(** The inner [deserialize_value]; [here] is the place of [v].  In the
    dict comprehension the key of an entry is converted before its value
    (the order of evaluation since Python 3.8). *)
Fixpoint deserialize_value (here : place) (t : ftype) (v : value) {struct t}
    : result value :=
  match v with
  | VNone => Ok VNone
  | _ =>
    match t with
    | TOptional t' => deserialize_value here t' v
    | TList item =>
        match v with
        | VList l =>
            l' ← mapR (λ ix, deserialize_value (InItem ix.1 :: here) item ix.2)
                      (enumerate l);
            Ok (VList l')
        | _ => Raise (expected "list for field" v)
        end
    | TDict key val =>
        match v with
        | VDict d =>
            items ← mapR (λ ikv,
                       k ← deserialize_value (InKey ikv.1 :: here) key
                             (VAtom ikv.2.1);
                       x ← deserialize_value (InValue ikv.1 :: here) val
                             ikv.2.2;
                       k' ← as_key k;
                       Ok (k', x)) (enumerate d);
            Ok (VDict (dict_of_items items))
        | _ => Raise (expected "dict for field" v)
        end
    | TData cls flds =>
        match v with
        | VDict d => deserialize_fields deserialize_value here cls flds d
        | _ => Raise (expected "dict for dataclass field" v)
        end
    | TDecimal => py_Decimal v
    | TDatetime => py_fromisoformat v
    | TInt => py_int v
    | TFloat => py_float v
    | TStr => Ok (VStr (py_str v))
    | TBool => Ok (py_bool v)
    | TOther => Ok v
    end
  end.

(** [here] tells this call of [deserialize] from the others of the run. *)
Definition deserialize (here : place) (model_class : ftype)
    (data : list (atom * value)) : result value :=
  match model_class with
  | TData cls flds => deserialize_fields deserialize_value here cls flds data
  | _ => Raise (Exn ValueError "deserialize function expects a dataclass type" None)
  end.

End marshaller.

(** ** Instances of a declared schema *)

Section typing.
Context `{B : Builtins}.

(** [v] is a value of the declared kind [t]: null (a dataclass does not
    enforce its annotations, and the base class itself declares
    [_rev: str = None]), a scalar of the named type, an inner value for
    optional-of, a list of items, a dict (with distinct keys) of typed keys
    and values, an instance of the named class holding one typed attribute
    per declared field, in order.  [TOther] is not one of the declared
    kinds. *)
Fixpoint has_type (t : ftype) (v : value) {struct t} : bool :=
  match v with
  | VNone => true
  | _ =>
    match t with
    | TInt => match v with VInt _ => true | _ => false end
    | TFloat => match v with VFloat _ => true | _ => false end
    | TStr => match v with VStr _ => true | _ => false end
    | TBool => match v with VBool _ => true | _ => false end
    | TDecimal => match v with VDecimal _ => true | _ => false end
    | TDatetime => match v with VDatetime _ => true | _ => false end
    | TOptional t' => has_type t' v
    | TList item =>
        match v with
        | VList l => forallb (has_type item) l
        | _ => false
        end
    | TDict key val =>
        match v with
        | VDict d =>
            bool_decide (NoDup (keys d))
            && forallb (λ kv, has_type key (VAtom kv.1) && has_type val kv.2) d
        | _ => false
        end
    | TData cls flds =>
        match v with
        | VInst cls' attrs =>
            bool_decide (cls' = cls)
            && (fix typed (fs : list field) (xs : list (string * value)) : bool :=
                  match fs, xs with
                  | [], [] => true
                  | f :: fs', x :: xs' =>
                      bool_decide (x.1 = field_name f)
                      && has_type (field_type f) x.2
                      && typed fs' xs'
                  | _, _ => false
                  end) flds attrs
        | _ => false
        end
    | TOther => false
    end
  end.

(** [m] is an instance of the model [t]. *)
Definition instance_of (t : ftype) (m : value) : bool :=
  match m with
  | VInst _ _ => has_type t m
  | _ => false
  end.

(** Every [Decimal] and [datetime] that [v] holds in value position is
    given back by its own text form: [Decimal(str(d))] is [d] and
    [datetime.fromisoformat(t.isoformat())] is [t].  The library does not
    promise this of every value: the text of a timestamp carries neither
    its [fold] nor its [tzinfo] object. *)
Fixpoint restorable (v : value) : bool :=
  match v with
  | VDecimal d =>
      match decimal_of_str (decimal_str d) with
      | Ok d' => bool_decide (d' = d)
      | Raise _ => false
      end
  | VDatetime t =>
      match fromisoformat_str (isoformat t) with
      | Ok t' => bool_decide (t' = t)
      | Raise _ => false
      end
  | VAtom _ => true
  | VList l => forallb restorable l
  | VDict d => forallb (λ kv, restorable kv.2) d
  | VInst _ attrs => forallb (λ fv, restorable fv.2) attrs
  end.

(** The kinds whose values [deserialize_value] returns as they are, so
    that a key left alone by [serialize] survives: the primitive kinds,
    decimal, and optional-of these. *)
Fixpoint key_kind (t : ftype) : bool :=
  match t with
  | TInt | TFloat | TStr | TBool | TDecimal => true
  | TOptional t' => key_kind t'
  | _ => false
  end.

(** A schema as a dataclass declares it, with distinct field names in
    every model, in which every field is a parameter of [__init__] and
    whose maps are keyed by a [key_kind]. *)
Fixpoint schema_ok (t : ftype) : bool :=
  match t with
  | TOptional t' => schema_ok t'
  | TList item => schema_ok item
  | TDict key val => key_kind key && schema_ok val
  | TData _ flds =>
      bool_decide (NoDup (map field_name flds))
      && forallb field_init flds
      && forallb (λ f, schema_ok (field_type f)) flds
  | _ => true
  end.

(** The constructor of no model class of the run raises once its keywords
    are accepted: none has a further required parameter or a
    [__post_init__] that raises. *)
Definition no_post_init_raises : Prop :=
  ∀ cls attrs, post_init cls attrs = Ok ().

End typing.

(** ** Subscripts, lengths and iteration on values *)

Section subscripts.
Context `{B : Builtins}.

(** [repr(k)] of a key, as [str(KeyError(k))] shows it *)
Definition key_repr (k : atom) : string :=
  match k with
  | AStr s => "'" +:+ s +:+ "'"
  | _ => str_conv (VAtom k)
  end.

(** [seq[i]] on a sequence of length [n]: negative indices count from the
    end. *)
Definition seq_index {A} (l : list A) (i : Z) : option A :=
  let n := Z.of_nat (length l) in
  let j := if Z.ltb i 0 then i + n else i in
  if Z.ltb j 0 then None else l !! Z.to_nat j.

Definition chars (s : string) : list value :=
  map (λ c, VStr (String c EmptyString)) (list_ascii_of_string s).

Definition not_subscriptable (v : value) : exn :=
  Exn TypeError ("'" +:+ type_name v +:+ "' object is not subscriptable") None.

(** [obj[key]] *)
Definition getitem (obj key : value) : result value :=
  match obj with
  | VDict d =>
      k ← as_key key;
      match dict_get d k with
      | Some x => Ok x
      | None => Raise (Exn KeyError (key_repr k) None)
      end
  | VList l =>
      match key with
      | VInt i =>
          match seq_index l i with
          | Some x => Ok x
          | None => Raise (Exn IndexError "list index out of range" None)
          end
      | VBool b =>
          match seq_index l (if b then 1 else 0) with
          | Some x => Ok x
          | None => Raise (Exn IndexError "list index out of range" None)
          end
      | _ => Raise (Exn TypeError
                 ("list indices must be integers or slices, not " +:+ type_name key) None)
      end
  | VOther o => other_getitem o key
  | VStr s =>
      match key with
      | VInt i =>
          match seq_index (chars s) i with
          | Some x => Ok x
          | None => Raise (Exn IndexError "string index out of range" None)
          end
      | VBool b =>
          match seq_index (chars s) (if b then 1 else 0) with
          | Some x => Ok x
          | None => Raise (Exn IndexError "string index out of range" None)
          end
      | _ => Raise (Exn TypeError
                 ("string indices must be integers, not '" +:+ type_name key +:+ "'") None)
      end
  | _ => Raise (not_subscriptable obj)
  end.

(** [len(v)] *)
Definition py_len (v : value) : result nat :=
  match v with
  | VList l => Ok (length l)
  | VDict d => Ok (length d)
  | VStr s => Ok (String.length s)
  | VOther o => other_len o
  | _ => Raise (Exn TypeError
             ("object of type '" +:+ type_name v +:+ "' has no len()") None)
  end.

(** The items a [for] loop over [v] visits. *)
Definition py_iter (v : value) : result (list value) :=
  match v with
  | VList l => Ok l
  | VDict d => Ok (map (λ kv, VAtom kv.1) d)
  | VStr s => Ok (chars s)
  | VOther o => other_iter o
  | _ => Raise (Exn TypeError
             ("'" +:+ type_name v +:+ "' object is not iterable") None)
  end.

(** [v.get(k, dflt)]; only a dict has the method. *)
Definition py_get (v : value) (k : atom) (dflt : value) : result value :=
  match v with
  | VDict d => Ok (default dflt (dict_get d k))
  | VOther o => other_get o k dflt
  | _ => Raise (Exn AttributeError
             ("'" +:+ type_name v +:+ "' object has no attribute 'get'") None)
  end.

End subscripts.

(** ** [deserialize] on a document of any shape *)

Section marshaller_doc.
Context `{B : Builtins}.

(** [name in data] for a string [name]: key membership in a dict, an equal
    element in a list, a substring of a string; nothing else is a
    container. *)
Definition py_contains (data : value) (name : string) : result bool :=
  match data with
  | VDict d => Ok (dict_mem d (AStr name))
  | VList l =>
      Ok (existsb (λ x, match x with
                        | VStr s => String.eqb s name
                        | _ => false
                        end) l)
  | VStr s => Ok (bool_decide (is_Some (String.index 0 name s)))
  | VOther o => other_contains o name
  | _ => Raise (Exn TypeError
             ("argument of type '" +:+ type_name data +:+ "' is not iterable") None)
  end.

(** One turn of the loop of [deserialize] when [data] is whatever the
    store returned: the subscript [data[field_name]] stands before the
    [try] block, so its failure is not wrapped. *)
Definition field_value_doc (here : place) (data : value) (f : field)
    : result value :=
  present ← py_contains data (field_name f);
  if (present : bool) then
    raw_value ← getitem data (VStr (field_name f));
    wrap_field (field_name f)
      (deserialize_value (InField (field_name f) :: here) (field_type f)
         raw_value)
  else missing_field (InField (field_name f) :: here) f.

Fixpoint fill_fields_doc (here : place) (data : value) (fs : list field)
    (deserialized_data : list (string * value))
    : result (list (string * value)) :=
  match fs with
  | [] => Ok deserialized_data
  | f :: fs' =>
      x ← field_value_doc here data f;
      fill_fields_doc here data fs' (dict_set deserialized_data (field_name f) x)
  end.

(** [deserialize] as its callers in [Orm] use it, on a document that need
    not be a dict. *)
Definition deserialize_doc (here : place) (model_class : ftype) (data : value)
    : result value :=
  match model_class with
  | TData cls flds =>
      deserialized_data ← fill_fields_doc here data flds [];
      construct cls flds deserialized_data
  | _ => Raise (Exn ValueError "deserialize function expects a dataclass type" None)
  end.

End marshaller_doc.

(** ** The transport: a [requests] session and the store behind it *)

Inductive method := GET | POST | PUT.

Section transport.
Context {C : Carriers}.

Record request := Request {
  req_method : method;
  req_url : string;
  req_params : list (string * string);
  req_json : option value;
}.

(** What the client reads of a response: [status_code] and [json()], which
    raises when the body does not parse. *)
Record response := Response {
  status_code : Z;
  json : result value;
}.

(** A session call answers with a response or raises (connection refused,
    time-out, an unencodable body); the store may change state. *)
Class Transport := {
  net : Type;
  send : request → net → result response * net;
}.

End transport.

Section io.
Context `{C : Carriers} {T : Transport}.

(** The connection and every exchange over it so far: the request sent and
    what came back. *)
Record world := World {
  conn : net;
  exchanges : list (request * result response);
}.

Definition sent (w : world) : list request := (exchanges w).*1.

Definition io (A : Type) : Type := world → result A * world.

Definition io_ret {A} (a : A) : io A := λ w, (Ok a, w).

Definition io_bind {A B} (m : io A) (k : A → io B) : io B := λ w,
  match m w with
  | (Ok a, w') => k a w'
  | (Raise e, w') => (Raise e, w')
  end.

(** A pure computation that can raise. *)
Definition lift {A} (r : result A) : io A := λ w, (r, w).

(** The world after one more exchange. *)
Definition exchanged (w : world) (rq : request) (o : result response)
    (n : net) : world :=
  {| conn := n; exchanges := exchanges w ++ [(rq, o)] |}.

Definition session_request (rq : request) : io response := λ w,
  let (o, n) := send rq (conn w) in (o, exchanged w rq o n).

End io.

Notation "x ⇐ m ;; k" := (io_bind m (λ x, k))
  (at level 100, m at next level, right associativity,
   format "x  ⇐  m ;;  '/' k").

(** ** The document-store client ([db.py], class [Db]) *)

Module Db.
Section client.
Context `{B : Builtins} {T : Transport}.

(** [self._url], built by [__init__] from host, port and database. *)
Variable url : string.

Definition session_get (u : string) : io response :=
  session_request (Request GET u [] None).
Definition session_post (u : string) (body : value) : io response :=
  session_request (Request POST u [] (Some body)).
Definition session_put (u : string) (body : value) : io response :=
  session_request (Request PUT u [] (Some body)).

(** [f"{self._url}/{id}"] *)
Definition doc_url (id : value) : string := url +:+ "/" +:+ py_str id.

Definition get (id : value) : io value :=
  res ⇐ session_get (doc_url id);;
  if negb (Z.eqb (status_code res) 200) then io_ret VNone
  else lift (json res).

Definition post (doc : list (atom * value)) : io (option (list (atom * value))) :=
  res ⇐ session_post url (VDict doc);;
  if negb (Z.eqb (status_code res) 201) then io_ret None
  else
    res ⇐ lift (json res);;
    id ⇐ lift (getitem res (VStr "id"));;
    rev ⇐ lift (getitem res (VStr "rev"));;
    io_ret (Some (dict_set (dict_set doc (AStr "_id") id) (AStr "_rev") rev)).

(** The end of [put]: [res = result.json(); doc['_rev'] = res['rev']]. *)
Definition put_finish (result : response) (doc : list (atom * value))
    : io (option (list (atom * value))) :=
  res ⇐ lift (json result);;
  rev ⇐ lift (getitem res (VStr "rev"));;
  io_ret (Some (dict_set doc (AStr "_rev") rev)).

(** [if '_rev' in doc and doc['_rev'] is None: doc.pop('_rev', None)] *)
Definition strip_null_rev (doc : list (atom * value)) : list (atom * value) :=
  match dict_get doc (AStr "_rev") with
  | Some VNone => dict_pop doc (AStr "_rev")
  | _ => doc
  end.

Definition accepted (status : Z) : bool :=
  Z.eqb status 200 || Z.eqb status 201.

Definition put (doc : list (atom * value)) : io (option (list (atom * value))) :=
  match dict_get doc (AStr "_id") with
  | None | Some VNone => post doc
  | Some id =>
      let doc := strip_null_rev doc in
      result ⇐ session_put (doc_url id) (VDict doc);;
      if negb (accepted (status_code result)) then
        current_doc ⇐ get id;;
        if truthy current_doc then
          match current_doc with
          | VDict current =>
              let current_doc := dict_update current doc in
              id' ⇐ lift (getitem (VDict current_doc) (VStr "_id"));;
              result ⇐ session_put (doc_url id') (VDict current_doc);;
              put_finish result doc
          | _ =>
              lift (Raise (Exn AttributeError
                ("'" +:+ type_name current_doc +:+ "' object has no attribute 'update'")
                None))
          end
        else io_ret None
      else put_finish result doc
  end.

Definition delete (doc : list (atom * value)) : io (option (list (atom * value))) :=
  put (dict_set doc (AStr "_deleted") (VBool true)).

(** Documents of a batch are objects: a batch is a list of references into
    a heap of dicts, so that one dict listed twice is one object. *)
Definition deref (heap : list (list (atom * value))) (r : nat)
    : list (atom * value) :=
  default [] (heap !! r).

(** [doc.pop('_rev', None)] under the guard [if not doc.get('_rev', None)] *)
Definition strip_empty_rev (doc : list (atom * value)) : list (atom * value) :=
  if truthy (default VNone (dict_get doc (AStr "_rev"))) then doc
  else dict_pop doc (AStr "_rev").

(** The second comprehension of [bulk_update], from position [i] on. *)
Fixpoint assign_results (answer : value) (i : nat) (docs : list nat)
    (heap : list (list (atom * value))) : result (list (list (atom * value))) :=
  match docs with
  | [] => Ok heap
  | r :: docs' =>
      entry ← getitem answer (VInt (Z.of_nat i));
      id ← getitem entry (VStr "id");
      entry' ← getitem answer (VInt (Z.of_nat i));
      rev ← getitem entry' (VStr "rev");
      assign_results answer (S i) docs'
        (alter (λ doc, dict_update doc [(AStr "_id", id); (AStr "_rev", rev)]) r heap)
  end.

(** The first comprehension of [bulk_update]. *)
Definition strip_revs (heap : list (list (atom * value))) (docs : list nat)
    : list (list (atom * value)) :=
  fold_left (λ h r, alter strip_empty_rev r h) docs heap.

(** [{"docs": docs}] *)
Definition bulk_body (heap : list (list (atom * value))) (docs : list nat)
    : value :=
  VDict [(AStr "docs", VList (map (λ r, VDict (deref heap r)) docs))].

Definition bulk_update (heap : list (list (atom * value))) (docs : list nat)
    : io (list (list (atom * value)) * list nat) :=
  let heap := strip_revs heap docs in
  res ⇐ session_post (url +:+ "/_bulk_docs") (bulk_body heap docs);;
  answer ⇐ lift (json res);;
  heap ⇐ lift (assign_results answer 0 docs heap);;
  io_ret (heap, docs).

(** The [selector] dict that [find] posts. *)
Definition find_body (query : value) (skip limit : Z) (fields : value)
    : list (atom * value) :=
  let selector :=
    dict_set (dict_set [(AStr "selector", query)] (AStr "skip") (VInt skip))
             (AStr "limit") (VInt limit) in
  if truthy fields then dict_set selector (AStr "fields") fields else selector.

Definition find (query : value) (skip limit : Z) (fields : value) : io value :=
  let selector := find_body query skip limit fields in
  result ⇐ session_post (url +:+ "/_find") (VDict selector);;
  if negb (Z.eqb (status_code result) 200) then io_ret (VList [])
  else
    body ⇐ lift (json result);;
    lift (py_get body (AStr "docs") (VList [])).

Definition find_first (query : value) (skip : Z) (fields : value) : io value :=
  result ⇐ find query skip 1 fields;;
  n ⇐ lift (py_len result);;
  if bool_decide (0 < n)%nat then lift (getitem result (VInt 0))
  else io_ret VNone.

(** *** Maintenance calls and purging *)

Definition set_rev_limit (limit : Z) : io value :=
  res ⇐ session_put (url +:+ "/_revs_limit") (VInt limit);;
  lift (json res).

Definition compact : io value :=
  res ⇐ session_request (Request POST (url +:+ "/_compact") [] None);;
  lift (json res).

Definition cleanup : io value :=
  res ⇐ session_request (Request POST (url +:+ "/_view_cleanup") [] None);;
  lift (json res).

(** The body of the loop of [deleted_docs] on one entry of the feed. *)
Definition collect_deleted (deleted_docs : list (atom * value)) (item : value)
    : result (list (atom * value)) :=
  doc ← py_get item (AStr "doc") VNone;
  if truthy doc then
    flag ← py_get doc (AStr "_deleted") (VBool false);
    if truthy flag then
      id ← getitem doc (VStr "_id");
      k ← as_key id;
      let deleted_docs :=
        if truthy (default VNone (dict_get deleted_docs k)) then deleted_docs
        else dict_set deleted_docs k (VList []) in
      revs ← getitem (VDict deleted_docs) id;
      rev ← getitem doc (VStr "_rev");
      match revs with
      | VList revs => Ok (dict_set deleted_docs k (VList (revs ++ [rev])))
      | _ => Raise (Exn AttributeError
                 ("'" +:+ type_name revs +:+ "' object has no attribute 'append'") None)
      end
    else Ok deleted_docs
  else Ok deleted_docs.

Fixpoint collect_all (deleted_docs : list (atom * value)) (items : list value)
    : result (list (atom * value)) :=
  match items with
  | [] => Ok deleted_docs
  | item :: items' =>
      deleted_docs ← collect_deleted deleted_docs item;
      collect_all deleted_docs items'
  end.

(** The request of [deleted_docs]: [data] is the encoded empty object and
    takes precedence over [json=True]. *)
Definition deleted_docs_request : request :=
  Request POST (url +:+ "/_changes") [("include_docs", "true")] (Some (VDict [])).

Definition deleted_docs : io value :=
  result ⇐ session_request deleted_docs_request;;
  if negb (Z.eqb (status_code result) 200) then io_ret (VList [])
  else
    body ⇐ lift (json result);;
    results ⇐ lift (getitem body (VStr "results"));;
    items ⇐ lift (py_iter results);;
    deleted_docs ⇐ lift (collect_all [] items);;
    io_ret (VDict deleted_docs).

Definition purge (data : value) : io value :=
  res ⇐ session_post (url +:+ "/_purge") data;;
  lift (json res).

Definition purge_all : io value :=
  data ⇐ deleted_docs;;
  purge data.

(** *** The change feed *)

Inductive event :=
  | Yield (doc : value)
  | Log (msg : string).

(** How far the generator got: still polling when the count of poll cycles
    ran out, ended by [break], or left by an exception reaching the
    consumer. *)
Inductive ending :=
  | Polling
  | Stopped
  | Raised (e : exn).

Definition changes_request (query : value) : request :=
  let params := [("feed", "longpoll"); ("since", "now");
                 ("include_docs", "true"); ("live", "true")] in
  if truthy query
  then Request POST (url +:+ "/_changes") (params ++ [("filter", "_selector")])
         (Some (VDict [(AStr "selector", query)]))
  else Request POST (url +:+ "/_changes") params (Some (VDict [])).

(** [for res in items: yield res['doc']]: the documents yielded and the
    exception that ended the loop, if any. *)
Fixpoint yield_docs (items : list value) : list value * option exn :=
  match items with
  | [] => ([], None)
  | res :: items' =>
      match getitem res (VStr "doc") with
      | Ok doc => let (ys, e) := yield_docs items' in (doc :: ys, e)
      | Raise e => ([], Some e)
      end
  end.

(** The [try] block of one poll cycle. *)
Definition poll_cycle (response : response) : list value * option exn :=
  match (body ← json response; results ← getitem body (VStr "results");
         py_iter results) with
  | Ok items => yield_docs items
  | Raise e => ([], Some e)
  end.

(** The generator driven by a consumer that keeps asking, for at most
    [cycles] poll cycles. *)
Fixpoint changes_loop (cycles : nat) (rq : request) (w : world)
    : list event * ending * world :=
  match cycles with
  | O => ([], Polling, w)
  | S n =>
      match session_request rq w with
      | (Raise e, w1) => ([], Raised e, w1)
      | (Ok response, w1) =>
          match poll_cycle response with
          | (ys, Some e) =>
              (map Yield ys ++ [Log ("Error: " +:+ exn_msg e)], Stopped, w1)
          | (ys, None) =>
              let '(evs, fin, w2) := changes_loop n rq w1 in
              (map Yield ys ++ evs, fin, w2)
          end
      end
  end.

Definition changes (query : value) (cycles : nat) (w : world)
    : list event * ending * world :=
  changes_loop cycles (changes_request query) w.

End client.
End Db.

(** ** The object mapper ([orm.py], class [Orm]) *)

Module Orm.
Section facade.
Context `{B : Builtins} {T : Transport}.

(** The [_url] of the module-level client [db] that [Orm] uses. *)
Variable url : string.

Definition save (self : value) : io value :=
  doc ⇐ lift (serialize self);;
  doc ⇐ Db.put url doc;;
  match doc with
  | None => lift (Raise (not_subscriptable VNone))
  | Some doc =>
      id ⇐ lift (getitem (VDict doc) (VStr "_id"));;
      rev ⇐ lift (getitem (VDict doc) (VStr "_rev"));;
      io_ret (set_attr (set_attr self "_id" id) "_rev" rev)
  end.

Definition dict (self : value) : result (list (atom * value)) :=
  serialize self.

(** The place of a call of [deserialize] made by the facade: each such
    call follows a request, so the number of exchanges tells the calls of a
    run apart. *)
Definition call_place : io place := λ w,
  (Ok [InCall (length (exchanges w))], w).

Definition load (cls : ftype) (id : value) : io value :=
  doc ⇐ Db.get url id;;
  if negb (truthy doc) then io_ret VNone
  else
    here ⇐ call_place;;
    lift (deserialize_doc here cls doc).

(** [db.find(query=query)] leaves [skip], [limit] and [fields] at their
    defaults; the comprehension calls [deserialize] once per document. *)
Definition find (cls : ftype) (query : value) : io (list value) :=
  docs ⇐ Db.find url query 0 50000 VNone;;
  docs ⇐ lift (py_iter docs);;
  here ⇐ call_place;;
  lift (mapR (λ ix, deserialize_doc (InItem ix.1 :: here) cls ix.2)
             (enumerate docs)).

Definition find_first (cls : ftype) (query : value) : io value :=
  docs ⇐ find cls query;;
  io_ret (match docs with
          | doc :: _ => doc
          | [] => VNone
          end).

(** The last exchange of [w] is a write of the document [id] that the
    store answered with the revision [rev]; [accepted] tells whether the
    answer had status 200 or 201. *)
Definition answered (w : world) (id rev : value) (accepted : bool) : Prop :=
  ∃ rq r body,
    last (exchanges w) = Some (rq, Ok r) ∧
    Db.accepted (status_code r) = accepted ∧
    json r = Ok body ∧
    getitem body (VStr "rev") = Ok rev ∧
    ((req_method rq = PUT ∧ req_url rq = Db.doc_url url id)
     ∨ (req_method rq = POST ∧ req_url rq = url ∧
        getitem body (VStr "id") = Ok id)).

(** The requests that a run from [w] to [w'] added. *)
Definition requests_since (w w' : world) : list method :=
  map (λ x, req_method x.1) (drop (length (exchanges w)) (exchanges w')).

End facade.
End Orm.

(** ** Reference instances

    Small concrete instances of the three interfaces, on which the
    statements below are evaluated. *)

(** A library in which a [Decimal] is identified with its canonical text
    and a float with its binary64 bit pattern.  A timestamp is the text
    that [isoformat] gives (the wall time and, for an aware one, the UTC
    offset), the name of its time zone when [tzinfo] is a named zone, and
    its [fold]; reading the text back gives a timestamp without named zone
    and with [fold] 0.  The one opaque object is a tuple of Decimals.  The
    conversions between different types are left out: they raise. *)
Module TextLib.

Record stamp := Stamp {
  stamp_iso : string;
  stamp_zone : string;
  stamp_fold : bool;
}.

#[export] Instance stamp_eq_dec : EqDecision stamp.
Proof. solve_decision. Defined.

Definition naive (s : string) : stamp := Stamp s "" false.

(** A factory of identifiers in the manner of [lambda: str(uuid4())]: a
    different text at every place. *)
Definition step_text (st : step) : string :=
  match st with
  | InField name => "." +:+ name
  | InItem i => "[" +:+ pretty i +:+ "]"
  | InKey i => "{" +:+ pretty i +:+ "}"
  | InValue i => "<" +:+ pretty i +:+ ">"
  | InCall n => "#" +:+ pretty n
  end.

Definition place_text (here : place) : string :=
  fold_right (λ st acc, acc +:+ step_text st) "" here.

#[export] Instance carriers : Carriers :=
  {| pyfloat := Z; decimal := string; datetime := stamp;
     other := list string;
     other_type_name _ := "tuple" |}.

Definition no_conversion {A} (target : string) (v : value) : result A :=
  Raise (Exn TypeError
    (target +:+ "() argument must not be '" +:+ type_name v +:+ "'") None).

#[export] Instance builtins : Builtins :=
  {| decimal_str d := d;
     decimal_of_str s := Ok s;
     isoformat t := stamp_iso t;
     fromisoformat_str s := Ok (naive s);
     float_nonzero f := negb (Z.eqb f 0 || Z.eqb f (2 ^ 63));
     decimal_nonzero d := negb (String.eqb d "0");
     int_conv v :=
       match v with
       | VBool b => Ok (if b then 1 else 0)
       | _ => no_conversion "int" v
       end;
     float_conv v := no_conversion "float" v;
     str_conv v := "<" +:+ type_name v +:+ ">";
     decimal_conv v := no_conversion "Decimal" v;
     other_nonzero o := negb (bool_decide (o = []));
     other_getitem o key :=
       match key with
       | VInt i =>
           match seq_index o i with
           | Some d => Ok (VDecimal d)
           | None => Raise (Exn IndexError "tuple index out of range" None)
           end
       | VBool b =>
           match seq_index o (if b then 1 else 0) with
           | Some d => Ok (VDecimal d)
           | None => Raise (Exn IndexError "tuple index out of range" None)
           end
       | _ => Raise (Exn TypeError
                  ("tuple indices must be integers or slices, not "
                   +:+ type_name key) None)
       end;
     other_len o := Ok (length o);
     other_iter o := Ok (map (λ d, VDecimal d) o);
     other_get o k dflt :=
       Raise (Exn AttributeError "'tuple' object has no attribute 'get'" None);
     other_contains o name := Ok false;
     post_init cls attrs := Ok () |}.

End TextLib.

(** A transport that answers from a script, one outcome per request. *)
Module Script.
Section script.
Context {C : Carriers}.

Definition exhausted : exn := Exn ConnectionError "no answer" None.

Definition play (rq : request) (script : list (result response))
    : result response * list (result response) :=
  match script with
  | o :: script' => (o, script')
  | [] => (Raise exhausted, [])
  end.

Definition transport : Transport :=
  {| net := list (result response); send := play |}.

End script.
End Script.

(** A single-writer store with revision-checked writes: a write is accepted
    when it names the stored revision, or names none for a document that
    does not exist; every other write is a conflict. *)
Module RefStore.
Section store.
Context {C : Carriers}.

Record entry := Entry {
  generation : nat;
  body : list (atom * value);
}.

Record state := State {
  base : string;
  stored : list (string * entry);
  minted : nat;
}.

Definition rev_of (g : nat) : string := pretty g.

Definition obj (fields : list (string * value)) : value :=
  VDict (map (λ kv, (AStr kv.1, kv.2)) fields).

Definition conflict : response :=
  Response 409 (Ok (obj [("error", VStr "conflict");
                         ("reason", VStr "Document update conflict.")])).
Definition not_found : response :=
  Response 404 (Ok (obj [("error", VStr "not_found"); ("reason", VStr "missing")])).
Definition bad_request : response :=
  Response 400 (Ok (obj [("error", VStr "bad_request")])).

Fixpoint strip_prefix (p s : string) : option string :=
  match p with
  | EmptyString => Some s
  | String a p' =>
      match s with
      | String b s' => if Ascii.eqb a b then strip_prefix p' s' else None
      | EmptyString => None
      end
  end.

Definition is_deleted (e : entry) : bool :=
  match dict_get (body e) (AStr "_deleted") with
  | Some (VBool true) => true
  | _ => false
  end.

Definition names_rev (d : list (atom * value)) (r : string) : bool :=
  match dict_get d (AStr "_rev") with
  | Some (VStr r') => String.eqb r' r
  | _ => false
  end.

Definition names_no_rev (d : list (atom * value)) : bool :=
  match dict_get d (AStr "_rev") with
  | None => true
  | Some _ => false
  end.

(** One write of document [d] under [id]: the answer entry and the new
    state. *)
Definition write (id : string) (d : list (atom * value)) (st : state)
    : result (string * string) * state :=
  let cur := dict_get (stored st) id in
  let ok :=
    match cur with
    | Some e => names_rev d (rev_of (generation e))
                || (is_deleted e && names_no_rev d)
    | None => names_no_rev d
    end in
  if ok then
    let g := S (from_option generation 0%nat cur) in
    let d' := dict_set (dict_set d (AStr "_id") (VStr id)) (AStr "_rev") (VStr (rev_of g)) in
    (Ok (id, rev_of g),
     {| base := base st; stored := dict_set (stored st) id (Entry g d');
        minted := minted st |})
  else (Raise (Exn ValueError "conflict" None), st).

Definition written (id rev : string) : value :=
  obj [("ok", VBool true); ("id", VStr id); ("rev", VStr rev)].

(** [POST /db]: the store mints an identifier unless the body carries one. *)
Definition insert (d : list (atom * value)) (st : state)
    : result (string * string) * state :=
  match dict_get d (AStr "_id") with
  | Some (VStr id) => write id d st
  | Some _ => (Raise (Exn ValueError "bad_request" None), st)
  | None =>
      write ("uuid-" +:+ pretty (minted st)) d
        {| base := base st; stored := stored st; minted := S (minted st) |}
  end.

Fixpoint bulk (ds : list value) (st : state) : list value * state :=
  match ds with
  | [] => ([], st)
  | VDict d :: ds' =>
      match insert d st with
      | (Ok (id, rev), st') =>
          let (rs, st'') := bulk ds' st' in (written id rev :: rs, st'')
      | (Raise e, st') =>
          let (rs, st'') := bulk ds' st' in
          (obj [("id", default VNone (dict_get d (AStr "_id")));
                ("error", VStr (exn_msg e))] :: rs, st'')
      end
  | _ :: ds' =>
      let (rs, st') := bulk ds' st in
      (obj [("error", VStr "bad_request")] :: rs, st')
  end.

(** A selector of plain equalities: every listed field must hold the
    listed scalar. *)
Definition matches (selector d : list (atom * value)) : bool :=
  forallb (λ kv, match kv.2, dict_get d kv.1 with
                 | VAtom a, Some (VAtom a') => bool_decide (a = a')
                 | _, _ => false
                 end) selector.

Definition live_docs (st : state) : list (list (atom * value)) :=
  map (λ kv, body kv.2) (filter (λ kv, is_deleted kv.2 = false) (stored st)).

Definition answer_write (r : result (string * string) * state)
    : result response * state :=
  match r with
  | (Ok (id, rev), st) => (Ok (Response 201 (Ok (written id rev))), st)
  | (Raise _, st) => (Ok conflict, st)
  end.

Definition serve_post (path : string) (d : list (atom * value)) (st : state)
    : result response * state :=
  if String.eqb path "" then answer_write (insert d st)
  else if String.eqb path "/_bulk_docs" then
    match dict_get d (AStr "docs") with
    | Some (VList ds) =>
        let (rs, st') := bulk ds st in (Ok (Response 201 (Ok (VList rs))), st')
    | _ => (Ok bad_request, st)
    end
  else if String.eqb path "/_find" then
    match dict_get d (AStr "selector") with
    | Some (VDict q) =>
        (Ok (Response 200
           (Ok (obj [("docs", VList (map VDict (filter (λ d, matches q d = true)
                                            (live_docs st))))]))), st)
    | _ => (Ok bad_request, st)
    end
  else (Ok not_found, st).

Definition serve (rq : request) (st : state) : result response * state :=
  match strip_prefix (base st) (req_url rq) with
  | None => (Ok not_found, st)
  | Some path =>
      match req_method rq, req_json rq with
      | GET, _ =>
          match strip_prefix "/" path with
          | Some id =>
              match dict_get (stored st) id with
              | Some e => if is_deleted e then (Ok not_found, st)
                          else (Ok (Response 200 (Ok (VDict (body e)))), st)
              | None => (Ok not_found, st)
              end
          | None => (Ok bad_request, st)
          end
      | PUT, Some (VDict d) =>
          match strip_prefix "/" path with
          | Some id => answer_write (write id d st)
          | None => (Ok bad_request, st)
          end
      | POST, Some (VDict d) => serve_post path d st
      | _, _ => (Ok bad_request, st)
      end
  end.

Definition transport : Transport := {| net := state; send := serve |}.

End store.
End RefStore.

(** * Properties *)

(** Statements about one concrete input are evaluated in the text
    library; every other statement is about an arbitrary library. *)
Import TextLib.

(** ** Results and comprehensions *)

Lemma mapR_map_id {A B} (f : A → result B) (g : B → A) (l : list B) :
  Forall (λ x, f (g x) = Ok x) l → mapR f (map g l) = Ok l.
Proof.
  induction 1 as [|x l Hx _ IH]; simpl; [done|].
  rewrite Hx. simpl. rewrite IH. done.
Qed.

Lemma mapR_Ok_Forall2 {A B} (f : A → result B) (l : list A) (l' : list B) :
  mapR f l = Ok l' ↔ Forall2 (λ x y, f x = Ok y) l l'.
Proof.
  revert l'. induction l as [|x l IH]; intros l'; simpl.
  - split.
    + intros [= <-]. constructor.
    + intros H. by inversion H.
  - split.
    + destruct (f x) as [y|e] eqn:Hx; simpl; [|done].
      destruct (mapR f l) as [ys|e] eqn:Hl; simpl; [|done].
      intros [= <-]. constructor; [done|]. by apply IH.
    + intros H. inversion H as [|? y ? ys Hy Hys]; subst.
      rewrite Hy. simpl. apply IH in Hys. rewrite Hys. done.
Qed.

Lemma mapR_Raise_first {A B} (f : A → result B) (pre : list A) x post e :
  Forall (λ y, is_ok (f y) = true) pre →
  f x = Raise e →
  mapR f (pre ++ x :: post) = Raise e.
Proof.
  induction 1 as [|y pre Hy _ IH]; intros Hx; simpl.
  - by rewrite Hx.
  - destruct (f y); [|done]. simpl. by rewrite IH.
Qed.

(** ** An induction principle that reaches the fields of nested models *)

Section ftype_induction.
Context {C : Carriers}.
Variable P : ftype → Prop.
Hypothesis HInt : P TInt.
Hypothesis HFloat : P TFloat.
Hypothesis HStr : P TStr.
Hypothesis HBool : P TBool.
Hypothesis HDecimal : P TDecimal.
Hypothesis HDatetime : P TDatetime.
Hypothesis HOptional : ∀ t, P t → P (TOptional t).
Hypothesis HList : ∀ t, P t → P (TList t).
Hypothesis HDict : ∀ k v, P k → P v → P (TDict k v).
Hypothesis HData : ∀ cls flds,
  Forall (λ f, P (field_type f)) flds → P (TData cls flds).
Hypothesis HOther : P TOther.

Fixpoint ftype_fields_ind (t : ftype) : P t :=
  match t with
  | TInt => HInt
  | TFloat => HFloat
  | TStr => HStr
  | TBool => HBool
  | TDecimal => HDecimal
  | TDatetime => HDatetime
  | TOptional t' => HOptional t' (ftype_fields_ind t')
  | TList t' => HList t' (ftype_fields_ind t')
  | TDict k v => HDict k v (ftype_fields_ind k) (ftype_fields_ind v)
  | TData cls flds =>
      HData cls flds
        ((fix go (fs : list field) : Forall (λ f, P (field_type f)) fs :=
            match fs with
            | [] => List.Forall_nil _
            | f :: fs' =>
                List.Forall_cons _ f fs'
                  (match f as f0 return P (field_type f0) with
                   | Field _ ty _ _ _ => ftype_fields_ind ty
                   end)
                  (go fs')
            end) flds)
  | TOther => HOther
  end.

End ftype_induction.

(** ** Comprehensions over [enumerate] *)

Lemma enumerate_from_map {A B} (g : A → B) (l : list A) n :
  enumerate_from n (map g l) = map (λ ix, (ix.1, g ix.2)) (enumerate_from n l).
Proof.
  revert n. induction l as [|x l IH]; intros n; simpl; [done|]. by rewrite IH.
Qed.

Lemma enumerate_from_app {A} (l1 l2 : list A) n :
  enumerate_from n (l1 ++ l2)
  = enumerate_from n l1 ++ enumerate_from (n + length l1) l2.
Proof.
  revert n. induction l1 as [|x l1 IH]; intros n; simpl.
  - by rewrite Nat.add_0_r.
  - rewrite IH. by rewrite Nat.add_succ_r.
Qed.

Lemma enumerate_from_snd {A} (l : list A) n : (enumerate_from n l).*2 = l.
Proof.
  revert n. induction l as [|x l IH]; intros n; simpl; [done|]. by rewrite IH.
Qed.

Lemma enumerate_from_lookup {A} (l : list A) n j :
  enumerate_from n l !! j = (λ x, ((n + j)%nat, x)) <$> l !! j.
Proof.
  revert n j. induction l as [|x l IH]; intros n [|j]; simpl; try done.
  - by rewrite Nat.add_0_r.
  - rewrite IH. by rewrite Nat.add_succ_r.
Qed.

Lemma elem_of_enumerate_from {A} (l : list A) n i x :
  (i, x) ∈ enumerate_from n l → x ∈ l.
Proof.
  intros Hin. rewrite <- (enumerate_from_snd l n).
  apply list_elem_of_fmap. by exists (i, x).
Qed.

(** Converting back, item by item, what was converted item by item. *)
Lemma mapR_enumerate_id {A B} (f : nat * A → result B) (g : B → A)
    (l : list B) n :
  Forall (λ x, ∀ i, f (i, g x) = Ok x) l →
  mapR f (enumerate_from n (map g l)) = Ok l.
Proof.
  intros H. revert n. induction H as [|x l Hx _ IH]; intros n; simpl; [done|].
  rewrite Hx. simpl. by rewrite IH.
Qed.

(** ** The marshaller *)

Section marshaller_facts.
Context `{B : Builtins}.

Lemma deserialize_value_None here t : deserialize_value here t VNone = Ok VNone.
Proof. by destruct t. Qed.

Lemma deserialize_value_optional here t v :
  deserialize_value here (TOptional t) v = deserialize_value here t v.
Proof.
  destruct v as [[]| | |]; try reflexivity.
  by rewrite !deserialize_value_None.
Qed.

Lemma deserialize_value_data here cls flds d :
  deserialize_value here (TData cls flds) (VDict d)
  = deserialize here (TData cls flds) d.
Proof. reflexivity. Qed.

Lemma has_type_None t : has_type t VNone = true.
Proof. by destruct t. Qed.

Lemma has_type_optional t v : has_type (TOptional t) v = has_type t v.
Proof.
  destruct v as [[]| | |]; try reflexivity. by rewrite !has_type_None.
Qed.

(** A typed key of a [key_kind] is returned as it is. *)
Lemma key_kind_identity here k (a : atom) :
  key_kind k = true → has_type k (VAtom a) = true →
  deserialize_value here k (VAtom a) = Ok (VAtom a).
Proof.
  induction k; try discriminate; intros Hk Ht.
  1-5: by destruct a.
  rewrite deserialize_value_optional. rewrite has_type_optional in Ht.
  by apply IHk.
Qed.

Lemma has_type_data cls flds c attrs :
  has_type (TData cls flds) (VInst c attrs) = true ↔
  c = cls ∧
  Forall2 (λ f x, x.1 = field_name f ∧ has_type (field_type f) x.2 = true)
          flds attrs.
Proof.
  cbn [has_type]. rewrite andb_true_iff, bool_decide_eq_true.
  split.
  - intros [-> H]. split; [done|].
    revert attrs H. induction flds as [|f fs IH]; intros [|x xs] H;
      try done.
    rewrite !andb_true_iff, bool_decide_eq_true in H.
    destruct H as [[Hn Ht] Hr]. constructor; [done|]. by apply IH.
  - intros [-> H]. split; [done|].
    induction H as [|f x fs xs [Hn Ht] _ IH]; [done|].
    rewrite !andb_true_iff, bool_decide_eq_true. done.
Qed.

(** With distinct attribute names, the loop of [serialize] emits one entry
    per attribute, in order. *)
Lemma serialize_fields_NoDup (sv : value → value) attrs :
  NoDup attrs.*1 →
  serialize_fields sv attrs = map (λ fv, (AStr fv.1, sv fv.2)) attrs.
Proof.
  intros Hnd. unfold serialize_fields.
  transitivity (dict_of_items (map (λ fv : string * value, (AStr fv.1, sv fv.2)) attrs)).
  - unfold dict_of_items, dict_update. generalize (@nil (atom * value)).
    induction attrs as [|x xs IH]; intros acc; simpl; [done|].
    apply NoDup_cons in Hnd as [_ Hnd]. by rewrite IH.
  - apply dict_of_items_NoDup. unfold keys.
    rewrite <- list_fmap_compose.
    replace (fst ∘ (λ fv : string * value, (AStr fv.1, sv fv.2)))
      with (AStr ∘ (fst : string * value → string)) by done.
    rewrite list_fmap_compose. apply NoDup_fmap_2; [|done].
    intros ?? [=]; done.
Qed.

Lemma dict_get_NoDup {K V} `{EqDecision K} (d : list (K * V)) k v :
  NoDup (keys d) → (k, v) ∈ d → dict_get d k = Some v.
Proof.
  unfold keys. induction d as [|[k' v'] d IH]; intros Hnd Hin; simpl.
  - by apply elem_of_nil in Hin.
  - simpl in Hnd. apply NoDup_cons in Hnd as [Hk Hnd].
    apply elem_of_cons in Hin as [[= <- <-]|Hin].
    + by rewrite decide_True.
    + rewrite decide_False; [by apply IH|].
      intros ->. apply Hk. apply list_elem_of_fmap. by exists (k, v).
Qed.

(** The constructor of a class all of whose fields are parameters and
    whose [__post_init__] returns. *)
Lemma construct_plain cls flds kwargs :
  forallb field_init flds = true →
  post_init cls kwargs = Ok () →
  construct cls flds kwargs = Ok (VInst cls kwargs).
Proof.
  intros Hinit Hpost. unfold construct.
  assert (Hfind : List.find (λ f, negb (field_init f)) flds = None).
  { induction flds as [|f fs IH]; [done|].
    cbn [forallb] in Hinit. apply andb_true_iff in Hinit as [Hf Hfs].
    cbn [List.find]. rewrite Hf. cbn [negb]. by apply IH. }
  rewrite Hfind, Hpost. done.
Qed.

(** What the constructor returns holds the keywords it was given, and it
    raises nothing but a [TypeError] of its own or what [__post_init__]
    raises. *)
Lemma construct_Ok_inv cls flds kwargs inst :
  construct cls flds kwargs = Ok inst → inst = VInst cls kwargs.
Proof.
  unfold construct. destruct (List.find _ flds); [done|].
  destruct (post_init cls kwargs); [|done]. by intros [= <-].
Qed.

Lemma construct_Raise_inv cls flds kwargs e :
  construct cls flds kwargs = Raise e →
  (∃ f, f ∈ flds ∧ field_init f = false ∧ exn_kind_of e = TypeError)
  ∨ post_init cls kwargs = Raise e.
Proof.
  unfold construct. destruct (List.find _ flds) as [f|] eqn:Hfind.
  - intros [= <-]. left. apply find_some in Hfind as [Hin Hf].
    exists f. split; [by apply list_elem_of_In|].
    split; [by apply negb_true_iff | done].
  - destruct (post_init cls kwargs); [done|]. intros [= <-]. by right.
Qed.

End marshaller_facts.

(** ** The loop of [deserialize] over the declared fields *)

Section fields_loop_facts.
Context `{B : Builtins}.
Variable dv : place → ftype → value → result value.
Variable here : place.
Variable data : list (atom * value).

(** When every field yields a value the loop stores them all; with
    distinct names they come out in declaration order. *)
Lemma fill_fields_Ok fs xs acc :
  Forall2 (λ f x, field_value dv here data f = Ok x.2 ∧ x.1 = field_name f)
          fs xs →
  NoDup (acc.*1 ++ xs.*1) →
  fill_fields dv here data fs acc = Ok (acc ++ xs).
Proof.
  intros H. revert acc.
  induction H as [|f [n x] fs xs [Hf Hn] _ IH]; intros acc Hnd; simpl.
  - by rewrite app_nil_r.
  - simpl in *. subst n. rewrite Hf. simpl.
    rewrite dict_set_absent.
    + rewrite IH; rewrite <- ?app_assoc; [done|].
      by rewrite fmap_app, <- app_assoc.
    + apply dict_get_None. unfold keys.
      apply NoDup_app in Hnd as (_ & Hd & _).
      intros Hin. apply (Hd _ Hin). apply list_elem_of_here.
Qed.

(** The loop stops at the first field whose turn raises. *)
Lemma fill_fields_Raise pre f post acc e :
  Forall (λ g, is_ok (field_value dv here data g) = true) pre →
  field_value dv here data f = Raise e →
  fill_fields dv here data (pre ++ f :: post) acc = Raise e.
Proof.
  intros Hpre Hf. revert acc.
  induction Hpre as [|g pre Hg _ IH]; intros acc; simpl.
  - by rewrite Hf.
  - destruct (field_value dv here data g); [|done]. simpl. apply IH.
Qed.

(** An exception leaving the loop was raised by the turn of some field. *)
Lemma fill_fields_Raise_inv fs acc e :
  fill_fields dv here data fs acc = Raise e →
  ∃ f, f ∈ fs ∧ field_value dv here data f = Raise e.
Proof.
  revert acc. induction fs as [|f fs IH]; intros acc; simpl; [done|].
  destruct (field_value dv here data f) as [x|e'] eqn:Hf; simpl.
  - intros H. apply IH in H as (g & Hg & He).
    exists g. split; [by apply list_elem_of_further | done].
  - intros [= ->]. exists f. split; [apply list_elem_of_here | done].
Qed.

Lemma fill_fields_other fs acc out n :
  fill_fields dv here data fs acc = Ok out →
  n ∉ map field_name fs → dict_get out n = dict_get acc n.
Proof.
  revert acc. induction fs as [|f fs IH]; intros acc; simpl.
  - by intros [= ->].
  - destruct (field_value dv here data f) as [x|e'] eqn:Hf; simpl; [|done].
    intros H Hn. apply not_elem_of_cons in Hn as [Hne Hn].
    rewrite (IH _ H Hn). by apply dict_get_set_ne.
Qed.

(** After the loop each declared field holds the value of its turn. *)
Lemma fill_fields_lookup fs acc out f :
  NoDup (map field_name fs) →
  fill_fields dv here data fs acc = Ok out →
  f ∈ fs →
  ∃ x, field_value dv here data f = Ok x ∧
       dict_get out (field_name f) = Some x.
Proof.
  revert acc. induction fs as [|g fs IH]; intros acc Hnd; simpl.
  - intros _ Hin. by apply elem_of_nil in Hin.
  - apply NoDup_cons in Hnd as [Hg Hnd].
    destruct (field_value dv here data g) as [x|e'] eqn:Hf; simpl; [|done].
    intros H Hin. apply elem_of_cons in Hin as [->|Hin].
    + exists x. split; [done|].
      rewrite (fill_fields_other _ _ _ _ H Hg). apply dict_get_set_eq.
    + by apply (IH _ Hnd H).
Qed.

Lemma field_value_missing f :
  dict_get data (AStr (field_name f)) = None →
  field_value dv here data f = missing_field (InField (field_name f) :: here) f.
Proof. unfold field_value. by intros ->. Qed.

Lemma field_value_present f raw :
  dict_get data (AStr (field_name f)) = Some raw →
  field_value dv here data f
  = wrap_field (field_name f)
      (dv (InField (field_name f) :: here) (field_type f) raw).
Proof. unfold field_value. by intros ->. Qed.

End fields_loop_facts.

(** ** Round trip *)

Section roundtrip.
Context `{B : Builtins}.
Hypothesis Hpost : no_post_init_raises.

Lemma serialize_value_dict (d : list (atom * value)) :
  NoDup (keys d) →
  serialize_value (VDict d) = VDict (map (λ kv, (kv.1, serialize_value kv.2)) d).
Proof.
  intros Hnd. simpl. f_equal. apply dict_of_items_NoDup.
  unfold keys. rewrite <- list_fmap_compose. done.
Qed.

Lemma roundtrip_value t :
  ∀ here v, schema_ok t = true → has_type t v = true → restorable v = true →
            deserialize_value here t (serialize_value v) = Ok v.
Proof.
  induction t as [| | | | | |t IH|t IH|k val _ IHv|cls flds IH|]
    using ftype_fields_ind; intros here v Hok Ht Hre.
  - by destruct v as [[]| | |].
  - by destruct v as [[]| | |].
  - by destruct v as [[]| | |].
  - by destruct v as [[]| | |].
  - destruct v as [[| | | | |d| |]| | |]; try done.
    cbn [restorable] in Hre. cbn [serialize_value deserialize_value py_Decimal].
    destruct (decimal_of_str (decimal_str d)) as [d'|]; [|done].
    apply bool_decide_eq_true in Hre as ->. done.
  - destruct v as [[| | | | | |t|]| | |]; try done.
    cbn [restorable] in Hre.
    cbn [serialize_value deserialize_value py_fromisoformat].
    destruct (fromisoformat_str (isoformat t)) as [t'|]; [|done].
    apply bool_decide_eq_true in Hre as ->. done.
  - rewrite deserialize_value_optional. rewrite has_type_optional in Ht.
    by apply IH.
  - destruct v as [[]|l|d|c attrs]; try done.
    cbn [has_type] in Ht. rewrite forallb_forall in Ht.
    cbn [restorable] in Hre. rewrite forallb_forall in Hre.
    cbn [serialize_value deserialize_value]. unfold enumerate.
    rewrite (mapR_enumerate_id _ _ l); [done|].
    apply Forall_forall. intros x Hx i. cbn [fst snd].
    apply IH; [done| |].
    + apply Ht. by apply list_elem_of_In.
    + apply Hre. by apply list_elem_of_In.
  - destruct v as [[]|l|d|c attrs]; try done.
    cbn [schema_ok] in Hok. cbn [has_type] in Ht.
    apply andb_true_iff in Hok as [Hk Hv].
    apply andb_true_iff in Ht as [Hnd Ht].
    apply bool_decide_eq_true in Hnd.
    rewrite forallb_forall in Ht.
    cbn [restorable] in Hre. rewrite forallb_forall in Hre.
    rewrite serialize_value_dict by done.
    cbn [deserialize_value]. unfold enumerate.
    rewrite (mapR_enumerate_id _ _ d).
    + simpl. by rewrite dict_of_items_NoDup.
    + apply Forall_forall. intros [a x] Hin i.
      specialize (Ht _ (proj1 (list_elem_of_In _ _) Hin)).
      specialize (Hre _ (proj1 (list_elem_of_In _ _) Hin)).
      apply andb_true_iff in Ht as [Hka Hvx]. cbn [fst snd] in *.
      rewrite key_kind_identity by done. cbn [mbind result_bind].
      rewrite IHv by done. done.
  - destruct v as [[]|l|d|c attrs]; try done.
    apply has_type_data in Ht as (-> & Hty).
    cbn [schema_ok] in Hok.
    apply andb_true_iff in Hok as [Hok Hsub].
    apply andb_true_iff in Hok as [Hnd Hinit].
    apply bool_decide_eq_true in Hnd.
    rewrite forallb_forall in Hsub.
    cbn [restorable] in Hre. rewrite forallb_forall in Hre.
    assert (Hnames : attrs.*1 = map field_name flds).
    { clear -Hty. induction Hty as [|f x fs xs [Hn _] _ IHf]; [done|].
      rewrite fmap_cons. simpl. f_equal; [done | exact IHf]. }
    cbn [serialize_value].
    rewrite serialize_fields_NoDup by (by rewrite Hnames).
    cbn [deserialize_value]. unfold deserialize_fields.
    rewrite (fill_fields_Ok _ _ _ flds attrs []).
    + cbn [mbind result_bind app]. by apply construct_plain.
    + set (data := map _ attrs).
      assert (Hkeys : NoDup (keys data)).
      { unfold keys, data. rewrite <- list_fmap_compose.
        replace (fst ∘ (λ fv : string * value, (AStr fv.1, serialize_value fv.2)))
          with (AStr ∘ (fst : string * value → string)) by done.
        rewrite list_fmap_compose, Hnames.
        apply NoDup_fmap_2; [intros ?? [=]; done | done]. }
      apply Forall2_same_length_lookup. split; [by eapply Forall2_length|].
      intros i f x Hf Hx.
      destruct (Forall2_lookup_lr _ _ _ _ _ _ Hty Hf Hx) as [Hn Htx].
      split; [|done].
      rewrite (field_value_present _ _ _ _ (serialize_value x.2)).
      * rewrite Forall_forall in IH. rewrite IH; [done| | |done|].
        -- by eapply list_elem_of_lookup_2.
        -- apply Hsub. apply list_elem_of_In. by eapply list_elem_of_lookup_2.
        -- apply Hre. apply list_elem_of_In. by eapply list_elem_of_lookup_2.
      * apply dict_get_NoDup; [done|]. rewrite <- Hn.
        unfold data. apply list_elem_of_fmap. exists x.
        split; [done | by eapply list_elem_of_lookup_2].
    + by rewrite Hnames.
  - by destruct v as [[]| | |].
Qed.

End roundtrip.

(** The text library has no raising [__post_init__]. *)
Lemma textlib_no_post_init_raises :
  @no_post_init_raises TextLib.carriers TextLib.builtins.
Proof. by intros cls attrs. Qed.

(** A model with every declared kind: scalars, an exact decimal, a
    timestamp, the base class's own [_rev: str = None] (null here), a
    list, a map keyed by strings and a nested model. *)
Module Invoice.
Import TextLib.

Definition uuid4 (here : place) : result value :=
  Ok (VStr ("uuid" +:+ place_text here)).

Definition address : ftype :=
  TData "Address" [Field "city" TStr None None true;
                   Field "zip" (TOptional TInt) (Some VNone) None true].

Definition schema : ftype :=
  TData "Invoice"
    [Field "_id" TStr None (Some uuid4) true;
     Field "_rev" TStr (Some VNone) None true;
     Field "total" TDecimal None None true;
     Field "issued" TDatetime None None true;
     Field "paid" TBool (Some (VBool false)) None true;
     Field "lines" (TList TDecimal) None None true;
     Field "tags" (TDict TStr (TOptional TInt)) None None true;
     Field "ship_to" address None None true].

Definition instance : value :=
  VInst "Invoice"
    [("_id", VStr "inv-7");
     ("_rev", VNone);
     ("total", VDecimal "12.50");
     ("issued", VDatetime (naive "2024-02-29T10:15:00"));
     ("paid", VBool true);
     ("lines", VList [VDecimal "10.00"; VDecimal "2.50"]);
     ("tags", VDict [(AStr "rush", VInt 1); (AStr "gift", VNone)]);
     ("ship_to", VInst "Address" [("city", VStr "Oslo"); ("zip", VInt 150)])].

(** A model whose map is keyed by timestamps. *)
Definition visits : ftype :=
  TData "Visits" [Field "seen" (TDict TDatetime TInt) None None true].

Definition visits_instance : value :=
  VInst "Visits" [("seen", VDict [(ADatetime (naive "2024-02-29T10:15:00"), VInt 3)])].

(** A model holding one timestamp, and an instance whose timestamp is the
    second 02:30 of the night the clocks go back in a named zone. *)
Definition meeting : ftype :=
  TData "Meeting" [Field "at" TDatetime None None true].

Definition meeting_in_fold : value :=
  VInst "Meeting"
    [("at", VDatetime (Stamp "2024-10-27T02:30:00+01:00" "Europe/Oslo" true))].

(** A model with a field that is no parameter of [__init__]. *)
Definition stamped : ftype :=
  TData "Stamped" [Field "name" TStr None None true;
                   Field "seen" TInt (Some (VInt 0)) None false].

Definition stamped_instance : value :=
  VInst "Stamped" [("name", VStr "a"); ("seen", VInt 0)].

End Invoice.


(** It also fails for a timestamp that its own text does not give back,
    as a zone-aware timestamp inside a fold: the round trip returns an
    instance, but another one. *)
Lemma roundtrip_loses_zone_and_fold :
  instance_of Invoice.meeting Invoice.meeting_in_fold = true ∧
  restorable Invoice.meeting_in_fold = false ∧
  ∀ here,
    ∃ doc m',
      serialize Invoice.meeting_in_fold = Ok doc ∧
      deserialize here Invoice.meeting doc = Ok m' ∧
      m' ≠ Invoice.meeting_in_fold.
Proof.
  split; [reflexivity|]. split; [reflexivity|].
  intros here. eexists _, _. split; [reflexivity|]. split; [reflexivity|].
  discriminate.
Qed.

(** And it fails for every class with a field that is no parameter of
    [__init__]: [fields()] lists the field, [serialize] emits it, and the
    constructor rejects the keyword. *)
Lemma roundtrip_fails_on_field_outside_init :
  instance_of Invoice.stamped Invoice.stamped_instance = true ∧
  ∀ here,
    ∃ doc e,
      serialize Invoice.stamped_instance = Ok doc ∧
      deserialize here Invoice.stamped doc = Raise e ∧
      exn_kind_of e = TypeError.
Proof.
  split; [reflexivity|].
  intros here. eexists _, _. split; [reflexivity|]. split; reflexivity.
Qed.



(** ** Missing fields and failing fields *)

Section deserialize_facts.
Context `{B : Builtins}.

Lemma fill_fields_Ok_inv dv here data fs acc out :
  fill_fields dv here data fs acc = Ok out →
  Forall (λ f, is_ok (field_value dv here data f) = true) fs.
Proof.
  revert acc. induction fs as [|f fs IH]; intros acc; simpl; [by constructor|].
  destruct (field_value dv here data f) as [x|e] eqn:Hf; simpl; [|done].
  intros H. constructor; [by rewrite Hf | by eapply IH].
Qed.

(** The first field whose turn raises, with every field before it yielding
    a value. *)
Lemma fill_fields_Raise_first dv here data fs acc e :
  fill_fields dv here data fs acc = Raise e →
  ∃ j f, fs !! j = Some f ∧ field_value dv here data f = Raise e ∧
    Forall (λ g, is_ok (field_value dv here data g) = true) (take j fs).
Proof.
  revert acc. induction fs as [|f fs IH]; intros acc; simpl; [done|].
  destruct (field_value dv here data f) as [x|e'] eqn:Hf; simpl.
  - intros H. apply IH in H as (j & g & Hj & Hg & Hpre).
    exists (S j), g. split; [done|]. split; [done|].
    cbn [take]. constructor; [by rewrite Hf | done].
  - intros [= ->]. exists 0%nat, f. split; [done|]. split; [done|].
    constructor.
Qed.

(** What the turn of a field raises is the wrapped failure of its
    conversion, when the document holds the field, and what its default
    factory raised, when the document lacks it. *)
Lemma field_value_Raise_inv here data f e :
  field_value deserialize_value here data f = Raise e →
  (∃ raw e0,
     dict_get data (AStr (field_name f)) = Some raw ∧
     deserialize_value (InField (field_name f) :: here) (field_type f) raw
       = Raise e0 ∧
     e = field_error (field_name f) e0)
  ∨ (∃ fac,
       dict_get data (AStr (field_name f)) = None ∧
       field_default f = None ∧
       field_default_factory f = Some fac ∧
       fac (InField (field_name f) :: here) = Raise e).
Proof.
  unfold field_value.
  destruct (dict_get data (AStr (field_name f))) as [raw|] eqn:Hraw.
  - destruct (deserialize_value _ (field_type f) raw) as [x|e0] eqn:Hdv;
      cbn [wrap_field]; [done|].
    intros [= <-]. left. by exists raw, e0.
  - unfold missing_field. destruct (field_default f) as [d|]; [done|].
    destruct (field_default_factory f) as [fac|]; [|done].
    intros Hfac. right. by exists fac.
Qed.

(** Whatever [deserialize] raises is the wrapped failure of a field that
    the document does hold, or was raised by the default factory of a
    field it lacks, or by the constructor. *)
Lemma deserialize_Raise_inv here cls flds data e :
  deserialize here (TData cls flds) data = Raise e →
  (∃ g raw e0, g ∈ flds ∧
     dict_get data (AStr (field_name g)) = Some raw ∧
     deserialize_value (InField (field_name g) :: here) (field_type g) raw
       = Raise e0 ∧
     e = field_error (field_name g) e0)
  ∨ (∃ g fac, g ∈ flds ∧
       dict_get data (AStr (field_name g)) = None ∧
       field_default g = None ∧
       field_default_factory g = Some fac ∧
       fac (InField (field_name g) :: here) = Raise e)
  ∨ (∃ g, g ∈ flds ∧ field_init g = false ∧ exn_kind_of e = TypeError)
  ∨ (∃ attrs, post_init cls attrs = Raise e).
Proof.
  cbn [deserialize]. unfold deserialize_fields.
  destruct (fill_fields _ _ _ _ _) as [out|e'] eqn:Hfill;
    cbn [mbind result_bind].
  - intros Hc. apply construct_Raise_inv in Hc as [(g & Hg & Hi & Hk)|Hp].
    + right. right. left. by exists g.
    + right. right. right. by exists out.
  - intros [= ->].
    apply fill_fields_Raise_inv in Hfill as (g & Hg & Hv).
    apply field_value_Raise_inv in Hv
      as [(raw & e0 & Hraw & He0 & ->)|(fac & Hraw & Hd & Hf & Hfac)].
    + left. by exists g, raw, e0.
    + right. left. by exists g, fac.
Qed.

Lemma deserialize_Ok_attr here cls flds data inst i f :
  NoDup (map field_name flds) →
  flds !! i = Some f →
  deserialize here (TData cls flds) data = Ok inst →
  ∃ x, field_value deserialize_value here data f = Ok x ∧
       get_attr inst (field_name f) = Some x.
Proof.
  intros Hnd Hf. cbn [deserialize]. unfold deserialize_fields.
  destruct (fill_fields _ _ _ _ _) as [out|e'] eqn:Hfill;
    cbn [mbind result_bind]; [|done].
  intros Hc. apply construct_Ok_inv in Hc as ->. cbn [get_attr].
  eapply fill_fields_lookup; [done..|]. by eapply list_elem_of_lookup_2.
Qed.

End deserialize_facts.



Module Partial.
(** An older invoice document, written before [paid], [_rev] and
    [ship_to] existed, without an identifier. *)
Definition document : list (atom * value) :=
  [(AStr "total", VStr "3.20");
   (AStr "issued", VStr "2019-05-01T00:00:00");
   (AStr "lines", VList []);
   (AStr "tags", VDict [])].

Definition fields : list field :=
  match Invoice.schema with TData _ flds => flds | _ => [] end.
End Partial.


(** C7: when the conversion of a field that the document holds fails with
    [e], [deserialize] does not return.  It raises a [ValueError] whose
    message names a field and whose cause is that field's own failure,
    unless the default factory of an earlier field that the document lacks
    raises first; the field named is the first one in declaration order
    whose conversion fails, so it is this field, with cause [e], when every
    earlier field yields a value. *)
Theorem deserialize_wraps_field_failure `{B : Builtins}
    here cls flds data i f raw e :
  flds !! i = Some f →
  dict_get data (AStr (field_name f)) = Some raw →
  deserialize_value (InField (field_name f) :: here) (field_type f) raw
    = Raise e →
  is_ok (deserialize here (TData cls flds) data) = false
  ∧ ((∀ g, g ∈ take i flds →
        dict_get data (AStr (field_name g)) = None →
        is_ok (missing_field (InField (field_name g) :: here) g) = true) →
     ∃ g raw' e',
       g ∈ flds ∧
       dict_get data (AStr (field_name g)) = Some raw' ∧
       deserialize_value (InField (field_name g) :: here) (field_type g) raw'
         = Raise e' ∧
       deserialize here (TData cls flds) data =
         Raise (Exn ValueError
                  ("Error deserializing field '" +:+ field_name g +:+ "': "
                   +:+ exn_msg e')
                  (Some e')))
  ∧ (Forall (λ g, is_ok (field_value deserialize_value here data g) = true)
            (take i flds) →
     deserialize here (TData cls flds) data =
       Raise (Exn ValueError
                ("Error deserializing field '" +:+ field_name f +:+ "': "
                 +:+ exn_msg e)
                (Some e))).
Proof.
  intros Hf Hraw He.
  assert (Hv : field_value deserialize_value here data f
               = Raise (field_error (field_name f) e)).
  { rewrite (field_value_present _ _ _ _ raw) by done. by rewrite He. }
  assert (Hfill : ∃ e1, fill_fields deserialize_value here data flds []
                        = Raise e1).
  { destruct (fill_fields deserialize_value here data flds []) as [out|e1]
      eqn:Hfill; [|by exists e1].
    apply fill_fields_Ok_inv in Hfill. rewrite Forall_forall in Hfill.
    specialize (Hfill f (list_elem_of_lookup_2 _ _ _ Hf)).
    by rewrite Hv in Hfill. }
  destruct Hfill as (e1 & Hfill).
  split; [|split].
  - cbn [deserialize]. unfold deserialize_fields. by rewrite Hfill.
  - intros Hfac. cbn [deserialize]. unfold deserialize_fields.
    rewrite Hfill. cbn [mbind result_bind].
    apply fill_fields_Raise_first in Hfill as (j & g & Hj & Hg & Hpre).
    assert (Hji : (j ≤ i)%nat).
    { destruct (decide (j ≤ i)%nat) as [|Hgt]; [done|]. exfalso.
      rewrite Forall_forall in Hpre.
      assert (Hin : f ∈ take j flds).
      { apply (list_elem_of_lookup_2 _ i). rewrite lookup_take_lt by lia.
        done. }
      specialize (Hpre f Hin). by rewrite Hv in Hpre. }
    apply field_value_Raise_inv in Hg
      as [(raw' & e' & Hraw' & He' & ->)|(fac & Hnone & Hd & Hfc & Hr)].
    + exists g, raw', e'. split; [by eapply list_elem_of_lookup_2|]. done.
    + exfalso.
      assert (Hne : j ≠ i).
      { intros ->. rewrite Hf in Hj. injection Hj as <-. congruence. }
      assert (Hin : g ∈ take i flds).
      { apply (list_elem_of_lookup_2 _ j). rewrite lookup_take_lt by lia.
        done. }
      specialize (Hfac g Hin Hnone). unfold missing_field in Hfac.
      by rewrite Hd, Hfc, Hr in Hfac.
  - intros Hpre. cbn [deserialize]. unfold deserialize_fields.
    rewrite <- (take_drop_middle _ _ _ Hf).
    by rewrite (fill_fields_Raise _ _ _ _ _ _ _ _ Hpre Hv).
Qed.

Module Broken.
(** An invoice document whose list of lines is a string. *)
Definition document : list (atom * value) :=
  [(AStr "_id", VStr "inv-9");
   (AStr "total", VStr "3.20");
   (AStr "lines", VStr "none")].
End Broken.

Lemma deserialize_wraps_field_failure_witness :
  Partial.fields !! 5%nat = Some (Field "lines" (TList TDecimal) None None true) ∧
  dict_get Broken.document (AStr "lines") = Some (VStr "none") ∧
  deserialize_value [InField "lines"] (TList TDecimal) (VStr "none")
    = Raise (Exn TypeError "Expected list for field, got str" None) ∧
  deserialize [] Invoice.schema Broken.document =
    Raise (Exn ValueError
             "Error deserializing field 'lines': Expected list for field, got str"
             (Some (Exn TypeError "Expected list for field, got str" None))).
Proof.
  split; [reflexivity|]. split; [reflexivity|]. split; [reflexivity|].
  apply (proj2 (proj2 (deserialize_wraps_field_failure [] "Invoice"
    Partial.fields Broken.document 5
    (Field "lines" (TList TDecimal) None None true)
    (VStr "none") (Exn TypeError "Expected list for field, got str" None)
    eq_refl eq_refl eq_refl))).
  repeat constructor.
Defined.

(** ** Mapping keys *)

(** C9, as stated, fails at a null raw value: null is not a mapping, yet
    [deserialize_value] returns null for a map-of field instead of raising
    (the test [value is None] comes before every type test). *)
Lemma deserialize_map_of_null_does_not_fail :
  (∀ d, VNone ≠ VDict d) ∧
  ∀ here, deserialize_value here (TDict TStr TInt) VNone = Ok VNone.
Proof. split; [intros d; discriminate | reflexivity]. Qed.

(** C9 (amended): [serialize] converts the values of a mapping and passes
    every key through unchanged; [deserialize] on a map-of field converts
    both the keys and the values of a mapping by the declared kinds, returns
    null for a null raw value, and raises a [TypeError] for every other raw
    value that is not a mapping. *)
Theorem mapping_keys_asymmetry `{B : Builtins} here key val d :
  NoDup (keys d) →
  serialize_value (VDict d)
    = VDict (map (λ kv, (kv.1, serialize_value kv.2)) d)
  ∧ (∀ out, deserialize_value here (TDict key val) (VDict d) = Ok out ↔
       ∃ items,
         Forall2 (λ ikv kv',
                    deserialize_value (InKey ikv.1 :: here) key (VAtom ikv.2.1)
                      = Ok (VAtom kv'.1) ∧
                    deserialize_value (InValue ikv.1 :: here) val ikv.2.2
                      = Ok kv'.2) (enumerate d) items ∧
         out = VDict (dict_of_items items))
  ∧ deserialize_value here (TDict key val) VNone = Ok VNone
  ∧ (∀ raw, raw ≠ VNone → (∀ d0, raw ≠ VDict d0) →
       deserialize_value here (TDict key val) raw
         = Raise (Exn TypeError
                    ("Expected dict for field, got " +:+ type_name raw) None)).
Proof.
  intros Hnd. split; [|split; [|split]].
  - simpl. f_equal. apply dict_of_items_NoDup.
    unfold keys. by rewrite <- list_fmap_compose.
  - intros out. cbn [deserialize_value].
    destruct (mapR _ (enumerate d)) as [items|e] eqn:Hm; simpl.
    + apply mapR_Ok_Forall2 in Hm. split.
      * intros [= <-]. exists items. split; [|done].
        eapply Forall2_impl; [exact Hm|]. intros [i [k x]] [k' x']; simpl.
        destruct (deserialize_value (InKey i :: here) key (VAtom k)) as [y|];
          simpl; [|done].
        destruct (deserialize_value (InValue i :: here) val x) as [x''|];
          simpl; [|done].
        destruct y; simpl; try done. intros Heq; split; congruence.
      * intros (items' & Hf & ->).
        assert (Hm' : Forall2 (λ ikv kv',
                   (k ← deserialize_value (InKey ikv.1 :: here) key
                          (VAtom ikv.2.1);
                    x ← deserialize_value (InValue ikv.1 :: here) val ikv.2.2;
                    k' ← as_key k; Ok (k', x)) = Ok kv') (enumerate d) items').
        { eapply Forall2_impl; [exact Hf|]. intros [i [k x]] [k' x']; simpl.
          by intros [-> ->]. }
        apply mapR_Ok_Forall2 in Hm'.
        apply mapR_Ok_Forall2 in Hm. rewrite Hm in Hm'. by injection Hm' as ->.
    + split; [done|]. intros (items' & Hf & ->). exfalso.
      assert (Hm' : Forall2 (λ ikv kv',
                 (k ← deserialize_value (InKey ikv.1 :: here) key
                        (VAtom ikv.2.1);
                  x ← deserialize_value (InValue ikv.1 :: here) val ikv.2.2;
                  k' ← as_key k; Ok (k', x)) = Ok kv') (enumerate d) items').
      { eapply Forall2_impl; [exact Hf|]. intros [i [k x]] [k' x']; simpl.
        by intros [-> ->]. }
      apply mapR_Ok_Forall2 in Hm'. rewrite Hm in Hm'. done.
  - reflexivity.
  - intros raw Hnone Hdict.
    destruct raw as [[]|l|d0|c attrs]; try done.
    by destruct (Hdict d0).
Qed.

Lemma mapping_keys_asymmetry_witness :
  NoDup (keys [(AStr "10", VDecimal "1.5"); (AStr "20", VNone)]) ∧
  serialize_value (VDict [(AStr "10", VDecimal "1.5"); (AStr "20", VNone)])
    = VDict [(AStr "10", VStr "1.5"); (AStr "20", VNone)].
Proof.
  assert (Hnd : NoDup (keys [(AStr "10", VDecimal "1.5"); (AStr "20", VNone)]))
    by compute_done.
  split; [exact Hnd|].
  exact (proj1 (mapping_keys_asymmetry [] TStr TDecimal _ Hnd)).
Defined.

(** ** The client: single requests *)

Section io_facts.
Context `{C : Carriers} {T : Transport}.

Lemma session_request_eq rq w o n :
  send rq (conn w) = (o, n) →
  session_request rq w = (o, exchanged w rq o n).
Proof. unfold session_request. by intros ->. Qed.

Lemma exchanges_exchanged (w : world) rq o n :
  exchanges (exchanged w rq o n) = exchanges w ++ [(rq, o)].
Proof. reflexivity. Qed.

Lemma io_bind_Ok {A R} (m : io A) (k : A → io R) w a w' :
  m w = (Ok a, w') → io_bind m k w = k a w'.
Proof. unfold io_bind. by intros ->. Qed.

Lemma io_bind_Raise {A R} (m : io A) (k : A → io R) w e w' :
  m w = (Raise e, w') → io_bind m k w = (Raise e, w').
Proof. unfold io_bind. by intros ->. Qed.

End io_facts.

(** C5: [get] and [post] return [None], and [find] returns the empty list,
    on every response that is not the success they expect (200, 201 and 200
    respectively), without raising; [find] also returns the empty list when
    the store answers with success and lists no document, which is its
    answer to a selector matching nothing. *)
Theorem failed_responses_give_absent_or_empty `{B : Builtins} {T : Transport}
    url w r n :
  (∀ id,
     send (Request GET (Db.doc_url url id) [] None) (conn w) = (Ok r, n) →
     status_code r ≠ 200 →
     Db.get url id w
       = (Ok VNone, exchanged w (Request GET (Db.doc_url url id) [] None) (Ok r) n))
  ∧ (∀ doc,
     send (Request POST url [] (Some (VDict doc))) (conn w) = (Ok r, n) →
     status_code r ≠ 201 →
     Db.post url doc w
       = (Ok None, exchanged w (Request POST url [] (Some (VDict doc))) (Ok r) n))
  ∧ (∀ query skip limit fields,
     send (Request POST (url +:+ "/_find") []
             (Some (VDict (Db.find_body query skip limit fields)))) (conn w)
       = (Ok r, n) →
     status_code r ≠ 200
     ∨ (∃ body, json r = Ok (VDict body) ∧
          (dict_get body (AStr "docs") = None
           ∨ dict_get body (AStr "docs") = Some (VList []))) →
     Db.find url query skip limit fields w
       = (Ok (VList []),
          exchanged w (Request POST (url +:+ "/_find") []
             (Some (VDict (Db.find_body query skip limit fields)))) (Ok r) n)).
Proof.
  split; [|split].
  - intros id Hs Hst. unfold Db.get, Db.session_get.
    rewrite (io_bind_Ok _ _ _ _ _ (session_request_eq _ _ _ _ Hs)).
    apply Z.eqb_neq in Hst. by rewrite Hst.
  - intros doc Hs Hst. unfold Db.post, Db.session_post.
    rewrite (io_bind_Ok _ _ _ _ _ (session_request_eq _ _ _ _ Hs)).
    apply Z.eqb_neq in Hst. by rewrite Hst.
  - intros query skip limit fields Hs Hcase. unfold Db.find, Db.session_post.
    rewrite (io_bind_Ok _ _ _ _ _ (session_request_eq _ _ _ _ Hs)).
    destruct (Z.eqb (status_code r) 200) eqn:Hst; simpl; [|done].
    destruct Hcase as [Hne|(body & Hj & Hdocs)].
    + by apply Z.eqb_eq in Hst.
    + unfold io_bind, lift. rewrite Hj. simpl.
      by destruct Hdocs as [-> | ->].
Qed.

Module Outage.
(** The store answers 503 with a plain-text body, whatever is asked. *)
Definition unavailable : result response :=
  Ok (Response 503 (Raise (Exn JSONDecodeError "Expecting value" None))).

Definition transport : Transport :=
  {| net := unit; send := λ _ n, (unavailable, n) |}.

Definition world0 : @world _ transport := @World _ transport () [].
End Outage.

Lemma failed_responses_give_absent_or_empty_witness :
  (Db.get (T := Outage.transport) "http://db:5984/shop" (VStr "inv-7")
     Outage.world0).1 = Ok VNone
  ∧ (Db.post (T := Outage.transport) "http://db:5984/shop" [(AStr "x", VInt 1)]
       Outage.world0).1 = Ok None
  ∧ (Db.find (T := Outage.transport) "http://db:5984/shop" (VDict []) 0 50000
       VNone Outage.world0).1 = Ok (VList []).
Proof.
  pose proof (failed_responses_give_absent_or_empty (T := Outage.transport)
    "http://db:5984/shop" Outage.world0
    (Response 503 (Raise (Exn JSONDecodeError "Expecting value" None))) ())
    as (Hget & Hpost & Hfind).
  split; [|split].
  - rewrite Hget; [reflexivity..|]. vm_compute. discriminate.
  - rewrite Hpost; [reflexivity..|]. vm_compute. discriminate.
  - rewrite Hfind; [reflexivity..|]. left. vm_compute. discriminate.
Defined.

(** On the reference store a selector that no live document matches is
    answered with success and an empty list, and so is [find]. *)
Lemma strip_prefix_app p s : RefStore.strip_prefix p (p +:+ s) = Some s.
Proof.
  induction p as [|a p IH]; simpl; [done|]. by rewrite Ascii.eqb_refl.
Qed.

Lemma filter_none {A} (P : A → Prop) `{∀ x, Decision (P x)} (l : list A) :
  (∀ x, x ∈ l → ¬ P x) → filter P l = [].
Proof.
  induction l as [|x l IH]; intros Hl; [done|].
  rewrite filter_cons_False by (apply Hl, list_elem_of_here).
  apply IH. intros y Hy. apply Hl. by apply list_elem_of_further.
Qed.

Lemma find_body_selector `{B : Builtins} query skip limit fields :
  dict_get (Db.find_body query skip limit fields) (AStr "selector") = Some query.
Proof. unfold Db.find_body. by destruct (truthy fields). Qed.

Lemma refstore_find_matching_nothing `{B : Builtins} st q skip limit fields xs :
  (∀ d, d ∈ RefStore.live_docs st → RefStore.matches q d = false) →
  (Db.find (T := RefStore.transport) (RefStore.base st) (VDict q) skip limit
     fields (@World _ RefStore.transport st xs)).1 = Ok (VList []).
Proof.
  intros Hno. unfold Db.find, Db.session_post, io_bind, session_request.
  cbn [send conn RefStore.transport]. unfold RefStore.serve.
  cbn [req_url req_method req_json]. rewrite strip_prefix_app.
  unfold RefStore.serve_post. cbn [String.eqb Ascii.eqb Bool.eqb].
  rewrite find_body_selector.
  rewrite filter_none.
  - reflexivity.
  - intros d Hd. rewrite (Hno d Hd). done.
Qed.

(** ** The client: upsert *)

Section dict_keys.
Context {K V : Type} `{EqDecision K}.

Lemma NoDup_dict_pop (d : list (K * V)) k :
  NoDup (keys d) → NoDup (keys (dict_pop d k)).
Proof.
  unfold keys. induction d as [|[k' v'] d IH]; simpl; [done|].
  intros Hnd. apply NoDup_cons in Hnd as [Hk Hnd].
  destruct (decide (k' = k)); [by apply IH|].
  rewrite fmap_cons. apply NoDup_cons. split; [|by apply IH].
  intros Hin. apply Hk. clear -Hin.
  induction d as [|[k0 v0] d IHd]; simpl in *; [done|].
  destruct (decide (k0 = k)).
  - apply list_elem_of_further. by apply IHd.
  - rewrite fmap_cons in Hin. apply elem_of_cons in Hin as [->|Hin].
    + apply list_elem_of_here.
    + apply list_elem_of_further. by apply IHd.
Qed.

Lemma NoDup_dict_set (d : list (K * V)) k v :
  NoDup (keys d) → NoDup (keys (dict_set d k v)).
Proof.
  intros Hnd. destruct (dict_get d k) as [x|] eqn:Hg.
  - by rewrite keys_dict_set_present.
  - rewrite dict_set_absent by done. unfold keys in *.
    rewrite fmap_app. apply NoDup_app. split; [done|]. split.
    + intros k' Hin Hk'. apply list_elem_of_singleton in Hk'. subst k'.
      by apply dict_get_None in Hg.
    + apply NoDup_singleton.
Qed.

Lemma NoDup_dict_update (d e : list (K * V)) :
  NoDup (keys d) → NoDup (keys (dict_update d e)).
Proof.
  unfold dict_update. revert d.
  induction e as [|[k v] e IH]; intros d Hnd; simpl; [done|].
  apply IH. by apply NoDup_dict_set.
Qed.

End dict_keys.

Section upsert_facts.
Context `{B : Builtins} {T : Transport}.
Variable url : string.

Lemma NoDup_strip_null_rev doc :
  NoDup (keys doc) → NoDup (keys (Db.strip_null_rev doc)).
Proof.
  intros Hnd. unfold Db.strip_null_rev.
  destruct (dict_get doc (AStr "_rev")) as [[[]| | |]|]; try done.
  by apply NoDup_dict_pop.
Qed.

Lemma strip_null_rev_id doc :
  dict_get (Db.strip_null_rev doc) (AStr "_id") = dict_get doc (AStr "_id").
Proof.
  unfold Db.strip_null_rev.
  destruct (dict_get doc (AStr "_rev")) as [[[]| | |]|]; try done.
  by apply dict_get_pop_ne.
Qed.

(** The merged document of the retry: the caller's fields over the fetched
    ones, key by key. *)
Lemma merged_lookup (current doc : list (atom * value)) k :
  NoDup (keys doc) →
  dict_get (dict_update current doc) k =
    match dict_get doc k with
    | Some x => Some x
    | None => dict_get current k
    end.
Proof. apply dict_get_update. Qed.

(** The conflict path of [put]: a rejected write, a re-fetch that finds a
    document, one retry, and no look at the retry's status. *)
Lemma put_conflict_path doc id w r1 n1 r2 n2 current o3 n3 :
  dict_get doc (AStr "_id") = Some id → id ≠ VNone →
  NoDup (keys doc) →
  send (Request PUT (Db.doc_url url id) [] (Some (VDict (Db.strip_null_rev doc))))
       (conn w) = (Ok r1, n1) →
  Db.accepted (status_code r1) = false →
  send (Request GET (Db.doc_url url id) [] None) n1 = (Ok r2, n2) →
  status_code r2 = 200 →
  json r2 = Ok (VDict current) → current ≠ [] →
  send (Request PUT (Db.doc_url url id) []
          (Some (VDict (dict_update current (Db.strip_null_rev doc))))) n2
    = (o3, n3) →
  Db.put url doc w =
    (match o3 with
     | Raise e => Raise e
     | Ok r3 =>
         match json r3 ≫= (λ body, getitem body (VStr "rev")) with
         | Ok rev => Ok (Some (dict_set (Db.strip_null_rev doc) (AStr "_rev") rev))
         | Raise e => Raise e
         end
     end,
     exchanged
       (exchanged
          (exchanged w
             (Request PUT (Db.doc_url url id) []
                (Some (VDict (Db.strip_null_rev doc)))) (Ok r1) n1)
          (Request GET (Db.doc_url url id) [] None) (Ok r2) n2)
       (Request PUT (Db.doc_url url id) []
          (Some (VDict (dict_update current (Db.strip_null_rev doc))))) o3 n3).
Proof.
  intros Hid Hnn Hnd H1 Hrej H2 H200 Hj Hne H3.
  assert (Hput : Db.put url doc w =
    (result ⇐ Db.session_put (Db.doc_url url id)
                (VDict (Db.strip_null_rev doc));;
     if negb (Db.accepted (status_code result)) then
       current_doc ⇐ Db.get url id;;
       if truthy current_doc then
         match current_doc with
         | VDict current =>
             id' ⇐ lift (getitem (VDict (dict_update current (Db.strip_null_rev doc)))
                           (VStr "_id"));;
             result ⇐ Db.session_put (Db.doc_url url id')
                        (VDict (dict_update current (Db.strip_null_rev doc)));;
             Db.put_finish result (Db.strip_null_rev doc)
         | _ =>
             lift (Raise (Exn AttributeError
               ("'" +:+ type_name current_doc +:+ "' object has no attribute 'update'")
               None))
         end
       else io_ret None
     else Db.put_finish result (Db.strip_null_rev doc)) w).
  { unfold Db.put. rewrite Hid. by destruct id as [[]| | |]. }
  rewrite Hput. clear Hput. unfold Db.session_put.
  rewrite (io_bind_Ok _ _ _ _ _ (session_request_eq _ _ _ _ H1)).
  rewrite Hrej. cbn [negb].
  assert (Hget : Db.get url id
            (exchanged w (Request PUT (Db.doc_url url id) []
               (Some (VDict (Db.strip_null_rev doc)))) (Ok r1) n1)
          = (Ok (VDict current),
             exchanged (exchanged w (Request PUT (Db.doc_url url id) []
               (Some (VDict (Db.strip_null_rev doc)))) (Ok r1) n1)
               (Request GET (Db.doc_url url id) [] None) (Ok r2) n2)).
  { unfold Db.get, Db.session_get.
    rewrite (io_bind_Ok _ _ _ _ _
      (session_request_eq _ (exchanged w _ (Ok r1) n1) _ _ H2)).
    rewrite H200. cbn. unfold lift. by rewrite Hj. }
  rewrite (io_bind_Ok _ _ _ _ _ Hget).
  assert (Htruthy : truthy (VDict current) = true).
  { simpl. rewrite bool_decide_eq_false_2; done. }
  rewrite Htruthy.
  assert (Hid' : getitem (VDict (dict_update current (Db.strip_null_rev doc)))
                   (VStr "_id") = Ok id).
  { cbn [getitem as_key mbind result_bind].
    rewrite merged_lookup by (by apply NoDup_strip_null_rev).
    by rewrite strip_null_rev_id, Hid. }
  unfold io_bind at 1. unfold lift at 1. rewrite Hid'.
  pose proof (session_request_eq _
    (exchanged
       (exchanged w
          (Request PUT (Db.doc_url url id) []
             (Some (VDict (Db.strip_null_rev doc)))) (Ok r1) n1)
       (Request GET (Db.doc_url url id) [] None) (Ok r2) n2) _ _ H3) as H3'.
  destruct o3 as [r3|e].
  - rewrite (io_bind_Ok _ _ _ _ _ H3').
    unfold Db.put_finish, io_bind, lift.
    destruct (json r3) as [body|e]; simpl; [|done].
    destruct (getitem body (VStr "rev")); done.
  - by rewrite (io_bind_Raise _ _ _ _ _ H3').
Qed.

End upsert_facts.

(** The scenario of the specification: the store holds
    [{_id: "a", _rev: "2", x: 9, y: 9}] and a caller who last saw revision
    1 upserts [{_id: "a", _rev: "1", x: 2}]. *)
Module Conflict.

Definition url : string := "http://db:5984/shop".

Definition stored : list (atom * value) :=
  [(AStr "_id", VStr "a"); (AStr "_rev", VStr "2");
   (AStr "x", VInt 9); (AStr "y", VInt 9)].

Definition store0 : RefStore.state :=
  RefStore.State url [("a", RefStore.Entry 2 stored)] 0.

Definition world0 : @world _ RefStore.transport :=
  @World _ RefStore.transport store0 [].

Definition caller : list (atom * value) :=
  [(AStr "_id", VStr "a"); (AStr "_rev", VStr "1"); (AStr "x", VInt 2)].

(** The same upsert by a caller that names no revision, while a second
    writer commits between the re-fetch and the retry: the store rejects
    the first write, serves revision 2, and rejects the retry. *)
Definition unbound : list (atom * value) :=
  [(AStr "_id", VStr "a"); (AStr "x", VInt 2)].

Definition race : list (result response) :=
  [Ok RefStore.conflict;
   Ok (Response 200 (Ok (VDict stored)));
   Ok RefStore.conflict].

Definition race0 : @world _ Script.transport :=
  @World _ Script.transport race [].

End Conflict.

(** C1 at the specification's own input: the retry does not carry the
    fetched revision.  The merge lets every field of the caller win,
    [_rev] included, so the retried write carries
    [{_id: "a", _rev: "1", x: 2, y: 9}]; the store rejects it again, nothing
    is written, and [put] ends with a [KeyError] on the answer's missing
    [rev]. *)
Theorem put_retry_carries_stale_revision :
  (Db.put (T := RefStore.transport) Conflict.url Conflict.caller
     Conflict.world0).1 = Raise (Exn KeyError "'rev'" None)
  ∧ map req_json
      (sent (Db.put (T := RefStore.transport) Conflict.url Conflict.caller
               Conflict.world0).2) =
      [Some (VDict Conflict.caller);
       None;
       Some (VDict [(AStr "_id", VStr "a"); (AStr "_rev", VStr "1");
                    (AStr "x", VInt 2); (AStr "y", VInt 9)])]
  ∧ conn (Db.put (T := RefStore.transport) Conflict.url Conflict.caller
            Conflict.world0).2 = Conflict.store0.
Proof. repeat split; vm_compute; reflexivity. Qed.

(** C2 at a failed retry: [put] raises instead of returning [None].  The
    status of the retry's answer is never read; [res['rev']] on the
    store's conflict answer raises [KeyError]. *)
Theorem put_failed_retry_raises :
  (Db.put (T := Script.transport) Conflict.url Conflict.unbound
     Conflict.race0).1 = Raise (Exn KeyError "'rev'" None)
  ∧ map (λ x, status_code <$> x.2)
      (exchanges (Db.put (T := Script.transport) Conflict.url Conflict.unbound
                    Conflict.race0).2)
      = [Ok 409; Ok 200; Ok 409]
  ∧ map req_method
      (sent (Db.put (T := Script.transport) Conflict.url Conflict.unbound
               Conflict.race0).2) = [PUT; GET; PUT].
Proof. repeat split; vm_compute; reflexivity. Qed.

(** The same holds whenever the retry is answered without a revision. *)
Lemma put_retry_without_revision_raises `{B : Builtins} {T : Transport}
    url doc id w r1 n1 r2 n2 current r3 n3 body :
  dict_get doc (AStr "_id") = Some id → id ≠ VNone →
  NoDup (keys doc) →
  send (Request PUT (Db.doc_url url id) [] (Some (VDict (Db.strip_null_rev doc))))
       (conn w) = (Ok r1, n1) →
  Db.accepted (status_code r1) = false →
  send (Request GET (Db.doc_url url id) [] None) n1 = (Ok r2, n2) →
  status_code r2 = 200 →
  json r2 = Ok (VDict current) → current ≠ [] →
  send (Request PUT (Db.doc_url url id) []
          (Some (VDict (dict_update current (Db.strip_null_rev doc))))) n2
    = (Ok r3, n3) →
  json r3 = Ok (VDict body) → dict_get body (AStr "rev") = None →
  (Db.put url doc w).1 = Raise (Exn KeyError "'rev'" None).
Proof.
  intros Hid Hnn Hnd H1 Hrej H2 H200 Hj Hne H3 Hb Hrev.
  rewrite (put_conflict_path url doc id w r1 n1 r2 n2 current (Ok r3) n3)
    by done.
  simpl. rewrite Hb. simpl. by rewrite Hrev.
Qed.

(** With no revision of the caller's own in the way, the retry carries the
    fetched revision and the store accepts it. *)
Lemma put_unbound_retry_succeeds :
  (Db.put (T := RefStore.transport) Conflict.url Conflict.unbound
     Conflict.world0).1
  = Ok (Some [(AStr "_id", VStr "a"); (AStr "x", VInt 2); (AStr "_rev", VStr "3")]).
Proof. vm_compute. reflexivity. Qed.

(** ** The client: batches *)

Section batch_facts.
Context `{B : Builtins}.

Lemma seq_index_nat {A} (l : list A) (i : nat) :
  seq_index l (Z.of_nat i) = l !! i.
Proof.
  unfold seq_index.
  assert (Hi : Z.ltb (Z.of_nat i) 0 = false) by (apply Z.ltb_ge; lia).
  cbv zeta. rewrite Hi, Hi. by rewrite Nat2Z.id.
Qed.

Lemma strip_empty_rev_idemp doc :
  Db.strip_empty_rev (Db.strip_empty_rev doc) = Db.strip_empty_rev doc.
Proof.
  unfold Db.strip_empty_rev.
  destruct (truthy (default VNone (dict_get doc (AStr "_rev")))) eqn:Ht.
  - by rewrite Ht.
  - rewrite dict_get_pop_eq. simpl. apply dict_pop_absent, dict_get_pop_eq.
Qed.

(** A document whose revision is missing, null or empty is submitted
    without a revision marker. *)
Lemma strip_empty_rev_unmarked doc :
  dict_get doc (AStr "_rev") = None
  ∨ dict_get doc (AStr "_rev") = Some VNone
  ∨ dict_get doc (AStr "_rev") = Some (VStr "") →
  dict_get (Db.strip_empty_rev doc) (AStr "_rev") = None.
Proof.
  unfold Db.strip_empty_rev.
  intros [H|[H|H]]; rewrite H; simpl; apply dict_get_pop_eq.
Qed.

Lemma deref_alter (f : list (atom * value) → list (atom * value)) heap r0 r :
  (r0 < length heap)%nat →
  Db.deref (alter f r0 heap) r
    = if decide (r = r0) then f (Db.deref heap r) else Db.deref heap r.
Proof.
  intros Hlt. unfold Db.deref. destruct (decide (r = r0)) as [->|Hne].
  - rewrite list_lookup_alter_eq.
    destruct (lookup_lt_is_Some_2 _ _ Hlt) as [d ->]. done.
  - by rewrite list_lookup_alter_ne.
Qed.

Lemma length_strip_revs heap docs :
  length (Db.strip_revs heap docs) = length heap.
Proof.
  unfold Db.strip_revs. revert heap.
  induction docs as [|r docs IH]; intros heap; simpl; [done|].
  by rewrite IH, length_alter.
Qed.

Lemma deref_strip_revs heap docs r :
  (∀ r, r ∈ docs → (r < length heap)%nat) →
  Db.deref (Db.strip_revs heap docs) r
    = if decide (r ∈ docs) then Db.strip_empty_rev (Db.deref heap r)
      else Db.deref heap r.
Proof.
  unfold Db.strip_revs. revert heap.
  induction docs as [|r0 docs IH]; intros heap Hvalid; cbn [fold_left].
  - destruct (decide (r ∈ [])) as [Hin|_]; [by apply elem_of_nil in Hin | done].
  - rewrite IH.
    2:{ intros r' Hr'. rewrite length_alter. apply Hvalid.
        by apply list_elem_of_further. }
    rewrite deref_alter by (apply Hvalid, list_elem_of_here).
    destruct (decide (r = r0)) as [->|Hne].
    + destruct (decide (r0 ∈ r0 :: docs)) as [_|Hn];
        [|destruct Hn; apply list_elem_of_here].
      destruct (decide (r0 ∈ docs)); [apply strip_empty_rev_idemp | done].
    + destruct (decide (r ∈ docs)) as [Hin|Hnin],
               (decide (r ∈ r0 :: docs)) as [Hin'|Hnin']; try done.
      * destruct Hnin'. by apply list_elem_of_further.
      * apply elem_of_cons in Hin' as [?|?]; done.
Qed.

(** With one entry per document, each carrying [id] and [rev], the second
    comprehension writes entry [i] onto document [i] and touches nothing
    else. *)
Lemma assign_results_aligned entries docs i heap :
  NoDup docs →
  (∀ r, r ∈ docs → (r < length heap)%nat) →
  (∀ j r, docs !! j = Some r →
     ∃ e id rev, entries !! (i + j)%nat = Some e ∧
       getitem e (VStr "id") = Ok id ∧ getitem e (VStr "rev") = Ok rev) →
  ∃ heap',
    Db.assign_results (VList entries) i docs heap = Ok heap' ∧
    length heap' = length heap ∧
    (∀ r, r ∉ docs → Db.deref heap' r = Db.deref heap r) ∧
    (∀ j r e id rev, docs !! j = Some r → entries !! (i + j)%nat = Some e →
       getitem e (VStr "id") = Ok id → getitem e (VStr "rev") = Ok rev →
       Db.deref heap' r
         = dict_update (Db.deref heap r) [(AStr "_id", id); (AStr "_rev", rev)]).
Proof.
  revert i heap. induction docs as [|r docs IH]; intros i heap Hnd Hvalid Hal.
  - exists heap. simpl. repeat split; try done.
  - apply NoDup_cons in Hnd as [Hr Hnd].
    destruct (Hal 0%nat r eq_refl) as (e & id & rev & He & Hid & Hrev).
    rewrite Nat.add_0_r in He.
    assert (Hlt : (r < length heap)%nat) by apply Hvalid, list_elem_of_here.
    destruct (IH (S i)
      (alter (λ doc, dict_update doc [(AStr "_id", id); (AStr "_rev", rev)]) r heap)
      Hnd) as (heap' & Hrun & Hlen & Hout & Hin).
    { intros r' Hr'. rewrite length_alter. apply Hvalid.
      by apply list_elem_of_further. }
    { intros j r' Hj. destruct (Hal (S j) r' Hj) as (e' & id' & rev' & He' & ?).
      exists e', id', rev'. by rewrite Nat.add_succ_comm. }
    exists heap'. split; [|split; [|split]].
    + cbn [Db.assign_results getitem]. rewrite seq_index_nat, He.
      cbn [mbind result_bind]. rewrite Hid. cbn [mbind result_bind].
      rewrite Hrev. cbn [mbind result_bind]. exact Hrun.
    + by rewrite Hlen, length_alter.
    + intros r' Hr'. apply not_elem_of_cons in Hr' as [Hne Hr'].
      rewrite (Hout r' Hr'), deref_alter by done. by rewrite decide_False.
    + intros j r' e' id' rev' Hj He' Hid' Hrev'. destruct j as [|j]; simpl in Hj.
      * injection Hj as <-. rewrite Nat.add_0_r, He in He'.
        injection He' as <-. rewrite Hid in Hid'. rewrite Hrev in Hrev'.
        injection Hid' as <-. injection Hrev' as <-.
        rewrite (Hout r Hr), deref_alter by done. by rewrite decide_True.
      * rewrite <- Nat.add_succ_comm in He'.
        rewrite (Hin j r' e' id' rev' Hj He' Hid' Hrev').
        rewrite deref_alter by done. rewrite decide_False; [done|].
        intros ->. apply Hr. by eapply list_elem_of_lookup_2.
Qed.

(** The comprehension never stops early on an aligned answer, whether or
    not a document is listed twice. *)
Lemma assign_results_total entries docs i heap :
  (∀ r, r ∈ docs → (r < length heap)%nat) →
  (∀ j r, docs !! j = Some r →
     ∃ e id rev, entries !! (i + j)%nat = Some e ∧
       getitem e (VStr "id") = Ok id ∧ getitem e (VStr "rev") = Ok rev) →
  ∃ heap',
    Db.assign_results (VList entries) i docs heap = Ok heap' ∧
    length heap' = length heap.
Proof.
  revert i heap. induction docs as [|r docs IH]; intros i heap Hvalid Hal.
  - by exists heap.
  - destruct (Hal 0%nat r eq_refl) as (e & id & rev & He & Hid & Hrev).
    rewrite Nat.add_0_r in He.
    destruct (IH (S i)
      (alter (λ doc, dict_update doc [(AStr "_id", id); (AStr "_rev", rev)]) r heap))
      as (heap' & Hrun & Hlen).
    { intros r' Hr'. rewrite length_alter. apply Hvalid.
      by apply list_elem_of_further. }
    { intros j r' Hj. destruct (Hal (S j) r' Hj) as (e' & id' & rev' & He' & ?).
      exists e', id', rev'. by rewrite Nat.add_succ_comm. }
    exists heap'. split; [|by rewrite Hlen, length_alter].
    cbn [Db.assign_results getitem]. rewrite seq_index_nat, He.
    cbn [mbind result_bind]. rewrite Hid. cbn [mbind result_bind].
    rewrite Hrev. cbn [mbind result_bind]. exact Hrun.
Qed.

Lemma assign_results_app answer i docs1 docs2 heap :
  Db.assign_results answer i (docs1 ++ docs2) heap =
    (heap1 ← Db.assign_results answer i docs1 heap;
     Db.assign_results answer (i + length docs1) docs2 heap1).
Proof.
  revert i heap. induction docs1 as [|r docs1 IH]; intros i heap.
  - simpl. by rewrite Nat.add_0_r.
  - cbn [app Db.assign_results length].
    destruct (getitem answer (VInt (Z.of_nat i))) as [entry|]; [|done].
    cbn [mbind result_bind].
    destruct (getitem entry (VStr "id")) as [id|]; [|done].
    cbn [mbind result_bind].
    destruct (getitem entry (VStr "rev")) as [rev|]; [|done].
    cbn [mbind result_bind].
    rewrite IH. by rewrite Nat.add_succ_comm.
Qed.

(** The write of position [i]: once the comprehension has passed position
    [i], document [i] carries the [id] and [rev] of entry [i]. *)
Lemma assign_results_step entries docs heap i r e id rev :
  (∀ r, r ∈ docs → (r < length heap)%nat) →
  (∀ j r, docs !! j = Some r →
     ∃ e id rev, entries !! j = Some e ∧
       getitem e (VStr "id") = Ok id ∧ getitem e (VStr "rev") = Ok rev) →
  docs !! i = Some r → entries !! i = Some e →
  getitem e (VStr "id") = Ok id → getitem e (VStr "rev") = Ok rev →
  ∃ heap_i,
    Db.assign_results (VList entries) 0 (take (S i) docs) heap = Ok heap_i ∧
    dict_get (Db.deref heap_i r) (AStr "_id") = Some id ∧
    dict_get (Db.deref heap_i r) (AStr "_rev") = Some rev.
Proof.
  intros Hvalid Hal Hr He Hid Hrev.
  rewrite (take_S_r _ _ _ Hr), assign_results_app.
  destruct (assign_results_total entries (take i docs) 0 heap)
    as (h & Hrun & Hlen).
  { intros r' Hr'. apply Hvalid. by apply (subseteq_take i docs). }
  { intros j r' Hj. apply lookup_take_Some in Hj as [Hj _].
    by apply (Hal j r'). }
  rewrite Hrun. cbn [mbind result_bind].
  assert (Hi : length (take i docs) = i).
  { apply length_take_le. apply lookup_lt_Some in Hr. lia. }
  rewrite Hi, Nat.add_0_l. cbn [Db.assign_results getitem].
  rewrite seq_index_nat, He. cbn [mbind result_bind].
  rewrite Hid. cbn [mbind result_bind]. rewrite Hrev. cbn [mbind result_bind].
  eexists. split; [reflexivity|].
  assert (Hlt : (r < length h)%nat).
  { rewrite Hlen. apply Hvalid. by eapply list_elem_of_lookup_2. }
  rewrite deref_alter, decide_True by done.
  assert (Hnd : NoDup (keys [(AStr "_id", id); (AStr "_rev", rev)]))
    by (unfold keys; simpl; apply NoDup_cons; split;
        [intros Hin; apply list_elem_of_singleton in Hin; discriminate
        |apply NoDup_singleton]).
  rewrite !dict_get_update by done. simpl. done.
Qed.

End batch_facts.

(** C6 (amended): [bulk_update] submits, in one request, the documents in
    order with the revision marker removed from each one whose revision is
    missing, null or empty; and when the answer is a list with one entry
    per document, each carrying [id] and [rev], it writes the i-th entry's
    [id] and [rev] onto the i-th document and returns the batch in the
    order submitted.  When the documents are distinct objects every one of
    them ends with the fields of its own entry, and no other document is
    touched. *)
Theorem bulk_update_assigns_by_position `{B : Builtins} {T : Transport}
    url heap docs w res n entries :
  Forall (λ r, (r < length heap)%nat) docs →
  send (Request POST (url +:+ "/_bulk_docs") []
          (Some (Db.bulk_body (Db.strip_revs heap docs) docs))) (conn w)
    = (Ok res, n) →
  json res = Ok (VList entries) →
  Forall2 (λ (_ : nat) e, ∃ id rev,
             getitem e (VStr "id") = Ok id ∧ getitem e (VStr "rev") = Ok rev)
          docs entries →
  Db.bulk_body (Db.strip_revs heap docs) docs
    = VDict [(AStr "docs",
              VList (map (λ r, VDict (Db.strip_empty_rev (Db.deref heap r))) docs))]
  ∧ (∀ r, r ∈ docs →
       dict_get (Db.deref heap r) (AStr "_rev") = None
       ∨ dict_get (Db.deref heap r) (AStr "_rev") = Some VNone
       ∨ dict_get (Db.deref heap r) (AStr "_rev") = Some (VStr "") →
       dict_get (Db.strip_empty_rev (Db.deref heap r)) (AStr "_rev") = None)
  ∧ ∃ heap',
      Db.bulk_update url heap docs w
        = (Ok (heap', docs),
           exchanged w
             (Request POST (url +:+ "/_bulk_docs") []
                (Some (Db.bulk_body (Db.strip_revs heap docs) docs)))
             (Ok res) n)
      ∧ (∀ i r e id rev,
           docs !! i = Some r → entries !! i = Some e →
           getitem e (VStr "id") = Ok id → getitem e (VStr "rev") = Ok rev →
           ∃ heap_i,
             Db.assign_results (VList entries) 0 (take (S i) docs)
               (Db.strip_revs heap docs) = Ok heap_i ∧
             dict_get (Db.deref heap_i r) (AStr "_id") = Some id ∧
             dict_get (Db.deref heap_i r) (AStr "_rev") = Some rev)
      ∧ (NoDup docs →
           (∀ i r e id rev,
              docs !! i = Some r → entries !! i = Some e →
              getitem e (VStr "id") = Ok id → getitem e (VStr "rev") = Ok rev →
              Db.deref heap' r
                = dict_update (Db.strip_empty_rev (Db.deref heap r))
                    [(AStr "_id", id); (AStr "_rev", rev)])
           ∧ (∀ r, r ∉ docs → Db.deref heap' r = Db.deref heap r)).
Proof.
  intros Hvalid Hs Hj Hal.
  rewrite Forall_forall in Hvalid.
  assert (Hvalid' : ∀ r, r ∈ docs → (r < length (Db.strip_revs heap docs))%nat).
  { intros r Hr. rewrite length_strip_revs. by apply Hvalid. }
  assert (Hal' : ∀ j r, docs !! j = Some r →
     ∃ e id rev, entries !! j = Some e ∧
       getitem e (VStr "id") = Ok id ∧ getitem e (VStr "rev") = Ok rev).
  { intros j r Hr.
    destruct (Forall2_lookup_l _ _ _ _ _ Hal Hr) as (e & He & id & rev & ?).
    by exists e, id, rev. }
  split; [|split].
  - unfold Db.bulk_body. do 4 f_equal. apply map_ext_in.
    intros r Hr. rewrite deref_strip_revs by done.
    rewrite decide_True; [done | by apply list_elem_of_In].
  - intros r _. apply strip_empty_rev_unmarked.
  - destruct (assign_results_total entries docs 0
                (Db.strip_revs heap docs) Hvalid' Hal')
      as (heap' & Hrun & _).
    exists heap'. split; [|split].
    + unfold Db.bulk_update, Db.session_post.
      rewrite (io_bind_Ok _ _ _ _ _ (session_request_eq _ _ _ _ Hs)).
      unfold io_bind, lift, io_ret. rewrite Hj, Hrun. done.
    + intros i r e id rev Hr He Hid Hrev.
      by apply (assign_results_step entries docs _ i r e id rev).
    + intros Hnd.
      destruct (assign_results_aligned entries docs 0
                  (Db.strip_revs heap docs) Hnd Hvalid' Hal')
        as (heap'' & Hrun' & _ & Hout & Hin).
      rewrite Hrun in Hrun'. injection Hrun' as <-. split.
      * intros i r e id rev Hr He Hid Hrev.
        rewrite (Hin i r e id rev Hr He Hid Hrev).
        rewrite deref_strip_revs by done.
        rewrite decide_True; [done | by eapply list_elem_of_lookup_2].
      * intros r Hr. rewrite (Hout r Hr), deref_strip_revs by done.
        by rewrite decide_False.
Qed.

(** Three documents that were never stored, one of them carrying an empty
    and one a null revision marker, sent to an empty reference store. *)
Module Batch.

Definition heap : list (list (atom * value)) :=
  [[(AStr "sku", VStr "pen")];
   [(AStr "_rev", VStr ""); (AStr "sku", VStr "ink")];
   [(AStr "sku", VStr "pad"); (AStr "_rev", VNone)]].

Definition docs : list nat := [0; 1; 2]%nat.

Definition world0 : @world _ RefStore.transport :=
  @World _ RefStore.transport (RefStore.State Conflict.url [] 0) [].

Definition answer : list value :=
  [RefStore.written "uuid-0" "1"; RefStore.written "uuid-1" "1";
   RefStore.written "uuid-2" "1"].

End Batch.

Lemma bulk_update_assigns_by_position_witness :
  NoDup Batch.docs ∧
  Forall (λ r, (r < length Batch.heap)%nat) Batch.docs ∧
  ∃ heap' w',
    Db.bulk_update (T := RefStore.transport) Conflict.url Batch.heap Batch.docs
      Batch.world0 = (Ok (heap', Batch.docs), w')
    ∧ length (exchanges w') = 1%nat
    ∧ Db.deref heap' 1
        = [(AStr "sku", VStr "ink"); (AStr "_id", VStr "uuid-1");
           (AStr "_rev", VStr "1")].
Proof.
  assert (Hnd : NoDup Batch.docs) by compute_done.
  assert (Hvalid : Forall (λ r, (r < length Batch.heap)%nat) Batch.docs)
    by (repeat constructor).
  split; [exact Hnd|]. split; [exact Hvalid|].
  destruct (λ H1 H2 H3, bulk_update_assigns_by_position (T := RefStore.transport)
    Conflict.url Batch.heap Batch.docs Batch.world0
    (Response 201 (Ok (VList Batch.answer)))
    (RefStore.State Conflict.url
       [("uuid-0", RefStore.Entry 1
           [(AStr "sku", VStr "pen"); (AStr "_id", VStr "uuid-0");
            (AStr "_rev", VStr "1")]);
        ("uuid-1", RefStore.Entry 1
           [(AStr "sku", VStr "ink"); (AStr "_id", VStr "uuid-1");
            (AStr "_rev", VStr "1")]);
        ("uuid-2", RefStore.Entry 1
           [(AStr "sku", VStr "pad"); (AStr "_id", VStr "uuid-2");
            (AStr "_rev", VStr "1")])] 3)
    Batch.answer Hvalid H1 H2 H3)
    as (_ & _ & heap' & Hrun & _ & Hassign).
  - vm_compute. reflexivity.
  - reflexivity.
  - repeat constructor; eexists; eexists; split; reflexivity.
  - exists heap'. eexists. split; [exact Hrun|]. split; [reflexivity|].
    rewrite (proj1 (Hassign Hnd) 1%nat 1%nat (RefStore.written "uuid-1" "1")
               (VStr "uuid-1") (VStr "1")); reflexivity.
Defined.

(** C6, as stated, fails: that the answer aligns with the request by
    position is not enough.  A batch holding a new document and a document
    with a stale revision is answered by a list of two entries, the second
    reporting the conflict and carrying no [rev]; [bulk_update] then raises
    [KeyError] and returns no batch, although the first document was
    written. *)
Module Clash.

Definition heap : list (list (atom * value)) :=
  [[(AStr "sku", VStr "pen")];
   [(AStr "_id", VStr "a"); (AStr "_rev", VStr "1"); (AStr "x", VInt 2)]].

Definition docs : list nat := [0; 1]%nat.

Definition answer : list value :=
  [RefStore.written "uuid-0" "1";
   RefStore.obj [("id", VStr "a"); ("error", VStr "conflict")]].

End Clash.

Lemma bulk_update_raises_on_conflict_entry :
  (send (Transport := RefStore.transport)
     (Request POST (Conflict.url +:+ "/_bulk_docs") []
        (Some (Db.bulk_body (Db.strip_revs Clash.heap Clash.docs) Clash.docs)))
     Conflict.store0).1
    = Ok (Response 201 (Ok (VList Clash.answer)))
  ∧ length Clash.answer = length Clash.docs
  ∧ (Db.bulk_update (T := RefStore.transport) Conflict.url Clash.heap
       Clash.docs Conflict.world0).1
    = Raise (Exn KeyError "'rev'" None).
Proof. repeat split; vm_compute; reflexivity. Qed.

(** ** The change feed *)

Section feed_facts.
Context `{B : Builtins} {T : Transport}.

(** Poll cycles that all went through are a prefix of any longer run. *)
Lemma changes_loop_resume k m rq w evs wk :
  Db.changes_loop k rq w = (evs, Db.Polling, wk) →
  Db.changes_loop (k + m) rq w =
    (let '(evs', fin, w') := Db.changes_loop m rq wk in (evs ++ evs', fin, w')).
Proof.
  revert w evs. induction k as [|k IH]; intros w evs; simpl.
  - intros [= <- <-]. by destruct (Db.changes_loop m rq w) as [[??]?].
  - destruct (session_request rq w) as [[response|e] w1]; [|done].
    destruct (Db.poll_cycle response) as [ys [e|]]; [done|].
    destruct (Db.changes_loop k rq w1) as [[evs1 fin1] w2] eqn:Hk.
    intros [= <- -> ->]. rewrite (IH _ _ Hk).
    destruct (Db.changes_loop m rq wk) as [[??]?]. by rewrite app_assoc.
Qed.

(** Each poll cycle sends the one request. *)
Lemma changes_loop_sent k rq w evs wk :
  Db.changes_loop k rq w = (evs, Db.Polling, wk) →
  sent wk = sent w ++ replicate k rq.
Proof.
  revert w evs. induction k as [|k IH]; intros w evs; simpl.
  - intros [= _ <-]. by rewrite app_nil_r.
  - unfold session_request.
    destruct (send rq (conn w)) as [[response|e] n1]; [|done].
    destruct (Db.poll_cycle response) as [ys [e|]]; [done|].
    destruct (Db.changes_loop k rq _) as [[evs1 fin1] w2] eqn:Hk.
    intros [= _ -> ->]. rewrite (IH _ _ Hk). unfold sent, exchanged. simpl.
    rewrite fmap_app, <- app_assoc. done.
Qed.

(** What ends a poll cycle inside its [try] block: a body that does not
    parse, and a body without [results], as an error answer of the store
    is. *)
Lemma poll_cycle_unparsable r e :
  json r = Raise e → Db.poll_cycle r = ([], Some e).
Proof. unfold Db.poll_cycle. by intros ->. Qed.

Lemma poll_cycle_no_results r body :
  json r = Ok (VDict body) → dict_get body (AStr "results") = None →
  Db.poll_cycle r = ([], Some (Exn KeyError "'results'" None)).
Proof. unfold Db.poll_cycle. intros -> H. simpl. by rewrite H. Qed.

End feed_facts.

Module Feed.

Definition changed : value :=
  VDict [(AStr "_id", VStr "a"); (AStr "_rev", VStr "3"); (AStr "x", VInt 2)].

(** One poll that reports a change, then an error answer of the store. *)
Definition script : list (result response) :=
  [Ok (Response 200
         (Ok (RefStore.obj [("results", VList [RefStore.obj [("doc", changed)]]);
                            ("last_seq", VStr "7")])));
   Ok (Response 500 (Ok (RefStore.obj [("error", VStr "internal_server_error")])));
   Ok (Response 200 (Ok (RefStore.obj [("results", VList [])])))].

Definition world0 : @world _ Script.transport :=
  @World _ Script.transport script [].

(** The connection is refused. *)
Definition refused : exn := Exn ConnectionError "Connection refused" None.

Definition offline : @world _ Script.transport :=
  @World _ Script.transport [Raise refused] [].

End Feed.

(** C8, as stated, fails for a failure of the transport call itself:
    [session.post] stands before the [try] block, so its exception is not
    logged and reaches the consumer. *)
Lemma changes_propagates_transport_exception :
  ∃ w',
    Db.changes (T := Script.transport) Conflict.url VNone 1 Feed.offline
      = ([], Db.Raised Feed.refused, w').
Proof. eexists. vm_compute. reflexivity. Qed.

(** C8 (amended): when, after [k] poll cycles that went through, the
    store answers a poll and reading that answer fails inside the [try]
    block (the body does not parse, has no iterable [results], or an entry
    has no [doc]), the sequence ends there, however long the consumer keeps
    asking: the documents before the failure are yielded, the failure is
    logged and not raised, and no request follows the failed poll. *)
Theorem changes_stops_at_failed_poll `{B : Builtins} {T : Transport}
    url query k w evs wk r n ys e :
  Db.changes url query k w = (evs, Db.Polling, wk) →
  send (Db.changes_request url query) (conn wk) = (Ok r, n) →
  Db.poll_cycle r = (ys, Some e) →
  ∀ cycles, (k < cycles)%nat →
    Db.changes url query cycles w
      = (evs ++ map Db.Yield ys ++ [Db.Log ("Error: " +:+ exn_msg e)],
         Db.Stopped,
         exchanged wk (Db.changes_request url query) (Ok r) n)
    ∧ sent (exchanged wk (Db.changes_request url query) (Ok r) n)
      = sent w ++ replicate (S k) (Db.changes_request url query).
Proof.
  unfold Db.changes. intros Hk Hs Hp cycles Hlt. split.
  - replace cycles with (k + S (cycles - S k))%nat by lia.
    rewrite (changes_loop_resume _ _ _ _ _ _ Hk).
    cbn [Db.changes_loop].
    rewrite (session_request_eq _ _ _ _ Hs), Hp. done.
  - unfold sent at 1. unfold exchanged. cbn [exchanges].
    rewrite fmap_app. fold (sent wk).
    rewrite (changes_loop_sent _ _ _ _ _ Hk), <- app_assoc.
    by rewrite replicate_S_end.
Qed.

Lemma changes_stops_at_failed_poll_witness :
  ∃ w',
    Db.changes (T := Script.transport) Conflict.url VNone 5 Feed.world0
      = ([Db.Yield Feed.changed; Db.Log "Error: 'results'"], Db.Stopped, w')
    ∧ length (sent w') = 2%nat.
Proof.
  eexists.
  destruct (changes_stops_at_failed_poll (T := Script.transport)
    Conflict.url VNone 1 Feed.world0 [Db.Yield Feed.changed]
    (exchanged Feed.world0 (Db.changes_request Conflict.url VNone)
       (hd (Raise Feed.refused) Feed.script) (tl Feed.script))
    (Response 500 (Ok (RefStore.obj [("error", VStr "internal_server_error")])))
    (tl (tl Feed.script)) [] (Exn KeyError "'results'" None)
    eq_refl eq_refl eq_refl 5%nat) as [Hrun Hsent]; [lia|].
  split; [exact Hrun|]. by rewrite Hsent.
Defined.

(** ** Saving an instance *)

Section save_facts.
Context `{B : Builtins} {T : Transport}.
Variable url : string.

Lemma serialize_keys_NoDup self doc :
  serialize self = Ok doc → NoDup (keys doc).
Proof.
  destruct self as [a|l|d|cls attrs]; try done. simpl. intros [= <-].
  unfold serialize_fields.
  assert (Hnil : NoDup (keys (@nil (atom * value)))) by constructor.
  revert Hnil. generalize (@nil (atom * value)).
  induction attrs as [|x xs IH]; intros acc Hacc; simpl; [done|].
  apply IH. by apply NoDup_dict_set.
Qed.

Lemma post_Some_inv doc w d' w' :
  Db.post url doc w = (Ok (Some d'), w') →
  ∃ r n body id rev,
    send (Request POST url [] (Some (VDict doc))) (conn w) = (Ok r, n) ∧
    status_code r = 201 ∧
    json r = Ok body ∧
    getitem body (VStr "id") = Ok id ∧
    getitem body (VStr "rev") = Ok rev ∧
    d' = dict_set (dict_set doc (AStr "_id") id) (AStr "_rev") rev ∧
    w' = exchanged w (Request POST url [] (Some (VDict doc))) (Ok r) n.
Proof.
  unfold Db.post, Db.session_post, io_bind, session_request, lift, io_ret.
  destruct (send _ (conn w)) as [[r|e] n] eqn:Hs; [|done].
  destruct (Z.eqb_spec (status_code r) 201) as [H201|?]; simpl; [|done].
  destruct (json r) as [body|e] eqn:Hj; [|done].
  destruct (getitem body (VStr "id")) as [id|e] eqn:Hid; [|done].
  destruct (getitem body (VStr "rev")) as [rev|e] eqn:Hrev; [|done].
  intros [= <- <-]. by exists r, n, body, id, rev.
Qed.

Lemma put_finish_Some_inv r doc w d' w' :
  Db.put_finish r doc w = (Ok (Some d'), w') →
  ∃ body rev,
    json r = Ok body ∧ getitem body (VStr "rev") = Ok rev ∧
    d' = dict_set doc (AStr "_rev") rev ∧ w' = w.
Proof.
  unfold Db.put_finish, io_bind, lift, io_ret.
  destruct (json r) as [body|e] eqn:Hj; [|done].
  destruct (getitem body (VStr "rev")) as [rev|e] eqn:Hrev; [|done].
  intros [= <- <-]. by exists body, rev.
Qed.

Lemma last_exchanged (w : world) rq o n :
  last (exchanges (exchanged w rq o n)) = Some (rq, o).
Proof. unfold exchanged. simpl. apply last_snoc. Qed.

Lemma get_Ok_exchanges id w doc w' :
  Db.get url id w = (Ok doc, w') →
  ∃ o, exchanges w'
       = exchanges w ++ [(Request GET (Db.doc_url url id) [] None, o)].
Proof.
  unfold Db.get, Db.session_get, io_bind, session_request, lift, io_ret.
  destruct (send _ (conn w)) as [[r|e] n]; [|done].
  destruct (negb _).
  - intros [= _ <-]. by eexists.
  - destruct (json r); [|done]. intros [= _ <-]. by eexists.
Qed.

Lemma requests_since_exchanged (w w1 : world) new :
  exchanges w1 = exchanges w ++ new →
  Orm.requests_since w w1 = map (λ x, req_method x.1) new.
Proof.
  intros Hw. unfold Orm.requests_since. by rewrite Hw, drop_app_length.
Qed.

(** A document that [put] returns was answered by the store with the
    revision that the document now carries, under the identifier it now
    carries.  The answer had status 200 or 201 when it answers the one
    request of [put]; the status of the answer to a retry is not known. *)
Lemma put_Some_answered doc w d' w' :
  NoDup (keys doc) →
  Db.put url doc w = (Ok (Some d'), w') →
  ∃ id rev acc,
    dict_get d' (AStr "_id") = Some id ∧
    dict_get d' (AStr "_rev") = Some rev ∧
    Orm.answered url w' id rev acc ∧
    ((acc = true ∧ (Orm.requests_since w w' = [POST]
                    ∨ Orm.requests_since w w' = [PUT]))
     ∨ Orm.requests_since w w' = [PUT; GET; PUT]).
Proof.
  intros Hnd Hput.
  assert (Hpost : Db.post url doc w = (Ok (Some d'), w') →
    ∃ id rev acc, dict_get d' (AStr "_id") = Some id ∧
      dict_get d' (AStr "_rev") = Some rev ∧
      Orm.answered url w' id rev acc ∧
      ((acc = true ∧ (Orm.requests_since w w' = [POST]
                      ∨ Orm.requests_since w w' = [PUT]))
       ∨ Orm.requests_since w w' = [PUT; GET; PUT])).
  { intros Hp.
    apply post_Some_inv in Hp
      as (r & n & body & id & rev & Hs & H201 & Hj & Hid & Hrev & -> & ->).
    exists id, rev, true. split; [|split; [|split]].
    - rewrite dict_get_set_ne by done. apply dict_get_set_eq.
    - apply dict_get_set_eq.
    - exists (Request POST url [] (Some (VDict doc))), r, body.
      rewrite last_exchanged. unfold Db.accepted. rewrite H201.
      repeat split; try done. by right.
    - left. split; [done|]. left.
      by rewrite (requests_since_exchanged _ _ _ (exchanges_exchanged _ _ _ _)). }
  unfold Db.put in Hput.
  destruct (dict_get doc (AStr "_id")) as [id|] eqn:Hid; [|by apply Hpost].
  assert (Hmain :
    (result ⇐ Db.session_put (Db.doc_url url id) (VDict (Db.strip_null_rev doc));;
     if negb (Db.accepted (status_code result)) then
       current_doc ⇐ Db.get url id;;
       if truthy current_doc then
         match current_doc with
         | VDict current =>
             id' ⇐ lift (getitem (VDict (dict_update current (Db.strip_null_rev doc)))
                           (VStr "_id"));;
             result ⇐ Db.session_put (Db.doc_url url id')
                        (VDict (dict_update current (Db.strip_null_rev doc)));;
             Db.put_finish result (Db.strip_null_rev doc)
         | _ =>
             lift (Raise (Exn AttributeError
               ("'" +:+ type_name current_doc +:+ "' object has no attribute 'update'")
               None))
         end
       else io_ret None
     else Db.put_finish result (Db.strip_null_rev doc)) w = (Ok (Some d'), w') →
    ∃ id rev acc, dict_get d' (AStr "_id") = Some id ∧
      dict_get d' (AStr "_rev") = Some rev ∧
      Orm.answered url w' id rev acc ∧
      ((acc = true ∧ (Orm.requests_since w w' = [POST]
                      ∨ Orm.requests_since w w' = [PUT]))
       ∨ Orm.requests_since w w' = [PUT; GET; PUT])).
  { clear Hput Hpost. intros Hput.
    unfold Db.session_put, io_bind at 1, session_request in Hput.
    destruct (send _ (conn w)) as [[r1|e] n1] eqn:H1; [|done].
    destruct (Db.accepted (status_code r1)) eqn:Hacc; cbn [negb] in Hput.
    - apply put_finish_Some_inv in Hput as (body & rev & Hj & Hrev & -> & ->).
      exists id, rev, true. split; [|split; [|split]].
      + rewrite dict_get_set_ne by done. by rewrite strip_null_rev_id.
      + apply dict_get_set_eq.
      + eexists _, r1, body. rewrite last_exchanged.
        repeat split; try done. by left.
      + left. split; [done|]. right.
        by rewrite (requests_since_exchanged _ _ _ (exchanges_exchanged _ _ _ _)).
    - unfold io_bind at 1 in Hput.
      destruct (Db.get url id _) as [[current_doc|e] w2] eqn:Hget; [|done].
      destruct (truthy current_doc); [|done].
      destruct current_doc as [a|l|current|c attrs]; try done.
      unfold io_bind at 1, lift at 1 in Hput.
      assert (Hid' : getitem (VDict (dict_update current (Db.strip_null_rev doc)))
                       (VStr "_id") = Ok id).
      { cbn [getitem as_key mbind result_bind].
        rewrite merged_lookup by (by apply NoDup_strip_null_rev).
        by rewrite strip_null_rev_id, Hid. }
      rewrite Hid' in Hput.
      unfold io_bind at 1, session_request in Hput.
      destruct (send _ (conn w2)) as [[r3|e] n3] eqn:H3; [|done].
      apply put_finish_Some_inv in Hput as (body & rev & Hj & Hrev & -> & ->).
      exists id, rev, (Db.accepted (status_code r3)).
      split; [|split; [|split]].
      + rewrite dict_get_set_ne by done. by rewrite strip_null_rev_id.
      + apply dict_get_set_eq.
      + eexists _, r3, body. rewrite last_exchanged.
        repeat split; try done. by left.
      + right. apply get_Ok_exchanges in Hget as [o Hw2].
        rewrite exchanges_exchanged in Hw2.
        unfold Orm.requests_since.
        rewrite exchanges_exchanged, Hw2, <- !app_assoc, drop_app_length.
        done. }
  destruct id as [[]| | |]; (by apply Hpost) || (by apply Hmain).
Qed.

End save_facts.

(** C10, as stated, fails: [save] can return the instance although no
    write succeeded.  The first write is rejected, the re-fetch finds the
    document, and the store answers the retry with 202 and a revision, a
    status that [put] itself does not take for success; [put] never reads
    the status of a retry, so the instance is returned carrying that
    revision. *)
Module Lagging.

Definition note : value :=
  VInst "Note" [("_id", VStr "a"); ("_rev", VNone); ("x", VInt 2)].

Definition script : list (result response) :=
  [Ok RefStore.conflict;
   Ok (Response 200 (Ok (VDict Conflict.stored)));
   Ok (Response 202 (Ok (RefStore.written "a" "3")))].

Definition world0 : @world _ Script.transport :=
  @World _ Script.transport script [].

End Lagging.



Module Saved.
(** A new invoice, never stored, saved to an empty reference store. *)
Definition world0 : @world _ RefStore.transport :=
  @World _ RefStore.transport (RefStore.State Conflict.url [] 0) [].

Definition saved : value :=
  set_attr Invoice.instance "_rev" (VStr "1").

Definition world1 : @world _ RefStore.transport :=
  (Orm.save (T := RefStore.transport) Conflict.url Invoice.instance world0).2.
End Saved.


(** * Further properties of the marshaller *)

Section value_induction.
Context {C : Carriers}.
Variable P : value → Prop.
Hypothesis HAtom : ∀ a, P (VAtom a).
Hypothesis HList : ∀ l, Forall P l → P (VList l).
Hypothesis HDict : ∀ d, Forall (λ kv, P kv.2) d → P (VDict d).
Hypothesis HInst : ∀ cls attrs, Forall (λ fv, P fv.2) attrs → P (VInst cls attrs).

Fixpoint value_nested_ind (v : value) : P v :=
  match v with
  | VAtom a => HAtom a
  | VList l =>
      HList l ((fix go (l : list value) : Forall P l :=
                  match l with
                  | [] => List.Forall_nil _
                  | x :: l' => List.Forall_cons _ x l' (value_nested_ind x) (go l')
                  end) l)
  | VDict d =>
      HDict d ((fix go (d : list (atom * value)) : Forall (λ kv, P kv.2) d :=
                  match d with
                  | [] => List.Forall_nil _
                  | kv :: d' =>
                      List.Forall_cons _ kv d' (value_nested_ind kv.2) (go d')
                  end) d)
  | VInst cls attrs =>
      HInst cls attrs
        ((fix go (d : list (string * value)) : Forall (λ fv, P fv.2) d :=
            match d with
            | [] => List.Forall_nil _
            | fv :: d' =>
                List.Forall_cons _ fv d' (value_nested_ind fv.2) (go d')
            end) attrs)
  end.

End value_induction.

Section json_values.
Context {C : Carriers}.

(** No [Decimal], [datetime] or model instance in value position, at any
    depth of lists, dicts and instances: what is left is null, booleans,
    numbers, text, lists, dicts, and the opaque objects, inside which
    nothing is looked at. *)
Fixpoint json_values (v : value) : bool :=
  match v with
  | VDecimal _ | VDatetime _ => false
  | VAtom _ => true
  | VList l => forallb json_values l
  | VDict d => forallb (λ kv, json_values kv.2) d
  | VInst _ _ => false
  end.

End json_values.

Section dict_values.
Context {K V : Type} `{EqDecision K}.

Lemma Forall_values_dict_set (P : V → Prop) (d : list (K * V)) k v :
  Forall (λ kv, P kv.2) d → P v → Forall (λ kv, P kv.2) (dict_set d k v).
Proof.
  intros Hd Hv. induction Hd as [|[k' v'] d Hk Hd IH]; simpl.
  - by repeat constructor.
  - destruct (decide (k' = k)); constructor; done.
Qed.

Lemma Forall_values_dict_update (P : V → Prop) (d e : list (K * V)) :
  Forall (λ kv, P kv.2) d → Forall (λ kv, P kv.2) e →
  Forall (λ kv, P kv.2) (dict_update d e).
Proof.
  unfold dict_update. intros Hd He. revert d Hd.
  induction He as [|[k v] e Hv _ IH]; intros d Hd; simpl; [done|].
  apply IH. by apply Forall_values_dict_set.
Qed.

End dict_values.

Lemma forallb_Forall_true {A} (f : A → bool) (l : list A) :
  forallb f l = true ↔ Forall (λ x, f x = true) l.
Proof.
  induction l as [|x l IH]; simpl.
  - split; [constructor | done].
  - rewrite andb_true_iff, IH. split.
    + intros [??]. by constructor.
    + intros H. by inversion H.
Qed.

Section marshaller_more.
Context `{B : Builtins}.

Lemma serialize_fields_as_items (sv : value → value) attrs :
  serialize_fields sv attrs
    = dict_of_items (map (λ fv, (AStr fv.1, sv fv.2)) attrs).
Proof.
  unfold serialize_fields, dict_of_items, dict_update.
  generalize (@nil (atom * value)).
  induction attrs as [|x xs IH]; intros acc; simpl; [done|]. by rewrite IH.
Qed.

Lemma serialize_value_json v : json_values (serialize_value v) = true.
Proof.
  induction v as [a|l IH|d IH|cls attrs IH] using value_nested_ind.
  - by destruct a.
  - simpl. apply forallb_Forall_true. apply Forall_fmap.
    eapply Forall_impl; [exact IH|]. done.
  - simpl. apply forallb_Forall_true.
    apply (Forall_values_dict_update (λ x, json_values x = true)); [constructor|].
    apply Forall_fmap. eapply Forall_impl; [exact IH|]. done.
  - cbn [serialize_value json_values]. rewrite serialize_fields_as_items.
    apply forallb_Forall_true.
    apply (Forall_values_dict_update (λ x, json_values x = true)); [constructor|].
    apply Forall_fmap. eapply Forall_impl; [exact IH|]. done.
Qed.

Lemma Forall_keys_dict_update {V} (P : atom → Prop) (d e : list (atom * V)) :
  Forall (λ kv, P kv.1) d → Forall (λ kv, P kv.1) e →
  Forall (λ kv, P kv.1) (dict_update d e).
Proof.
  unfold dict_update. intros Hd He. revert d Hd.
  induction He as [|[k v] e Hv _ IH]; intros d Hd; simpl; [done|].
  apply IH. clear IH. induction Hd as [|[k' v'] d Hk Hd IH]; simpl.
  - by repeat constructor.
  - destruct (decide (k' = k)); constructor; done.
Qed.

(** Two documents that agree on the declared fields deserialize alike. *)
Lemma fill_fields_agree dv here data data' fs acc :
  (∀ f, f ∈ fs →
     dict_get data (AStr (field_name f)) = dict_get data' (AStr (field_name f))) →
  fill_fields dv here data fs acc = fill_fields dv here data' fs acc.
Proof.
  revert acc. induction fs as [|f fs IH]; intros acc Hag; simpl; [done|].
  assert (Hf : field_value dv here data f = field_value dv here data' f).
  { unfold field_value. by rewrite (Hag f) by apply list_elem_of_here. }
  rewrite Hf. destruct (field_value dv here data' f); simpl; [|done].
  apply IH. intros g Hg. apply Hag. by apply list_elem_of_further.
Qed.

Lemma fill_fields_names dv here data fs acc out :
  NoDup (acc.*1 ++ map field_name fs) →
  fill_fields dv here data fs acc = Ok out →
  out.*1 = acc.*1 ++ map field_name fs.
Proof.
  revert acc. induction fs as [|f fs IH]; intros acc Hnd; simpl.
  - intros [= <-]. by rewrite app_nil_r.
  - destruct (field_value dv here data f) as [x|e]; simpl; [|done].
    assert (Hf : dict_get acc (field_name f) = None).
    { apply dict_get_None. unfold keys.
      apply NoDup_app in Hnd as (_ & Hd & _).
      intros Hin. apply (Hd _ Hin). apply list_elem_of_here. }
    rewrite dict_set_absent by done. intros Hout.
    assert (Hnd' : NoDup ((acc ++ [(field_name f, x)]).*1 ++ map field_name fs)).
    { rewrite fmap_app. simpl. by rewrite <- app_assoc. }
    rewrite (IH _ Hnd' Hout), fmap_app. simpl. by rewrite <- app_assoc.
Qed.

End marshaller_more.

(** X1: among scalars, lists, dicts and model instances, whatever
    [serialize_value] returns holds no [Decimal], no [datetime] and no
    model instance in value position, at any depth, and the document
    [serialize] returns for an instance is keyed by strings.  (Keys of
    inner maps are left as they are.)  An object of any other type, a
    tuple or a set, is returned as it is, with whatever it holds: the
    fallback does not look inside. *)
Theorem serialize_emits_json_values `{B : Builtins} :
  (∀ v, json_values (serialize_value v) = true)
  ∧ (∀ m doc, serialize m = Ok doc →
       Forall (λ kv, (∃ name, kv.1 = AStr name) ∧ json_values kv.2 = true) doc)
  ∧ (∀ o, serialize_value (VOther o) = VOther o).
Proof.
  split; [apply serialize_value_json|]. split; [|done].
  intros m doc Hs. destruct m as [a|l|d|cls attrs]; try done.
  injection Hs as <-.
  pose proof (serialize_value_json (VInst cls attrs)) as Hj.
  cbn [serialize_value json_values] in Hj. apply forallb_Forall_true in Hj.
  assert (Hk : Forall (λ kv : atom * value, ∃ name, kv.1 = AStr name)
                 (serialize_fields serialize_value attrs)).
  { rewrite serialize_fields_as_items.
    apply (Forall_keys_dict_update (λ k, ∃ name, k = AStr name)); [constructor|].
    apply Forall_fmap, Forall_forall. intros [n x] _. by exists n. }
  apply Forall_and. done.
Qed.

(** A tuple of Decimals inside a list comes out of [serialize_value] with
    its Decimals. *)
Lemma serialize_leaves_tuples_alone :
  serialize_value (VList [VDecimal "1.5"; VOther ["2.5"]])
    = VList [VStr "1.5"; VOther ["2.5"]]
  ∧ py_iter (VOther ["2.5"]) = Ok [VDecimal "2.5"].
Proof. split; reflexivity. Qed.

(** X2: within one call, [deserialize] reads nothing of the document but
    the declared fields: on two documents that agree on every declared
    field name, and with the default factories returning the same, it
    gives the same result, so keys the schema does not declare are
    ignored. *)
Theorem deserialize_ignores_undeclared_keys `{B : Builtins}
    here cls flds data data' :
  Forall (λ f, dict_get data (AStr (field_name f))
               = dict_get data' (AStr (field_name f))) flds →
  deserialize here (TData cls flds) data
  = deserialize here (TData cls flds) data'.
Proof.
  intros Hag. rewrite Forall_forall in Hag. simpl. unfold deserialize_fields.
  by rewrite (fill_fields_agree _ _ data data').
Qed.

Lemma deserialize_ignores_undeclared_keys_witness :
  deserialize [] Invoice.address
    [(AStr "city", VStr "Oslo"); (AStr "_deleted", VBool true); (AStr "zip", VInt 150)]
  = deserialize [] Invoice.address
      [(AStr "zip", VInt 150); (AStr "city", VStr "Oslo")].
Proof.
  apply (deserialize_ignores_undeclared_keys [] "Address"
    [Field "city" TStr None None true;
     Field "zip" (TOptional TInt) (Some VNone) None true]).
  repeat constructor.
Defined.

(** X3: what [deserialize] returns is an instance of the requested class
    with exactly one attribute per declared field, in declaration order,
    whatever the document holds. *)
Theorem deserialize_builds_declared_attributes `{B : Builtins}
    here cls flds data inst :
  NoDup (map field_name flds) →
  deserialize here (TData cls flds) data = Ok inst →
  ∃ attrs, inst = VInst cls attrs ∧ attrs.*1 = map field_name flds.
Proof.
  intros Hnd. simpl. unfold deserialize_fields.
  destruct (fill_fields _ _ _ _ _) as [out|e] eqn:Hfill;
    cbn [mbind result_bind]; [|done].
  intros Hc. apply construct_Ok_inv in Hc as ->. exists out. split; [done|].
  by apply (fill_fields_names _ _ _ _ [] out) in Hfill.
Qed.

Lemma deserialize_builds_declared_attributes_witness :
  NoDup (map field_name Partial.fields) ∧
  ∃ attrs,
    deserialize [] Invoice.schema Partial.document = Ok (VInst "Invoice" attrs)
    ∧ attrs.*1 = ["_id"; "_rev"; "total"; "issued"; "paid"; "lines"; "tags";
                  "ship_to"].
Proof.
  assert (Hnd : NoDup (map field_name Partial.fields)) by compute_done.
  split; [exact Hnd|].
  assert (Hd : is_ok (deserialize [] Invoice.schema Partial.document) = true)
    by (vm_compute; reflexivity).
  destruct (deserialize [] Invoice.schema Partial.document) as [inst|] eqn:Hrun;
    [|done].
  destruct (deserialize_builds_declared_attributes (B := TextLib.builtins)
              [] "Invoice" Partial.fields
              Partial.document inst Hnd Hrun) as (attrs & -> & Hn).
  exists attrs. split; [reflexivity | exact Hn].
Defined.



(** X5: a list-of field converts a list element by element, keeping length
    and order; it raises the failure of the first element that fails, as it
    is; and it raises a [TypeError] for a raw value that is neither null
    nor a list, text included (it does not iterate strings). *)
Theorem deserialize_list_elementwise `{B : Builtins} here t :
  (∀ l out,
     deserialize_value here (TList t) (VList l) = Ok out ↔
     ∃ l', out = VList l' ∧
       Forall2 (λ ix y, deserialize_value (InItem ix.1 :: here) t ix.2 = Ok y)
               (enumerate l) l')
  ∧ (∀ pre x post e,
       Forall (λ iy, is_ok (deserialize_value (InItem iy.1 :: here) t iy.2)
                     = true) (enumerate pre) →
       deserialize_value (InItem (length pre) :: here) t x = Raise e →
       deserialize_value here (TList t) (VList (pre ++ x :: post)) = Raise e)
  ∧ (∀ raw, raw ≠ VNone → (∀ l, raw ≠ VList l) →
       deserialize_value here (TList t) raw
         = Raise (Exn TypeError
                    ("Expected list for field, got " +:+ type_name raw) None)).
Proof.
  split; [|split].
  - intros l out. cbn [deserialize_value].
    destruct (mapR _ (enumerate l)) as [l'|e] eqn:Hm; simpl.
    + apply mapR_Ok_Forall2 in Hm. split.
      * intros [= <-]. by exists l'.
      * intros (l'' & -> & Hf). apply mapR_Ok_Forall2 in Hf.
        apply mapR_Ok_Forall2 in Hm. rewrite Hm in Hf. by injection Hf as ->.
    + split; [done|]. intros (l'' & -> & Hf).
      apply mapR_Ok_Forall2 in Hf. by rewrite Hm in Hf.
  - intros pre x post e Hpre Hx. cbn [deserialize_value].
    unfold enumerate. rewrite enumerate_from_app. cbn [enumerate_from].
    by rewrite (mapR_Raise_first _ _ (0 + length pre, x)%nat _ e Hpre Hx).
  - intros raw Hn Hl. destruct raw as [[]|l|d|c attrs]; try done.
    by destruct (Hl l).
Qed.

(** * Further properties of the client *)

Section upsert_more.
Context `{B : Builtins} {T : Transport}.
Variable url : string.

(** [put] on a document that carries an identifier, past the first two
    tests. *)
Definition put_known (id : value) (doc : list (atom * value))
    : io (option (list (atom * value))) :=
  result ⇐ Db.session_put (Db.doc_url url id) (VDict (Db.strip_null_rev doc));;
  if negb (Db.accepted (status_code result)) then
    current_doc ⇐ Db.get url id;;
    if truthy current_doc then
      match current_doc with
      | VDict current =>
          id' ⇐ lift (getitem (VDict (dict_update current (Db.strip_null_rev doc)))
                        (VStr "_id"));;
          result ⇐ Db.session_put (Db.doc_url url id')
                     (VDict (dict_update current (Db.strip_null_rev doc)));;
          Db.put_finish result (Db.strip_null_rev doc)
      | _ =>
          lift (Raise (Exn AttributeError
            ("'" +:+ type_name current_doc +:+ "' object has no attribute 'update'")
            None))
      end
    else io_ret None
  else Db.put_finish result (Db.strip_null_rev doc).

Lemma put_cases doc :
  (Db.put url doc = Db.post url doc ∧
   (dict_get doc (AStr "_id") = None ∨ dict_get doc (AStr "_id") = Some VNone))
  ∨ (∃ id, dict_get doc (AStr "_id") = Some id ∧ id ≠ VNone ∧
           Db.put url doc = put_known id doc).
Proof.
  unfold Db.put, put_known.
  destruct (dict_get doc (AStr "_id")) as [id|]; [|left; split; [done|by left]].
  destruct id as [[]|l|d|c attrs];
    try (right; eexists; split; [reflexivity|]; split; [discriminate|reflexivity]).
  left. split; [done | by right].
Qed.

Lemma strip_null_rev_other doc k :
  k ≠ AStr "_rev" →
  dict_get (Db.strip_null_rev doc) k = dict_get doc k.
Proof.
  intros Hk. unfold Db.strip_null_rev.
  destruct (dict_get doc (AStr "_rev")) as [[[]| | |]|]; try done.
  by apply dict_get_pop_ne.
Qed.

Lemma post_exchanges doc w :
  ∃ o, exchanges (Db.post url doc w).2
       = exchanges w ++ [(Request POST url [] (Some (VDict doc)), o)].
Proof.
  unfold Db.post, Db.session_post, io_bind, session_request, lift, io_ret.
  destruct (send _ (conn w)) as [[r|e] n]; [|by eexists].
  destruct (negb _); [by eexists|].
  destruct (json r) as [body|e]; [|by eexists].
  destruct (getitem body (VStr "id")); [|by eexists].
  destruct (getitem body (VStr "rev")); by eexists.
Qed.

Lemma put_finish_world r doc w : (Db.put_finish r doc w).2 = w.
Proof.
  unfold Db.put_finish, io_bind, lift, io_ret.
  destruct (json r) as [body|e]; [|done].
  by destruct (getitem body (VStr "rev")).
Qed.

Lemma get_exchanges id w :
  ∃ o, exchanges (Db.get url id w).2
       = exchanges w ++ [(Request GET (Db.doc_url url id) [] None, o)].
Proof.
  unfold Db.get, Db.session_get, io_bind, session_request, lift, io_ret.
  destruct (send _ (conn w)) as [[r|e] n]; [|by eexists].
  destruct (negb _); by eexists.
Qed.

End upsert_more.

(** X7: an upsert is one POST, or one PUT, or a PUT and a re-fetch, or a
    PUT, a re-fetch and one more PUT; it never sends a fourth request and
    never retries twice, whatever the store answers. *)
Theorem put_makes_at_most_one_retry `{B : Builtins} {T : Transport}
    url doc w :
  ∃ new,
    exchanges (Db.put url doc w).2 = exchanges w ++ new ∧
    (map (λ x, req_method x.1) new = [POST]
     ∨ map (λ x, req_method x.1) new = [PUT]
     ∨ map (λ x, req_method x.1) new = [PUT; GET]
     ∨ map (λ x, req_method x.1) new = [PUT; GET; PUT]).
Proof.
  destruct (put_cases url doc) as [[-> _]|(id & _ & _ & ->)].
  - destruct (post_exchanges url doc w) as [o Ho].
    eexists. split; [exact Ho|]. by left.
  - unfold put_known, Db.session_put.
    unfold io_bind at 1. unfold session_request at 1.
    destruct (send _ (conn w)) as [[r1|e] n1].
    2:{ eexists. split; [reflexivity|]. right. by left. }
    destruct (negb (Db.accepted (status_code r1))).
    2:{ rewrite put_finish_world. eexists. split; [reflexivity|]. right. by left. }
    unfold io_bind at 1.
    destruct (get_exchanges url id
                (exchanged w (Request PUT (Db.doc_url url id) []
                   (Some (VDict (Db.strip_null_rev doc)))) (Ok r1) n1))
      as [o2 Ho2].
    rewrite exchanges_exchanged, <- app_assoc in Ho2.
    revert Ho2.
    destruct (Db.get url id _) as [[current_doc|e] w2]; cbn [snd]; intros Ho2.
    2:{ eexists. split; [exact Ho2|]. right. right. by left. }
    destruct (truthy current_doc).
    2:{ eexists. split; [exact Ho2|]. right. right. by left. }
    destruct current_doc as [a|l|current|c attrs];
      try (eexists; split; [exact Ho2|]; right; right; by left).
    unfold io_bind at 1. unfold lift at 1.
    destruct (getitem _ (VStr "_id")) as [id'|e].
    2:{ eexists. split; [exact Ho2|]. right. right. by left. }
    unfold io_bind at 1. unfold session_request at 1.
    destruct (send _ (conn w2)) as [[r3|e] n3].
    + rewrite put_finish_world, exchanges_exchanged, Ho2, <- app_assoc.
      eexists. split; [reflexivity|]. right. right. by right.
    + cbn [snd]. rewrite exchanges_exchanged, Ho2, <- app_assoc.
      eexists. split; [reflexivity|]. right. right. by right.
Qed.

Section upsert_result.
Context `{B : Builtins} {T : Transport}.
Variable url : string.

(** What [put] returns is the caller's document with a new revision, and
    with the store's identifier on the insert path. *)
Lemma put_Some_shape doc w d' w' :
  Db.put url doc w = (Ok (Some d'), w') →
  (∃ id rev, d' = dict_set (dict_set doc (AStr "_id") id) (AStr "_rev") rev ∧
     (dict_get doc (AStr "_id") = None ∨ dict_get doc (AStr "_id") = Some VNone))
  ∨ (∃ id rev, d' = dict_set (Db.strip_null_rev doc) (AStr "_rev") rev ∧
       dict_get doc (AStr "_id") = Some id ∧ id ≠ VNone).
Proof.
  destruct (put_cases url doc) as [[-> Hid]|(id & Hid & Hn & ->)]; intros Hput.
  - left. apply post_Some_inv in Hput
      as (r & n & body & id & rev & _ & _ & _ & _ & _ & -> & _).
    by exists id, rev.
  - right. exists id.
    unfold put_known, Db.session_put in Hput.
    unfold io_bind at 1, session_request in Hput.
    destruct (send _ (conn w)) as [[r1|e] n1]; [|done].
    destruct (negb (Db.accepted (status_code r1))).
    + unfold io_bind at 1 in Hput.
      destruct (Db.get url id _) as [[current_doc|e] w2]; [|done].
      destruct (truthy current_doc); [|done].
      destruct current_doc as [a|l|current|c attrs]; try done.
      unfold io_bind at 1, lift at 1 in Hput.
      destruct (getitem _ (VStr "_id")) as [id'|e]; [|done].
      unfold io_bind at 1, session_request in Hput.
      destruct (send _ (conn w2)) as [[r3|e] n3]; [|done].
      apply put_finish_Some_inv in Hput as (body & rev & _ & _ & -> & _).
      by exists rev.
    + apply put_finish_Some_inv in Hput as (body & rev & _ & _ & -> & _).
      by exists rev.
Qed.

Lemma put_keeps_callers_fields doc w d' w' :
  Db.put url doc w = (Ok (Some d'), w') →
  ∀ k, k ≠ AStr "_rev" → k ≠ AStr "_id" → dict_get d' k = dict_get doc k.
Proof.
  intros Hput k Hk1 Hk2.
  destruct (put_Some_shape doc w d' w' Hput)
    as [(id & rev & -> & Hid)|(id & rev & -> & Hid & Hn)].
  - by rewrite !dict_get_set_ne.
  - rewrite dict_get_set_ne by done. by apply strip_null_rev_other.
Qed.

End upsert_result.

(** X8: the document [put] returns is the caller's own: every field other
    than the revision and the identifier is as the caller passed it, an
    identifier the caller supplied is unchanged, and the revision is the one
    read from the store's answer.  Fields of the stored document that were
    merged in for a retry are not copied back. *)
Theorem put_returns_callers_document `{B : Builtins} {T : Transport}
    url doc w d' w' :
  Db.put url doc w = (Ok (Some d'), w') →
  (∀ k, k ≠ AStr "_rev" → k ≠ AStr "_id" → dict_get d' k = dict_get doc k)
  ∧ (∀ id, dict_get doc (AStr "_id") = Some id → id ≠ VNone →
       dict_get d' (AStr "_id") = Some id)
  ∧ (∃ rq r body rev,
       last (exchanges w') = Some (rq, Ok r) ∧ json r = Ok body ∧
       getitem body (VStr "rev") = Ok rev ∧
       dict_get d' (AStr "_rev") = Some rev).
Proof.
  intros Hput.
  destruct (put_Some_shape url doc w d' w' Hput)
    as [(id & rev & -> & Hid)|(id & rev & -> & Hid & Hn)].
  - split; [|split].
    + intros k Hk1 Hk2. by rewrite !dict_get_set_ne.
    + intros id0 Hid0 Hn0. destruct Hid as [Hid|Hid]; congruence.
    + destruct (put_cases url doc) as [[Hp _]|(id1 & Hid1 & Hn1 & _)].
      * rewrite Hp in Hput. apply post_Some_inv in Hput
          as (r & n & body & id2 & rev2 & _ & _ & Hj & _ & Hrev & Hd & ->).
        exists (Request POST url [] (Some (VDict doc))), r, body, rev2.
        rewrite last_exchanged, Hd. repeat split; try done.
        apply dict_get_set_eq.
      * destruct Hid as [Hid|Hid]; congruence.
  - split; [|split].
    + intros k Hk1 Hk2. rewrite dict_get_set_ne by done.
      by apply strip_null_rev_other.
    + intros id0 Hid0 _. rewrite dict_get_set_ne by done.
      by rewrite strip_null_rev_id.
    + destruct (put_cases url doc) as [[_ [Hp|Hp]]|(id1 & Hid1 & Hn1 & Hp)];
        try congruence.
      rewrite Hp in Hput. clear Hp.
      unfold put_known, Db.session_put in Hput.
      unfold io_bind at 1, session_request in Hput.
      destruct (send _ (conn w)) as [[r1|e] n1]; [|done].
      destruct (negb (Db.accepted (status_code r1))).
      * unfold io_bind at 1 in Hput.
        destruct (Db.get url id1 _) as [[current_doc|e] w2]; [|done].
        destruct (truthy current_doc); [|done].
        destruct current_doc as [a|l|current|c attrs]; try done.
        unfold io_bind at 1, lift at 1 in Hput.
        destruct (getitem _ (VStr "_id")) as [id'|e]; [|done].
        unfold io_bind at 1, session_request in Hput.
        destruct (send _ (conn w2)) as [[r3|e] n3]; [|done].
        apply put_finish_Some_inv in Hput as (body & rev' & Hj & Hrev & Hd & ->).
        eexists _, r3, body, rev'. rewrite last_exchanged, Hd.
        repeat split; try done. apply dict_get_set_eq.
      * apply put_finish_Some_inv in Hput as (body & rev' & Hj & Hrev & Hd & ->).
        eexists _, r1, body, rev'. rewrite last_exchanged, Hd.
        repeat split; try done. apply dict_get_set_eq.
Qed.

Lemma put_returns_callers_document_witness :
  (Db.put (T := RefStore.transport) Conflict.url Conflict.unbound
     Conflict.world0).1
    = Ok (Some [(AStr "_id", VStr "a"); (AStr "x", VInt 2); (AStr "_rev", VStr "3")])
  ∧ dict_get [(AStr "_id", VStr "a"); (AStr "x", VInt 2); (AStr "_rev", VStr "3")]
      (AStr "y") = dict_get Conflict.unbound (AStr "y").
Proof.
  assert (Hres : (Db.put (T := RefStore.transport) Conflict.url Conflict.unbound
                    Conflict.world0).1
                 = Ok (Some [(AStr "_id", VStr "a"); (AStr "x", VInt 2);
                             (AStr "_rev", VStr "3")]))
    by (vm_compute; reflexivity).
  split; [exact Hres|].
  destruct (Db.put (T := RefStore.transport) Conflict.url Conflict.unbound
              Conflict.world0) as [r w'] eqn:Hrun.
  simpl in Hres. subst r.
  apply (proj1 (put_returns_callers_document (T := RefStore.transport)
    Conflict.url Conflict.unbound Conflict.world0 _ w' Hrun)); discriminate.
Defined.

(** X9: when the first write is rejected and the re-fetch finds nothing
    (any status but 200, or a body that is null, empty or zero), [put]
    returns [None] after these two requests and does not retry. *)
Theorem put_gives_up_when_refetch_finds_nothing `{B : Builtins} {T : Transport}
    url doc id w r1 n1 r2 n2 :
  dict_get doc (AStr "_id") = Some id → id ≠ VNone →
  send (Request PUT (Db.doc_url url id) [] (Some (VDict (Db.strip_null_rev doc))))
       (conn w) = (Ok r1, n1) →
  Db.accepted (status_code r1) = false →
  send (Request GET (Db.doc_url url id) [] None) n1 = (Ok r2, n2) →
  status_code r2 ≠ 200
  ∨ (∃ found, json r2 = Ok found ∧ truthy found = false) →
  Db.put url doc w =
    (Ok None,
     exchanged
       (exchanged w
          (Request PUT (Db.doc_url url id) []
             (Some (VDict (Db.strip_null_rev doc)))) (Ok r1) n1)
       (Request GET (Db.doc_url url id) [] None) (Ok r2) n2).
Proof.
  intros Hid Hn H1 Hrej H2 Hcase.
  destruct (put_cases url doc) as [[_ [Hp|Hp]]|(id1 & Hid1 & _ & ->)];
    try congruence.
  assert (id1 = id) as -> by congruence.
  unfold put_known, Db.session_put.
  rewrite (io_bind_Ok _ _ _ _ _ (session_request_eq _ _ _ _ H1)).
  rewrite Hrej. cbn [negb].
  assert (Hget : ∃ found, truthy found = false ∧
    Db.get url id
      (exchanged w (Request PUT (Db.doc_url url id) []
         (Some (VDict (Db.strip_null_rev doc)))) (Ok r1) n1)
    = (Ok found,
       exchanged
         (exchanged w (Request PUT (Db.doc_url url id) []
            (Some (VDict (Db.strip_null_rev doc)))) (Ok r1) n1)
         (Request GET (Db.doc_url url id) [] None) (Ok r2) n2)).
  { unfold Db.get, Db.session_get.
    rewrite (io_bind_Ok _ _ _ _ _
      (session_request_eq _ (exchanged w _ (Ok r1) n1) _ _ H2)).
    destruct (Z.eqb_spec (status_code r2) 200) as [H200|Hne]; cbn [negb].
    - destruct Hcase as [?|(found & Hj & Hf)]; [done|].
      exists found. split; [done|]. unfold lift. by rewrite Hj.
    - by exists VNone. }
  destruct Hget as (found & Hf & Hget).
  rewrite (io_bind_Ok _ _ _ _ _ Hget). by rewrite Hf.
Qed.

Module Orphan.
(** A caller holds revision 1 of a document that has since been purged. *)
Definition doc : list (atom * value) :=
  [(AStr "_id", VStr "gone"); (AStr "_rev", VStr "1"); (AStr "x", VInt 2)].
End Orphan.

Lemma put_gives_up_when_refetch_finds_nothing_witness :
  (Db.put (T := RefStore.transport) Conflict.url Orphan.doc Conflict.world0).1
    = Ok None
  ∧ map req_method
      (sent (Db.put (T := RefStore.transport) Conflict.url Orphan.doc
               Conflict.world0).2) = [PUT; GET].
Proof.
  rewrite (put_gives_up_when_refetch_finds_nothing (T := RefStore.transport)
    Conflict.url Orphan.doc (VStr "gone") Conflict.world0
    RefStore.conflict Conflict.store0 RefStore.not_found Conflict.store0).
  - split; reflexivity.
  - reflexivity.
  - discriminate.
  - vm_compute. reflexivity.
  - reflexivity.
  - vm_compute. reflexivity.
  - left. vm_compute. discriminate.
Defined.

(** X10: [delete] sends the document through [put] with the deletion flag
    set: a document it returns carries [_deleted = True] and the caller's
    other fields; and a document that has no identifier is not looked up
    but inserted, flag and all, as a new tombstone. *)
Theorem delete_marks_the_document `{B : Builtins} {T : Transport} url doc w :
  (∀ d' w', Db.delete url doc w = (Ok (Some d'), w') →
     dict_get d' (AStr "_deleted") = Some (VBool true) ∧
     ∀ k, k ≠ AStr "_rev" → k ≠ AStr "_id" → k ≠ AStr "_deleted" →
          dict_get d' k = dict_get doc k)
  ∧ (dict_get doc (AStr "_id") = None →
       Db.delete url doc w
       = Db.post url (dict_set doc (AStr "_deleted") (VBool true)) w).
Proof.
  split.
  - intros d' w' Hdel. unfold Db.delete in Hdel.
    pose proof (put_keeps_callers_fields url _ w d' w' Hdel) as Hk.
    split.
    + rewrite Hk by done. apply dict_get_set_eq.
    + intros k H1 H2 H3. rewrite Hk by done. by apply dict_get_set_ne.
  - intros Hid. unfold Db.delete.
    destruct (put_cases url (dict_set doc (AStr "_deleted") (VBool true)))
      as [[-> _]|(id & Hid' & _ & _)]; [done|].
    rewrite dict_get_set_ne in Hid' by done. congruence.
Qed.

(** X11: [find_first] asks for one document ([limit] 1) and returns the
    first of the documents the store lists; it returns [None] when the
    answer is not a success or lists nothing. *)
Theorem find_first_takes_the_first_hit `{B : Builtins} {T : Transport}
    url query skip fields w r n :
  send (Request POST (url +:+ "/_find") []
          (Some (VDict (Db.find_body query skip 1 fields)))) (conn w)
    = (Ok r, n) →
  (status_code r ≠ 200 → (Db.find_first url query skip fields w).1 = Ok VNone)
  ∧ (∀ body, status_code r = 200 → json r = Ok (VDict body) →
       match dict_get body (AStr "docs") with
       | Some (VList (doc :: _)) =>
           (Db.find_first url query skip fields w).1 = Ok doc
       | Some (VList []) | None =>
           (Db.find_first url query skip fields w).1 = Ok VNone
       | _ => True
       end)
  ∧ dict_get (Db.find_body query skip 1 fields) (AStr "limit") = Some (VInt 1).
Proof.
  intros Hs. split; [|split].
  - intros Hst.
    assert (Hfind : Db.find url query skip 1 fields w
              = (Ok (VList []),
                 exchanged w (Request POST (url +:+ "/_find") []
                   (Some (VDict (Db.find_body query skip 1 fields)))) (Ok r) n)).
    { unfold Db.find, Db.session_post.
      rewrite (io_bind_Ok _ _ _ _ _ (session_request_eq _ _ _ _ Hs)).
      by rewrite (proj2 (Z.eqb_neq _ _) Hst). }
    unfold Db.find_first. by rewrite (io_bind_Ok _ _ _ _ _ Hfind).
  - intros body H200 Hj.
    assert (Hfind : Db.find url query skip 1 fields w
              = (Ok (default (VList []) (dict_get body (AStr "docs"))),
                 exchanged w (Request POST (url +:+ "/_find") []
                   (Some (VDict (Db.find_body query skip 1 fields)))) (Ok r) n)).
    { unfold Db.find, Db.session_post.
      rewrite (io_bind_Ok _ _ _ _ _ (session_request_eq _ _ _ _ Hs)).
      rewrite H200. cbn. unfold io_bind, lift. by rewrite Hj. }
    unfold Db.find_first. rewrite (io_bind_Ok _ _ _ _ _ Hfind).
    destruct (dict_get body (AStr "docs")) as [[a|[|doc l]|d|c attrs]|]; done.
  - unfold Db.find_body. destruct (truthy fields); reflexivity.
Qed.

Lemma find_first_takes_the_first_hit_witness :
  (Db.find_first (T := RefStore.transport) Conflict.url
     (VDict [(AStr "x", VInt 9)]) 0 VNone Conflict.world0).1
    = Ok (VDict Conflict.stored).
Proof.
  pose proof (proj1 (proj2 (find_first_takes_the_first_hit
    (T := RefStore.transport) Conflict.url (VDict [(AStr "x", VInt 9)]) 0 VNone
    Conflict.world0
    (Response 200 (Ok (RefStore.obj [("docs", VList [VDict Conflict.stored])])))
    Conflict.store0 ltac:(vm_compute; reflexivity)))
    [(AStr "docs", VList [VDict Conflict.stored])] eq_refl eq_refl) as H.
  exact H.
Defined.

Section batch_more.
Context `{B : Builtins}.

Lemma assign_results_short entries docs heap :
  (∀ r, r ∈ docs → (r < length heap)%nat) →
  (length entries < length docs)%nat →
  Forall (λ e, ∃ id rev, getitem e (VStr "id") = Ok id ∧
                         getitem e (VStr "rev") = Ok rev) entries →
  Db.assign_results (VList entries) 0 docs heap
    = Raise (Exn IndexError "list index out of range" None).
Proof.
  intros Hvalid Hlen Hal.
  rewrite <- (take_drop (length entries) docs), assign_results_app.
  destruct (assign_results_total entries (take (length entries) docs) 0 heap)
    as (h & Hrun & _).
  { intros r Hr. apply Hvalid. by apply (subseteq_take (length entries) docs). }
  { intros j r Hj. apply lookup_take_Some in Hj as [Hj Hlt].
    destruct (lookup_lt_is_Some_2 entries j Hlt) as [e He].
    rewrite Forall_forall in Hal.
    destruct (Hal e (list_elem_of_lookup_2 _ _ _ He)) as (id & rev & ?).
    by exists e, id, rev. }
  rewrite Hrun. cbn [mbind result_bind].
  rewrite length_take_le, Nat.add_0_l by lia.
  destruct (drop (length entries) docs) as [|r rest] eqn:Hdrop.
  { apply (f_equal length) in Hdrop. rewrite length_drop in Hdrop.
    simpl in Hdrop. lia. }
  cbn [Db.assign_results getitem]. rewrite seq_index_nat.
  by rewrite (lookup_ge_None_2 entries (length entries)) by lia.
Qed.

End batch_more.

(** X12: when the store's answer lists fewer entries than the batch holds
    documents, [bulk_update] raises an [IndexError]; it returns neither
    [None] nor a shorter list. *)
Theorem bulk_update_raises_on_short_answer `{B : Builtins} {T : Transport}
    url heap docs w res n entries :
  Forall (λ r, (r < length heap)%nat) docs →
  send (Request POST (url +:+ "/_bulk_docs") []
          (Some (Db.bulk_body (Db.strip_revs heap docs) docs))) (conn w)
    = (Ok res, n) →
  json res = Ok (VList entries) →
  (length entries < length docs)%nat →
  Forall (λ e, ∃ id rev, getitem e (VStr "id") = Ok id ∧
                         getitem e (VStr "rev") = Ok rev) entries →
  (Db.bulk_update url heap docs w).1
    = Raise (Exn IndexError "list index out of range" None).
Proof.
  intros Hvalid Hs Hj Hlen Hal. rewrite Forall_forall in Hvalid.
  unfold Db.bulk_update, Db.session_post.
  rewrite (io_bind_Ok _ _ _ _ _ (session_request_eq _ _ _ _ Hs)).
  unfold io_bind, lift. rewrite Hj.
  rewrite assign_results_short; try done.
  intros r Hr. rewrite length_strip_revs. by apply Hvalid.
Qed.

Module Truncated.
(** The store answers a batch of three with a single entry. *)
Definition answer : result response :=
  Ok (Response 201 (Ok (VList [RefStore.written "uuid-0" "1"]))).

Definition world0 : @world _ Script.transport :=
  @World _ Script.transport [answer] [].
End Truncated.

Lemma bulk_update_raises_on_short_answer_witness :
  (Db.bulk_update (T := Script.transport) Conflict.url Batch.heap Batch.docs
     Truncated.world0).1
  = Raise (Exn IndexError "list index out of range" None).
Proof.
  apply (bulk_update_raises_on_short_answer (T := Script.transport)
    Conflict.url Batch.heap Batch.docs Truncated.world0
    (Response 201 (Ok (VList [RefStore.written "uuid-0" "1"]))) []
    [RefStore.written "uuid-0" "1"]).
  - repeat constructor.
  - reflexivity.
  - reflexivity.
  - simpl. lia.
  - repeat constructor. eexists _, _. split; reflexivity.
Defined.

(** X13: an empty batch still costs a request: [bulk_update] posts
    [{"docs": []}] and returns the empty batch whatever the status of the
    answer, provided its body parses; with a body that does not parse it
    raises. *)
Theorem bulk_update_of_nothing_still_asks `{B : Builtins} {T : Transport}
    url heap w res n :
  send (Request POST (url +:+ "/_bulk_docs") []
          (Some (VDict [(AStr "docs", VList [])]))) (conn w) = (Ok res, n) →
  Db.bulk_update url heap [] w
    = (match json res with
       | Ok _ => Ok (heap, [])
       | Raise e => Raise e
       end,
       exchanged w (Request POST (url +:+ "/_bulk_docs") []
                      (Some (VDict [(AStr "docs", VList [])]))) (Ok res) n).
Proof.
  intros Hs. unfold Db.bulk_update, Db.session_post.
  change (Db.bulk_body (Db.strip_revs heap []) [])
    with (VDict [(AStr "docs", VList [])]).
  rewrite (io_bind_Ok _ _ _ _ _ (session_request_eq _ _ _ _ Hs)).
  unfold io_bind, lift, io_ret. by destruct (json res).
Qed.

Lemma bulk_update_of_nothing_still_asks_witness :
  (Db.bulk_update (T := Outage.transport) Conflict.url Batch.heap []
     Outage.world0).1 = Raise (Exn JSONDecodeError "Expecting value" None).
Proof.
  rewrite (bulk_update_of_nothing_still_asks (T := Outage.transport)
    Conflict.url Batch.heap Outage.world0
    (Response 503 (Raise (Exn JSONDecodeError "Expecting value" None))) ());
    reflexivity.
Defined.

(** ** Listing tombstones and purging *)

Section purge_facts.
Context `{B : Builtins}.

(** What [deleted_docs] makes of one entry of the feed: nothing when the
    entry carries no document or a document that is not marked deleted, and
    the identifier and revision of a tombstone otherwise. *)
Inductive feed_entry : value → option (atom * value) → Prop :=
  | entry_without_doc it :
      truthy (default VNone (dict_get it (AStr "doc"))) = false →
      feed_entry (VDict it) None
  | entry_live it d :
      dict_get it (AStr "doc") = Some (VDict d) →
      truthy (default (VBool false) (dict_get d (AStr "_deleted"))) = false →
      feed_entry (VDict it) None
  | entry_tombstone it d id rev :
      dict_get it (AStr "doc") = Some (VDict d) →
      truthy (default (VBool false) (dict_get d (AStr "_deleted"))) = true →
      dict_get d (AStr "_id") = Some (VStr id) →
      dict_get d (AStr "_rev") = Some rev →
      feed_entry (VDict it) (Some (AStr id, rev)).

(** The revisions recorded for [k], in the order of the feed. *)
Definition revs_of (k : atom) (marks : list (option (atom * value)))
    : list value :=
  omap (λ m : option (atom * value),
          '(i, r) ← m; if decide (i = k) then Some r else None) marks.

Definition grouped (revs : list value) : option value :=
  match revs with
  | [] => None
  | _ => Some (VList revs)
  end.

Lemma grouped_snoc revs r : grouped (revs ++ [r]) = Some (VList (revs ++ [r])).
Proof. by destruct revs. Qed.

Lemma revs_of_cons k m marks :
  revs_of k (m :: marks)
  = match m with
    | Some (i, r) => if decide (i = k) then r :: revs_of k marks
                     else revs_of k marks
    | None => revs_of k marks
    end.
Proof.
  unfold revs_of. cbn [omap]. destruct m as [[i r]|]; [|done].
  cbn. by destruct (decide (i = k)).
Qed.

Lemma collect_deleted_tombstone acc it d id rev pre :
  (∀ k, dict_get acc k = grouped (pre k)) →
  dict_get it (AStr "doc") = Some (VDict d) →
  truthy (default (VBool false) (dict_get d (AStr "_deleted"))) = true →
  dict_get d (AStr "_id") = Some (VStr id) →
  dict_get d (AStr "_rev") = Some rev →
  ∃ acc', Db.collect_deleted acc (VDict it) = Ok acc' ∧
    ∀ k, dict_get acc' k
         = grouped (if decide (AStr id = k) then pre k ++ [rev] else pre k).
Proof.
  intros Hacc Hdoc Hdel Hid Hrev.
  unfold Db.collect_deleted. cbn [py_get mbind result_bind].
  rewrite Hdoc. change (default VNone (Some (VDict d))) with (VDict d).
  assert (Hd : truthy (VDict d) = true).
  { destruct d; [by cbn in Hid|done]. }
  rewrite Hd. cbn [py_get mbind result_bind]. rewrite Hdel.
  cbn [getitem as_key mbind result_bind].
  rewrite Hid, Hrev. cbn [mbind result_bind as_key].
  rewrite (Hacc (AStr id)).
  destruct (pre (AStr id)) as [|r0 revs] eqn:Hpre; cbn [grouped default from_option Datatypes.id truthy].
  - rewrite dict_get_set_eq. cbn [mbind result_bind app].
    eexists. split; [done|].
    intros k. destruct (decide (AStr id = k)) as [<-|Hne].
    + by rewrite dict_get_set_eq, Hpre.
    + by rewrite !dict_get_set_ne, Hacc by done.
  - rewrite ?bool_decide_eq_false_2 by done. cbn [negb].
    rewrite (Hacc (AStr id)), Hpre. cbn [grouped mbind result_bind].
    eexists. split; [done|].
    intros k. destruct (decide (AStr id = k)) as [<-|Hne].
    + by rewrite dict_get_set_eq, Hpre.
    + by rewrite dict_get_set_ne, Hacc by done.
Qed.

Lemma collect_deleted_other acc item :
  feed_entry item None → Db.collect_deleted acc item = Ok acc.
Proof.
  inversion 1 as [it Hf|it d Hdoc Hf|]; subst;
    unfold Db.collect_deleted; cbn [py_get mbind result_bind].
  - by rewrite Hf.
  - rewrite Hdoc. change (default VNone (Some (VDict d))) with (VDict d).
    destruct (truthy (VDict d)); [|done].
    cbn [py_get mbind result_bind]. by rewrite Hf.
Qed.

Lemma collect_all_grouped items : ∀ marks acc pre,
  Forall2 feed_entry items marks →
  (∀ k, dict_get acc k = grouped (pre k)) →
  ∃ acc', Db.collect_all acc items = Ok acc' ∧
    ∀ k, dict_get acc' k = grouped (pre k ++ revs_of k marks).
Proof.
  induction items as [|item items IH]; intros marks acc pre Hall Hacc.
  - apply Forall2_nil_inv_l in Hall as ->. exists acc. split; [done|].
    intros k. by rewrite app_nil_r.
  - apply Forall2_cons_inv_l in Hall as (m & marks' & Hm & Hall & ->).
    cbn [Db.collect_all].
    destruct m as [[i rev]|].
    + inversion Hm as [| |it d id rev' Hdoc Hdel Hid Hrev]; subst.
      destruct (collect_deleted_tombstone acc it d id rev pre Hacc Hdoc Hdel
                  Hid Hrev) as (acc1 & -> & Hacc1).
      cbn [mbind result_bind].
      destruct (IH marks' acc1
                  (λ k, if decide (AStr id = k) then pre k ++ [rev] else pre k)
                  Hall Hacc1) as (acc' & -> & Hacc').
      exists acc'. split; [done|]. intros k. rewrite Hacc', revs_of_cons.
      destruct (decide (AStr id = k)); [|done].
      by rewrite <- app_assoc.
    + rewrite (collect_deleted_other acc item Hm). cbn [mbind result_bind].
      destruct (IH marks' acc pre Hall Hacc) as (acc' & -> & Hacc').
      exists acc'. split; [done|]. intros k. by rewrite Hacc', revs_of_cons.
Qed.

End purge_facts.

(** X14: on a well-formed answer [deleted_docs] returns a mapping in which
    every identifier with a tombstone in the feed has the revisions of all
    its tombstones, in the order of the feed, and in which no other key
    occurs: entries without a document and documents not marked deleted
    leave no trace. *)
Theorem deleted_docs_groups_revisions `{B : Builtins} {T : Transport}
    url w r n body items marks :
  send (Db.deleted_docs_request url) (conn w) = (Ok r, n) →
  status_code r = 200 →
  json r = Ok (VDict body) →
  dict_get body (AStr "results") = Some (VList items) →
  Forall2 feed_entry items marks →
  ∃ acc,
    (Db.deleted_docs url w).1 = Ok (VDict acc) ∧
    ∀ k, dict_get acc k = grouped (revs_of k marks).
Proof.
  intros Hs H200 Hj Hres Hall.
  destruct (collect_all_grouped items marks [] (λ _, []) Hall)
    as (acc & Hrun & Hacc); [done|].
  exists acc. split; [|done].
  unfold Db.deleted_docs.
  rewrite (io_bind_Ok _ _ _ _ _ (session_request_eq _ _ _ _ Hs)).
  rewrite H200. cbn [Z.eqb Pos.eqb negb].
  unfold io_bind, lift, io_ret. rewrite Hj.
  cbn [getitem as_key mbind result_bind]. rewrite Hres.
  cbn [py_iter]. by rewrite Hrun.
Qed.

Module Tombs.
Definition entry (id rev : string) (deleted : bool) : value :=
  RefStore.obj
    [("id", VStr id);
     ("doc", VDict ([(AStr "_id", VStr id); (AStr "_rev", VStr rev)]
                      ++ if deleted then [(AStr "_deleted", VBool true)] else []))].

Definition items : list value :=
  [entry "a" "2" true; entry "b" "1" false; entry "a" "4" true;
   RefStore.obj [("id", VStr "c")]].

Definition marks : list (option (atom * value)) :=
  [Some (AStr "a", VStr "2"); None; Some (AStr "a", VStr "4"); None].

Definition feed : response :=
  Response 200 (Ok (RefStore.obj [("results", VList items)])).

Definition world0 : @world _ Script.transport :=
  @World _ Script.transport [Ok feed] [].

Definition refused : response :=
  Response 401 (Ok (RefStore.obj [("error", VStr "unauthorized")])).

Definition locked : @world _ Script.transport :=
  @World _ Script.transport [Ok refused; Ok refused] [].
End Tombs.

Lemma deleted_docs_groups_revisions_witness :
  ∃ acc,
    (Db.deleted_docs (T := Script.transport) Conflict.url Tombs.world0).1
      = Ok (VDict acc) ∧
    dict_get acc (AStr "a") = Some (VList [VStr "2"; VStr "4"]) ∧
    dict_get acc (AStr "b") = None.
Proof.
  destruct (deleted_docs_groups_revisions (T := Script.transport)
    Conflict.url Tombs.world0 Tombs.feed []
    [(AStr "results", VList Tombs.items)] Tombs.items Tombs.marks)
    as (acc & Hrun & Hacc).
  - reflexivity.
  - reflexivity.
  - reflexivity.
  - reflexivity.
  - repeat first
      [ apply List.Forall2_nil
      | apply List.Forall2_cons ].
    + by eapply entry_tombstone.
    + by eapply entry_live.
    + by eapply entry_tombstone.
    + by apply entry_without_doc.
  - exists acc. split; [exact Hrun|].
    split; [exact (Hacc (AStr "a"))|exact (Hacc (AStr "b"))].
Defined.

(** X15: when the listing is not answered with status 200, [deleted_docs]
    returns an empty list, not an empty mapping, and [purge_all] still
    posts it: the second request goes to [/_purge] with the body [[]]. *)
Theorem purge_all_posts_after_failed_listing `{B : Builtins} {T : Transport}
    url w r n :
  send (Db.deleted_docs_request url) (conn w) = (Ok r, n) →
  status_code r ≠ 200 →
  (Db.deleted_docs url w).1 = Ok (VList []) ∧
  sent (Db.purge_all url w).2
    = sent w ++ [Db.deleted_docs_request url;
                 Request POST (url +:+ "/_purge") [] (Some (VList []))].
Proof.
  intros Hs Hst.
  assert (Hlist : Db.deleted_docs url w
            = (Ok (VList []), exchanged w (Db.deleted_docs_request url) (Ok r) n)).
  { unfold Db.deleted_docs.
    rewrite (io_bind_Ok _ _ _ _ _ (session_request_eq _ _ _ _ Hs)).
    by rewrite (proj2 (Z.eqb_neq _ _) Hst). }
  split; [by rewrite Hlist|].
  unfold Db.purge_all. rewrite (io_bind_Ok _ _ _ _ _ Hlist).
  unfold Db.purge, Db.session_post, io_bind, session_request, lift.
  destruct (send _ (conn (exchanged w _ (Ok r) n))) as [[r2|e] n2];
    unfold sent; cbn [snd]; rewrite ?exchanges_exchanged, ?fmap_app,
      <- ?app_assoc; done.
Qed.

Lemma purge_all_posts_after_failed_listing_witness :
  (Db.deleted_docs (T := Script.transport) Conflict.url Tombs.locked).1
    = Ok (VList []) ∧
  sent (Db.purge_all (T := Script.transport) Conflict.url Tombs.locked).2
    = [Db.deleted_docs_request Conflict.url;
       Request POST (Conflict.url +:+ "/_purge") [] (Some (VList []))].
Proof.
  apply (purge_all_posts_after_failed_listing (T := Script.transport)
    Conflict.url Tombs.locked Tombs.refused [Ok Tombs.refused]).
  - reflexivity.
  - vm_compute. discriminate.
Defined.

(** ** The change feed on answers that read well *)

Section feed_more.
Context `{B : Builtins} {T : Transport}.

Lemma changes_loop_polls rq (I : net → Prop) :
  (∀ n, I n → ∃ r n' ys,
     send rq n = (Ok r, n') ∧ Db.poll_cycle r = (ys, None) ∧ I n') →
  ∀ cycles w, I (conn w) →
    ∃ docs w',
      Db.changes_loop cycles rq w = (map Db.Yield docs, Db.Polling, w').
Proof.
  intros Hstep. induction cycles as [|k IH]; intros w Hw.
  - by exists [], w.
  - destruct (Hstep _ Hw) as (r & n' & ys & Hs & Hp & Hn').
    cbn [Db.changes_loop]. rewrite (session_request_eq _ _ _ _ Hs), Hp.
    destruct (IH (exchanged w rq (Ok r) n') Hn') as (docs & w' & ->).
    exists (ys ++ docs), w'. by rewrite map_app.
Qed.

End feed_more.

(** X16: the feed never ends by itself.  As long as every poll is answered
    with a body whose [results] can be read, an empty list and an answer
    with an error status included, the generator neither stops nor logs:
    after any number of cycles it is still polling, has sent one request
    per cycle and has produced documents only. *)
Theorem changes_never_ends_by_itself `{B : Builtins} {T : Transport}
    url query (I : net → Prop) :
  (∀ n, I n → ∃ r n' ys,
     send (Db.changes_request url query) n = (Ok r, n') ∧
     Db.poll_cycle r = (ys, None) ∧ I n') →
  ∀ cycles w, I (conn w) →
    ∃ docs w',
      Db.changes url query cycles w = (map Db.Yield docs, Db.Polling, w') ∧
      sent w' = sent w ++ replicate cycles (Db.changes_request url query).
Proof.
  intros Hstep cycles w Hw. unfold Db.changes.
  destruct (changes_loop_polls _ I Hstep cycles w Hw) as (docs & w' & Hrun).
  exists docs, w'. split; [done|]. by apply (changes_loop_sent _ _ _ _ _ Hrun).
Qed.

Module Quiet.
(** A store that answers every request with an empty list of results and
    the status of an overloaded server. *)
Definition heartbeat : response :=
  Response 503 (Ok (RefStore.obj [("results", VList [])])).

Definition transport : Transport :=
  {| net := unit; send := λ _ n, (Ok heartbeat, n) |}.

Definition world0 : @world _ transport := @World _ transport () [].
End Quiet.

Lemma changes_never_ends_by_itself_witness :
  ∃ docs w',
    Db.changes (T := Quiet.transport) Conflict.url VNone 3 Quiet.world0
      = (map Db.Yield docs, Db.Polling, w') ∧
    sent w' = replicate 3 (Db.changes_request Conflict.url VNone).
Proof.
  apply (changes_never_ends_by_itself (T := Quiet.transport) Conflict.url VNone
           (λ _, True)); [|done].
  intros n _. by exists Quiet.heartbeat, n, [].
Defined.

(** ** Loading and finding instances *)

Section load_facts.
Context `{B : Builtins}.

Lemma field_value_doc_dict here d f :
  field_value_doc here (VDict d) f = field_value deserialize_value here d f.
Proof.
  unfold field_value_doc, field_value, py_contains, dict_mem.
  cbn [mbind result_bind getitem as_key].
  destruct (dict_get d (AStr (field_name f))) as [raw|].
  - by rewrite bool_decide_eq_true_2 by by eexists.
  - by rewrite bool_decide_eq_false_2 by by intros [? ?].
Qed.

Lemma fill_fields_doc_dict here d fs acc :
  fill_fields_doc here (VDict d) fs acc
  = fill_fields deserialize_value here d fs acc.
Proof.
  revert acc. induction fs as [|f fs IH]; intros acc; [done|].
  cbn [fill_fields_doc fill_fields]. rewrite field_value_doc_dict.
  destruct (field_value deserialize_value here d f); [|done]. apply IH.
Qed.

(** On a document that is a dict, the marshaller the facade calls is the
    one the schema-typed [deserialize] describes. *)
Lemma deserialize_doc_dict here cls d :
  deserialize_doc here cls (VDict d) = deserialize here cls d.
Proof.
  destruct cls; try done. cbn [deserialize_doc deserialize].
  unfold deserialize_fields. by rewrite fill_fields_doc_dict.
Qed.

End load_facts.


Module Loaded.
(** The stored form of the invoice, with two fields the store added. *)
Definition document : list (atom * value) :=
  default [] (match serialize Invoice.instance with
              | Ok d => Some d
              | Raise _ => None
              end)
  ++ [(AStr "_attachments", VDict []); (AStr "_conflicts", VList [])].

Definition world0 : @world _ Script.transport :=
  @World _ Script.transport [Ok (Response 200 (Ok (VDict document)))] [].

(** The store has no such document; and the store holds an empty one. *)
Definition missing : @world _ Script.transport :=
  @World _ Script.transport [Ok RefStore.not_found] [].

Definition blank : @world _ Script.transport :=
  @World _ Script.transport [Ok (Response 200 (Ok (VDict [])))] [].
End Loaded.


(** X18: [load] returns [None], without raising and without looking at
    the class, when the document is not found (any status but 200) and also
    when the store returns an empty document or any other falsy body; a
    class that is no dataclass goes unnoticed in these cases. *)
Theorem load_returns_none_without_document `{B : Builtins} {T : Transport}
    url cls id w r n :
  send (Request GET (Db.doc_url url id) [] None) (conn w) = (Ok r, n) →
  status_code r ≠ 200 ∨ (∃ doc, json r = Ok doc ∧ truthy doc = false) →
  Orm.load url cls id w
    = (Ok VNone, exchanged w (Request GET (Db.doc_url url id) [] None) (Ok r) n).
Proof.
  intros Hs Hcase.
  assert (Hget : ∃ doc, truthy doc = false ∧
            Db.get url id w
            = (Ok doc,
               exchanged w (Request GET (Db.doc_url url id) [] None) (Ok r) n)).
  { unfold Db.get, Db.session_get.
    rewrite (io_bind_Ok _ _ _ _ _ (session_request_eq _ _ _ _ Hs)).
    destruct (Z.eqb_spec (status_code r) 200) as [H200|Hne]; cbn [negb].
    - destruct Hcase as [?|(doc & Hj & Hf)]; [done|].
      exists doc. split; [done|]. unfold lift. by rewrite Hj.
    - by exists VNone. }
  destruct Hget as (doc & Hf & Hget).
  unfold Orm.load. rewrite (io_bind_Ok _ _ _ _ _ Hget). by rewrite Hf.
Qed.

Lemma load_returns_none_without_document_witness :
  (Orm.load (T := Script.transport) Conflict.url TInt (VStr "inv-7")
     Loaded.blank).1 = Ok VNone
  ∧ (Orm.load (T := Script.transport) Conflict.url Invoice.schema (VStr "inv-7")
       Loaded.missing).1 = Ok VNone.
Proof.
  split.
  - rewrite (load_returns_none_without_document (T := Script.transport)
      Conflict.url TInt (VStr "inv-7") Loaded.blank
      (Response 200 (Ok (VDict []))) []); [done|done|].
    right. by exists (VDict []).
  - rewrite (load_returns_none_without_document (T := Script.transport)
      Conflict.url Invoice.schema (VStr "inv-7") Loaded.missing
      RefStore.not_found []); [done|done|].
    left. vm_compute. discriminate.
Defined.

(** X19: the facade's [find_first] is not the client's: it asks for up to
    50000 documents and deserializes every one of them before taking the
    first, so a document further down the list that does not deserialize
    makes it raise although the first one is fine. *)
Theorem orm_find_first_reads_every_hit `{B : Builtins} {T : Transport}
    url cls query w r n body pre bad post e :
  send (Request POST (url +:+ "/_find") []
          (Some (VDict (Db.find_body query 0 50000 VNone)))) (conn w)
    = (Ok r, n) →
  status_code r = 200 →
  json r = Ok (VDict body) →
  dict_get body (AStr "docs") = Some (VList (pre ++ bad :: post)) →
  Forall (λ id, is_ok (deserialize_doc
                         [InItem id.1; InCall (S (length (exchanges w)))]
                         cls id.2) = true) (enumerate pre) →
  deserialize_doc [InItem (length pre); InCall (S (length (exchanges w)))]
    cls bad = Raise e →
  (Orm.find_first url cls query w).1 = Raise e
  ∧ dict_get (Db.find_body query 0 50000 VNone) (AStr "limit")
    = Some (VInt 50000).
Proof.
  intros Hs H200 Hj Hdocs Hpre Hbad. split; [|reflexivity].
  assert (Hfind : Db.find url query 0 50000 VNone w
            = (Ok (VList (pre ++ bad :: post)),
               exchanged w (Request POST (url +:+ "/_find") []
                 (Some (VDict (Db.find_body query 0 50000 VNone)))) (Ok r) n)).
  { unfold Db.find, Db.session_post.
    rewrite (io_bind_Ok _ _ _ _ _ (session_request_eq _ _ _ _ Hs)).
    rewrite H200. cbn [Z.eqb Pos.eqb negb]. unfold io_bind, lift.
    rewrite Hj. cbn [py_get]. by rewrite Hdocs. }
  unfold Orm.find_first, Orm.find.
  unfold io_bind at 1. unfold io_bind at 1. rewrite Hfind.
  unfold io_bind, lift, Orm.call_place. cbn [py_iter].
  rewrite exchanges_exchanged, length_app, Nat.add_1_r.
  unfold enumerate. rewrite enumerate_from_app. cbn [enumerate_from].
  by rewrite (mapR_Raise_first _ _ (0 + length pre, bad)%nat _ e Hpre Hbad).
Qed.

Module Hits.
(** Two hits: a well-formed address, then one whose [zip] is no number. *)
Definition good : value :=
  VDict [(AStr "city", VStr "Oslo"); (AStr "zip", VInt 150)].

Definition bad : value :=
  VDict [(AStr "city", VStr "Rome"); (AStr "zip", VStr "n/a")].

Definition world0 : @world _ Script.transport :=
  @World _ Script.transport
    [Ok (Response 200 (Ok (RefStore.obj [("docs", VList [good; bad])])))] [].
End Hits.

Lemma orm_find_first_reads_every_hit_witness :
  ∃ e,
    (Orm.find_first (T := Script.transport) Conflict.url Invoice.address
       (VDict []) Hits.world0).1 = Raise e
    ∧ deserialize_doc [InItem 0; InCall 1] Invoice.address Hits.good
      = Ok (VInst "Address" [("city", VStr "Oslo"); ("zip", VInt 150)]).
Proof.
  destruct (deserialize_doc [InItem 1; InCall 1] Invoice.address Hits.bad)
    as [x|e] eqn:Hbad; [by vm_compute in Hbad|].
  exists e. split; [|reflexivity].
  apply (orm_find_first_reads_every_hit (T := Script.transport) Conflict.url
    Invoice.address (VDict []) Hits.world0
    (Response 200 (Ok (RefStore.obj [("docs", VList [Hits.good; Hits.bad])])))
    [] [(AStr "docs", VList [Hits.good; Hits.bad])] [Hits.good] Hits.bad [] e).
  - reflexivity.
  - reflexivity.
  - reflexivity.
  - reflexivity.
  - repeat constructor.
  - exact Hbad.
Defined.

(** ** Serializing what is already serialized *)

Section serialize_again.
Context `{B : Builtins}.

Lemma map_values_fixed (sv : value → value) (d : list (atom * value)) :
  Forall (λ kv, sv kv.2 = kv.2) d →
  map (λ kv, (kv.1, sv kv.2)) d = d.
Proof.
  induction 1 as [|[k v] d Hv _ IH]; [done|].
  cbn [map fst snd] in *. by rewrite Hv, IH.
Qed.

Lemma dict_of_items_fixed (sv : value → value) (items : list (atom * value)) :
  Forall (λ kv, sv kv.2 = kv.2) items →
  dict_of_items (map (λ kv, (kv.1, sv kv.2)) (dict_of_items items))
    = dict_of_items items.
Proof.
  intros Hfix.
  assert (Hd : Forall (λ kv, sv kv.2 = kv.2) (dict_of_items items)).
  { apply (Forall_values_dict_update (λ x, sv x = x)); [constructor|done]. }
  rewrite (map_values_fixed _ _ Hd).
  apply dict_of_items_NoDup.
  apply (NoDup_dict_update [] items). constructor.
Qed.

End serialize_again.

(** X20: serializing is idempotent on values: what [serialize_value]
    returns is left unchanged by a second pass, at every depth. *)
Theorem serialize_value_idempotent `{B : Builtins} v :
  serialize_value (serialize_value v) = serialize_value v.
Proof.
  induction v as [a|l IH|d IH|cls attrs IH] using value_nested_ind.
  - by destruct a.
  - cbn [serialize_value]. f_equal. rewrite map_map.
    apply map_ext_Forall. exact IH.
  - cbn [serialize_value]. f_equal.
    apply dict_of_items_fixed. apply Forall_fmap.
    eapply Forall_impl; [exact IH|]. done.
  - cbn [serialize_value]. rewrite serialize_fields_as_items. f_equal.
    apply dict_of_items_fixed. apply Forall_fmap.
    eapply Forall_impl; [exact IH|]. done.
Qed.

(** ** What a batch sends *)

(** X21: no document of the batch that [bulk_update] posts carries an
    empty revision: in the request body every document has either no
    [_rev] key or a [_rev] that is truthy, also when the batch lists the
    same document twice. *)
Theorem bulk_update_sends_no_empty_revision `{B : Builtins}
    heap docs r :
  Forall (λ r, (r < length heap)%nat) docs →
  r ∈ docs →
  match dict_get (Db.deref (Db.strip_revs heap docs) r) (AStr "_rev") with
  | Some rev => truthy rev = true
  | None => True
  end.
Proof.
  intros Hvalid Hr. rewrite Forall_forall in Hvalid.
  rewrite deref_strip_revs by done.
  destruct (decide (r ∈ docs)); [|done].
  unfold Db.strip_empty_rev.
  destruct (truthy (default VNone (dict_get (Db.deref heap r) (AStr "_rev"))))
    eqn:Ht.
  - destruct (dict_get (Db.deref heap r) (AStr "_rev")); done.
  - by rewrite dict_get_pop_eq.
Qed.

Lemma bulk_update_sends_no_empty_revision_witness :
  match dict_get (Db.deref (Db.strip_revs Batch.heap Batch.docs) 1)
          (AStr "_rev") with
  | Some rev => truthy rev = true
  | None => True
  end.
Proof.
  apply (bulk_update_sends_no_empty_revision Batch.heap Batch.docs 1%nat).
  - repeat constructor.
  - apply list_elem_of_further, list_elem_of_here.
Defined.

(** ** Purging what the listing found *)

Section purge_more.
Context `{B : Builtins} {T : Transport}.
Variable url : string.

Lemma deleted_docs_run w r n body items marks :
  send (Db.deleted_docs_request url) (conn w) = (Ok r, n) →
  status_code r = 200 →
  json r = Ok (VDict body) →
  dict_get body (AStr "results") = Some (VList items) →
  Forall2 feed_entry items marks →
  ∃ acc,
    Db.deleted_docs url w
      = (Ok (VDict acc), exchanged w (Db.deleted_docs_request url) (Ok r) n) ∧
    ∀ k, dict_get acc k = grouped (revs_of k marks).
Proof.
  intros Hs H200 Hj Hres Hall.
  destruct (collect_all_grouped items marks [] (λ _, []) Hall)
    as (acc & Hrun & Hacc); [done|].
  exists acc. split; [|done].
  unfold Db.deleted_docs.
  rewrite (io_bind_Ok _ _ _ _ _ (session_request_eq _ _ _ _ Hs)).
  rewrite H200. cbn [Z.eqb Pos.eqb negb].
  unfold io_bind, lift, io_ret. rewrite Hj.
  cbn [getitem as_key mbind result_bind]. rewrite Hres.
  cbn [py_iter]. by rewrite Hrun.
Qed.

Lemma purge_sent data w :
  sent (Db.purge url data w).2
    = sent w ++ [Request POST (url +:+ "/_purge") [] (Some data)].
Proof.
  unfold Db.purge, Db.session_post, io_bind, session_request, lift.
  destruct (send _ (conn w)) as [[r|e] n]; unfold sent; cbn [snd];
    by rewrite exchanges_exchanged, fmap_app.
Qed.

End purge_more.

(** X22: on a listing that reads well, [purge_all] sends two requests: the
    listing, and a POST to [/_purge] whose body maps every identifier with
    a tombstone to all its revisions in the order of the feed, and names no
    document that is not deleted. *)
Theorem purge_all_posts_the_grouped_revisions `{B : Builtins} {T : Transport}
    url w r n body items marks :
  send (Db.deleted_docs_request url) (conn w) = (Ok r, n) →
  status_code r = 200 →
  json r = Ok (VDict body) →
  dict_get body (AStr "results") = Some (VList items) →
  Forall2 feed_entry items marks →
  ∃ acc,
    sent (Db.purge_all url w).2
      = sent w ++ [Db.deleted_docs_request url;
                   Request POST (url +:+ "/_purge") [] (Some (VDict acc))] ∧
    ∀ k, dict_get acc k = grouped (revs_of k marks).
Proof.
  intros Hs H200 Hj Hres Hall.
  destruct (deleted_docs_run url w r n body items marks Hs H200 Hj Hres Hall)
    as (acc & Hrun & Hacc).
  exists acc. split; [|done].
  unfold Db.purge_all. rewrite (io_bind_Ok _ _ _ _ _ Hrun), purge_sent.
  unfold sent. by rewrite exchanges_exchanged, fmap_app, <- app_assoc.
Qed.

Lemma purge_all_posts_the_grouped_revisions_witness :
  ∃ acc,
    sent (Db.purge_all (T := Script.transport) Conflict.url Tombs.world0).2
      = [Db.deleted_docs_request Conflict.url;
         Request POST (Conflict.url +:+ "/_purge") [] (Some (VDict acc))] ∧
    dict_get acc (AStr "a") = Some (VList [VStr "2"; VStr "4"]) ∧
    dict_get acc (AStr "c") = None.
Proof.
  destruct (purge_all_posts_the_grouped_revisions (T := Script.transport)
    Conflict.url Tombs.world0 Tombs.feed []
    [(AStr "results", VList Tombs.items)] Tombs.items Tombs.marks)
    as (acc & Hrun & Hacc).
  - reflexivity.
  - reflexivity.
  - reflexivity.
  - reflexivity.
  - repeat first
      [ apply List.Forall2_nil
      | apply List.Forall2_cons ].
    + by eapply entry_tombstone.
    + by eapply entry_live.
    + by eapply entry_tombstone.
    + by apply entry_without_doc.
  - exists acc. split; [exact Hrun|].
    split; [exact (Hacc (AStr "a"))|exact (Hacc (AStr "c"))].
Defined.

(** ** Documents that are no dicts *)

Section stray_documents.
Context `{B : Builtins}.

Lemma existsb_no_name (l : list value) name :
  VStr name ∉ l →
  existsb (λ x, match x with
                | VStr s => String.eqb s name
                | _ => false
                end) l = false.
Proof.
  induction l as [|x l IH]; intros Hn; [done|].
  apply not_elem_of_cons in Hn as [Hx Hl].
  cbn [existsb]. rewrite (IH Hl), orb_false_r.
  destruct x as [[| | | |s| | |]| | |]; try done.
  destruct (String.eqb_spec s name) as [->|]; done.
Qed.

Lemma fill_fields_doc_list here l fs acc :
  Forall (λ f, VStr (field_name f) ∉ l) fs →
  fill_fields_doc here (VList l) fs acc
  = fill_fields deserialize_value here [] fs acc.
Proof.
  intros Hfs. revert acc.
  induction Hfs as [|f fs Hf _ IH]; intros acc; [done|].
  cbn [fill_fields_doc fill_fields].
  unfold field_value_doc, field_value, py_contains.
  cbn [mbind result_bind dict_get]. rewrite (existsb_no_name _ _ Hf).
  destruct (missing_field (InField (field_name f) :: here) f);
    cbn [mbind result_bind]; [apply IH|done].
Qed.

End stray_documents.

(** X24: a document that is a list is not rejected: [deserialize] tests
    each field name for membership, finds none, and goes on as the same
    call does on an empty document: every field is given its default, the
    result of its default factory, or null. *)
Theorem deserialize_of_a_list_gives_defaults `{B : Builtins} here cls flds l :
  Forall (λ f, VStr (field_name f) ∉ l) flds →
  deserialize_doc here (TData cls flds) (VList l)
  = deserialize here (TData cls flds) [].
Proof.
  intros Hfs. cbn [deserialize_doc deserialize]. unfold deserialize_fields.
  by rewrite fill_fields_doc_list.
Qed.

Lemma deserialize_of_a_list_gives_defaults_witness :
  deserialize_doc [] Invoice.address (VList [VStr "Oslo"; VInt 150])
    = Ok (VInst "Address" [("city", VNone); ("zip", VNone)]).
Proof.
  unfold Invoice.address.
  rewrite (deserialize_of_a_list_gives_defaults [] "Address"
    [Field "city" TStr None None true; Field "zip" (TOptional TInt) (Some VNone) None true]
    [VStr "Oslo"; VInt 150]).
  - reflexivity.
  - repeat constructor; intros Hin;
      repeat (apply elem_of_cons in Hin as [Hin|Hin]; [discriminate|]);
      by apply elem_of_nil in Hin.
Defined.

(** ** Saving when the store gives the document up *)

(** X25: [save] never returns [None].  When the write is rejected and the
    re-fetch finds nothing, so that [put] gives up, [save] raises the
    [TypeError] of subscripting [None], after the two requests of [put]. *)
Theorem save_raises_when_write_is_given_up `{B : Builtins} {T : Transport}
    url self doc id w r1 n1 r2 n2 :
  serialize self = Ok doc →
  dict_get doc (AStr "_id") = Some id → id ≠ VNone →
  send (Request PUT (Db.doc_url url id) [] (Some (VDict (Db.strip_null_rev doc))))
       (conn w) = (Ok r1, n1) →
  Db.accepted (status_code r1) = false →
  send (Request GET (Db.doc_url url id) [] None) n1 = (Ok r2, n2) →
  status_code r2 ≠ 200
  ∨ (∃ found, json r2 = Ok found ∧ truthy found = false) →
  (Orm.save url self w).1
    = Raise (Exn TypeError "'NoneType' object is not subscriptable" None)
  ∧ sent (Orm.save url self w).2
    = sent w ++ [Request PUT (Db.doc_url url id) []
                   (Some (VDict (Db.strip_null_rev doc)));
                 Request GET (Db.doc_url url id) [] None].
Proof.
  intros Hser Hid Hn H1 Hrej H2 Hcase.
  assert (Hput : Db.put url doc w =
    (Ok None,
     exchanged
       (exchanged w
          (Request PUT (Db.doc_url url id) []
             (Some (VDict (Db.strip_null_rev doc)))) (Ok r1) n1)
       (Request GET (Db.doc_url url id) [] None) (Ok r2) n2)).
  { destruct (put_cases url doc) as [[_ [Hp|Hp]]|(id1 & Hid1 & _ & ->)];
      try congruence.
    assert (id1 = id) as -> by congruence.
    unfold put_known, Db.session_put.
    rewrite (io_bind_Ok _ _ _ _ _ (session_request_eq _ _ _ _ H1)).
    rewrite Hrej. cbn [negb].
    unfold Db.get, Db.session_get.
    unfold io_bind at 1. unfold io_bind at 1.
    rewrite (session_request_eq _ (exchanged w _ (Ok r1) n1) _ _ H2).
    destruct (Z.eqb_spec (status_code r2) 200) as [H200|Hne]; cbn [negb].
    - destruct Hcase as [?|(found & Hj & Hf)]; [done|].
      unfold lift. rewrite Hj. by rewrite Hf.
    - done. }
  assert (Hsave : Orm.save url self w =
    (Raise (not_subscriptable VNone),
     exchanged
       (exchanged w
          (Request PUT (Db.doc_url url id) []
             (Some (VDict (Db.strip_null_rev doc)))) (Ok r1) n1)
       (Request GET (Db.doc_url url id) [] None) (Ok r2) n2)).
  { unfold Orm.save. rewrite Hser.
    rewrite (io_bind_Ok _ _ _ doc w eq_refl).
    by rewrite (io_bind_Ok _ _ _ _ _ Hput). }
  rewrite Hsave. split; [done|].
  unfold sent. cbn [snd].
  by rewrite !exchanges_exchanged, !fmap_app, <- app_assoc.
Qed.

Module Vanished.
(** An instance that still carries revision 1 of a purged document. *)
Definition note : value :=
  VInst "Note" [("_id", VStr "gone"); ("_rev", VStr "1"); ("x", VInt 2)].
End Vanished.

Lemma save_raises_when_write_is_given_up_witness :
  (Orm.save (T := RefStore.transport) Conflict.url Vanished.note
     Conflict.world0).1
    = Raise (Exn TypeError "'NoneType' object is not subscriptable" None).
Proof.
  apply (save_raises_when_write_is_given_up (T := RefStore.transport)
    Conflict.url Vanished.note Orphan.doc (VStr "gone") Conflict.world0
    RefStore.conflict Conflict.store0 RefStore.not_found Conflict.store0).
  - reflexivity.
  - reflexivity.
  - discriminate.
  - vm_compute. reflexivity.
  - reflexivity.
  - vm_compute. reflexivity.
  - left. vm_compute. discriminate.
Defined.
